(** * Commune platform backend: identifiers, permissions, messages, presence

    A shallow embedding of the parts of the backend that the gateway core
    rests on:

    - [shared/constants/permissions.ts]  (module [Permissions], [PermissionUtils])
    - [shared/utils/snowflake.ts]        (module [Snowflake])
    - [modules/message/message.service.ts] (modules [MessageService],
      [Moderation], [Mentions])
    - [shared/middleware/auth.ts], the Socket.IO gateway and the HTTP hooks
      (modules [Gateway], [GatewayEvents], [Voice], [Middleware],
      [HttpAuth])
    - [server.ts], the error handler (module [Middleware])
    - [config/redis], which the source tree holds as [app/src/App.tsx]:
      counters, presence, socket registry, message cache

    JavaScript [bigint] values are arbitrary-precision two's-complement
    integers, so they are embedded as [Z] with [Z.land], [Z.lor], [Z.lnot],
    [Z.shiftl] and [Z.shiftr]; no wrap-around takes place anywhere in the
    source. *)

From Stdlib Require Import ZArith Lia List Ascii String Bool Sorted.
From stdpp Require Import gmap strings pretty list fin_maps.

Local Open Scope Z_scope.

(** ** How a call ends *)

(** A call returns a value, throws an [Error] with a message, or is
    [Pending]: it has not come back (a busy loop that is still reading the
    clock).  [Pending] is what the embedding answers when the clock
    readings it was given are used up. *)
Inductive outcome (A : Type) : Type :=
| Returns (a : A)
| Throws (msg : string)
| Pending.
Arguments Returns {A} a.
Arguments Throws {A} msg.
Arguments Pending {A}.

#[global] Instance outcome_ret : MRet outcome := fun A a => Returns a.

#[global] Instance outcome_bind : MBind outcome := fun A B k r =>
  match r with
  | Returns a => k a
  | Throws msg => Throws msg
  | Pending => Pending
  end.

(** ** permissions.ts *)

Module Permissions.

Definition CREATE_INSTANT_INVITE : Z := Z.shiftl 1 0.
Definition KICK_MEMBERS : Z := Z.shiftl 1 1.
Definition BAN_MEMBERS : Z := Z.shiftl 1 2.
Definition ADMINISTRATOR : Z := Z.shiftl 1 3.
Definition MANAGE_CHANNELS : Z := Z.shiftl 1 4.
Definition MANAGE_GUILD : Z := Z.shiftl 1 5.
Definition ADD_REACTIONS : Z := Z.shiftl 1 6.
Definition VIEW_AUDIT_LOG : Z := Z.shiftl 1 7.
Definition VIEW_CHANNEL : Z := Z.shiftl 1 10.
Definition SEND_MESSAGES : Z := Z.shiftl 1 11.
Definition MANAGE_MESSAGES : Z := Z.shiftl 1 13.

(** [Permissions.ALL]: bits 0-25, 29-40 and 42-46. *)
Definition ALL_bits : list Z :=
  [0; 1; 2; 3; 4; 5; 6; 7; 8; 9; 10; 11; 12; 13; 14; 15; 16; 17;
   18; 19; 20; 21; 22; 23; 24; 25; 29; 30; 31; 32;
   33; 34; 35; 36; 37; 38; 39; 40; 42; 43; 44; 45; 46].

Definition ALL : Z :=
  fold_left (fun acc b => Z.lor acc (Z.shiftl 1 b)) ALL_bits 0.

Definition NONE : Z := 0.

End Permissions.

(** A channel overwrite as [calculateEffectivePermissions] receives it:
    [{ allow: bigint; deny: bigint }]. *)
Record Overwrite : Type := mkOverwrite { allow : Z; deny : Z }.

Module PermissionUtils.

(** [(permissions & permission) === permission] *)
Definition has (permissions permission : Z) : bool :=
  Z.land permissions permission =? permission.

Definition hasAny (permissions : Z) (perms : list Z) : bool :=
  existsb (has permissions) perms.

Definition hasAll (permissions : Z) (perms : list Z) : bool :=
  forallb (has permissions) perms.

Definition add (permissions permission : Z) : Z :=
  Z.lor permissions permission.

Definition remove (permissions permission : Z) : Z :=
  Z.land permissions (Z.lnot permission).

Definition toggle (permissions permission : Z) : Z :=
  Z.lxor permissions permission.

Definition isAdministrator (permissions : Z) : bool :=
  has permissions Permissions.ADMINISTRATOR.

(** The [for (const overwrite of channelOverwrites)] loop: the running
    value [permissions] is the accumulator, the list is walked front to
    back. *)
Fixpoint calculateEffectivePermissions
    (basePermissions : Z) (channelOverwrites : list Overwrite) : Z :=
  match channelOverwrites with
  | [] => basePermissions
  | overwrite :: rest =>
      calculateEffectivePermissions
        (Z.lor (Z.land basePermissions (Z.lnot (deny overwrite)))
               (allow overwrite))
        rest
  end.

End PermissionUtils.

(** ** snowflake.ts *)

Module Snowflake.

Definition DISCORD_EPOCH : Z := 1420070400000.
Definition CUSTOM_EPOCH : Z := 1609459200000.

Definition TIMESTAMP_BITS : Z := 42.
Definition WORKER_ID_BITS : Z := 5.
Definition DATACENTER_ID_BITS : Z := 5.
Definition SEQUENCE_BITS : Z := 12.

Definition MAX_WORKER_ID : Z := Z.shiftl 1 WORKER_ID_BITS - 1.
Definition MAX_DATACENTER_ID : Z := Z.shiftl 1 DATACENTER_ID_BITS - 1.
Definition MAX_SEQUENCE : Z := Z.shiftl 1 SEQUENCE_BITS - 1.

Definition WORKER_ID_SHIFT : Z := SEQUENCE_BITS.
Definition DATACENTER_ID_SHIFT : Z := SEQUENCE_BITS + WORKER_ID_BITS.
Definition TIMESTAMP_SHIFT : Z :=
  SEQUENCE_BITS + WORKER_ID_BITS + DATACENTER_ID_BITS.

(** A JavaScript [number] handed to [BigInt(...)]: an integral value
    converts exactly, anything else (a fraction, [NaN], an infinity)
    makes [BigInt] throw a [RangeError]. *)
Inductive number : Type :=
| Integral (z : Z)
| NonIntegral.

Definition BigInt (n : number) : outcome Z :=
  match n with
  | Integral z => Returns z
  | NonIntegral => Throws "RangeError: cannot be converted to a BigInt"
  end.

Record SnowflakeConfig : Type := mkConfig {
  cfg_workerId : option number;
  cfg_datacenterId : option number;
  cfg_epoch : option Z
}.

(** The private fields of a [Snowflake] instance. *)
Record t : Type := mkSnowflake {
  workerId : Z;
  datacenterId : Z;
  epoch : Z;
  sequence : Z;
  lastTimestamp : Z;
  lock : bool
}.

(** [a ?? b] *)
Definition nullish {A : Type} (a : option A) (b : A) : A :=
  match a with Some x => x | None => b end.

Definition constructor (config : SnowflakeConfig) : outcome t :=
  w ← BigInt (nullish (cfg_workerId config) (Integral 1));
  let workerId := Z.land w MAX_WORKER_ID in
  d ← BigInt (nullish (cfg_datacenterId config) (Integral 1));
  let datacenterId := Z.land d MAX_DATACENTER_ID in
  let epoch := nullish (cfg_epoch config) CUSTOM_EPOCH in
  if (workerId <? 0) || (workerId >? MAX_WORKER_ID) then
    Throws "Worker ID must be between 0 and 31"
  else if (datacenterId <? 0) || (datacenterId >? MAX_DATACENTER_ID) then
    Throws "Datacenter ID must be between 0 and 31"
  else
    Returns {| workerId := workerId; datacenterId := datacenterId;
               epoch := epoch; sequence := 0; lastTimestamp := -1;
               lock := false |}.

Definition set_sequence (g : t) (s : Z) : t :=
  {| workerId := workerId g; datacenterId := datacenterId g;
     epoch := epoch g; sequence := s;
     lastTimestamp := lastTimestamp g; lock := lock g |}.

Definition set_lastTimestamp (g : t) (ts : Z) : t :=
  {| workerId := workerId g; datacenterId := datacenterId g;
     epoch := epoch g; sequence := sequence g;
     lastTimestamp := ts; lock := lock g |}.

(** [waitNextMillis]: read the clock, and keep reading while the reading
    is [<= lastTimestamp]. *)
Fixpoint waitNextMillis (last : Z) (clock : list Z) : option (Z * list Z) :=
  match clock with
  | [] => None
  | timestamp :: rest =>
      if timestamp <=? last then waitNextMillis last rest
      else Some (timestamp, rest)
  end.

(** The composed identifier, the [return] expression of [generate]. *)
Definition compose (g : t) (timestamp : Z) : Z :=
  Z.lor
    (Z.lor
      (Z.lor (Z.shiftl (timestamp - epoch g) TIMESTAMP_SHIFT)
             (Z.shiftl (datacenterId g) DATACENTER_ID_SHIFT))
      (Z.shiftl (workerId g) WORKER_ID_SHIFT))
    (sequence g).

(** The tail of [generate]: [this.lastTimestamp = timestamp] and the
    composition. *)
Definition issue (g : t) (timestamp : Z) (clock : list Z)
  : outcome Z * t * list Z :=
  let g' := set_lastTimestamp g timestamp in
  (Returns (compose g' timestamp), g', clock).

(** [generate]: how the call ends, the instance after the call and the
    clock readings left.  [clock] lists the values that the successive
    [Date.now()] reads return. *)
Definition generate (g : t) (clock : list Z) : outcome Z * t * list Z :=
  match clock with
  | [] => (Pending, g, [])
  | timestamp :: clock1 =>
      if timestamp <? lastTimestamp g then
        (Throws "Clock moved backwards. Refusing to generate ID", g, clock1)
      else if timestamp =? lastTimestamp g then
        let g1 := set_sequence g (Z.land (sequence g + 1) MAX_SEQUENCE) in
        if sequence g1 =? 0 then
          match waitNextMillis (lastTimestamp g1) clock1 with
          | Some (timestamp', clock2) => issue g1 timestamp' clock2
          | None => (Pending, g1, [])
          end
        else issue g1 timestamp clock1
      else
        issue (set_sequence g 0) timestamp clock1
  end.

(** A [Date]: its time value in milliseconds, or [None] for an invalid
    date.  [new Date(Number(x))] for a bigint [x]: the conversion to a
    double is exact below [2^53], the date is valid up to [8.64e15 < 2^53]
    in absolute value, and rounding is monotone, so the date is valid
    exactly when [|x| <= 8.64e15] and then holds [x] itself. *)
Definition Date : Type := option Z.

Definition MAX_TIME_VALUE : Z := 8640000000000000.

Definition Date_of_BigInt (x : Z) : Date :=
  if Z.abs x <=? MAX_TIME_VALUE then Some x else None.

Record Deconstructed : Type := mkDeconstructed {
  d_timestamp : Date;
  d_workerId : Z;
  d_datacenterId : Z;
  d_sequence : Z;
  d_epoch : Z
}.

(** [Snowflake.deconstruct] on a bigint argument. *)
Definition deconstruct (id : Z) : Deconstructed :=
  let timestamp := Z.shiftr id TIMESTAMP_SHIFT + CUSTOM_EPOCH in
  let workerId := Z.land (Z.shiftr id WORKER_ID_SHIFT) MAX_WORKER_ID in
  let datacenterId :=
    Z.land (Z.shiftr id DATACENTER_ID_SHIFT) MAX_DATACENTER_ID in
  let sequence := Z.land id MAX_SEQUENCE in
  {| d_timestamp := Date_of_BigInt timestamp;
     d_workerId := workerId;
     d_datacenterId := datacenterId;
     d_sequence := sequence;
     d_epoch := CUSTOM_EPOCH |}.

(** A driver: [n] successive calls of [generate] on one instance, each
    reading the clock where the previous one stopped.  It collects the
    identifiers returned and stops at the first call that does not
    return. *)
Fixpoint generateMany (n : nat) (g : t) (clock : list Z)
  : list Z * t * list Z :=
  match n with
  | O => ([], g, clock)
  | S n' =>
      match generate g clock with
      | (Returns id, g', clock') =>
          let '(ids, g'', clock'') := generateMany n' g' clock' in
          (id :: ids, g'', clock'')
      | (_, g', clock') => ([], g', clock')
      end
  end.

(** The exported singleton when [WORKER_ID] and [DATACENTER_ID] are not
    set: [new Snowflake({ workerId: 1, datacenterId: 1 })]. *)
Definition default_instance : t :=
  {| workerId := 1; datacenterId := 1; epoch := CUSTOM_EPOCH;
     sequence := 0; lastTimestamp := -1; lock := false |}.

(** The ranges the fields of an instance stay in. *)
Definition wf (g : t) : Prop :=
  0 <= workerId g <= MAX_WORKER_ID /\
  0 <= datacenterId g <= MAX_DATACENTER_ID /\
  0 <= sequence g <= MAX_SEQUENCE.

(** What [Date.now()] can return: a valid time value. *)
Definition valid_time (ts : Z) : Prop := Z.abs ts <= MAX_TIME_VALUE.

(** The identifier that encodes millisecond [ts] and sequence number [s]
    for the worker and datacenter of [g]. *)
Definition id_at (g : t) (ts s : Z) : Z := compose (set_sequence g s) ts.

End Snowflake.

(** ** The store behind [prisma]

    One list per table, rows in insertion order; [findUnique] and
    [findFirst] return the first row that matches.  Only the columns that
    the modelled functions read or write are kept.  Store calls always
    succeed: infrastructure failures are outside the embedding. *)

Record Server : Type := mkServer {
  server_id : Z;
  server_ownerId : Z
}.

Record Role : Type := mkRole {
  role_id : Z;
  role_permissions : Z
}.

(** A [serverMembers] row with its [roleMembers] and their [role]
    included. *)
Record ServerMember : Type := mkServerMember {
  member_serverId : Z;
  member_userId : Z;
  member_roleMembers : list Role
}.

Inductive OverwriteType : Type := OverwriteRole | OverwriteMember.

(** [PermissionOverwrite] of [shared/types]. *)
Record PermissionOverwrite : Type := mkPermissionOverwrite {
  po_id : Z;
  po_type : OverwriteType;
  po_allow : Z;
  po_deny : Z
}.

Record Channel : Type := mkChannel {
  channel_id : Z;
  channel_serverId : option Z;
  channel_isDeleted : bool;
  channel_permissionOverwrites : list PermissionOverwrite;
  channel_lastMessageId : option Z
}.

Record ChannelRecipient : Type := mkChannelRecipient {
  recipient_channelId : Z;
  recipient_userId : Z
}.

(** A [messages] row.  The mention columns, which [createMessage] fills
    from the content after every check has passed, are left out. *)
Record Message : Type := mkMessage {
  message_id : Z;
  message_snowflakeId : Z;
  message_channelId : Z;
  message_authorId : Z;
  message_content : option string;
  message_nonce : option string;
  message_referencedMessageId : option Z;
  message_attachments : list string
}.

Inductive Status : Type := online | offline | idle | dnd | invisible.

Record Database : Type := mkDatabase {
  servers : list Server;
  serverMembers : list ServerMember;
  channels : list Channel;
  channelRecipients : list ChannelRecipient;
  messages : list Message;
  users_status : gmap Z Status
}.

Definition set_channels (db : Database) (cs : list Channel) : Database :=
  {| servers := servers db; serverMembers := serverMembers db;
     channels := cs; channelRecipients := channelRecipients db;
     messages := messages db; users_status := users_status db |}.

Definition set_messages (db : Database) (ms : list Message) : Database :=
  {| servers := servers db; serverMembers := serverMembers db;
     channels := channels db; channelRecipients := channelRecipients db;
     messages := ms; users_status := users_status db |}.

Definition set_users_status (db : Database) (us : gmap Z Status) : Database :=
  {| servers := servers db; serverMembers := serverMembers db;
     channels := channels db; channelRecipients := channelRecipients db;
     messages := messages db; users_status := us |}.

(** [prisma.servers.findUnique({ where: { id } })] *)
Definition findServer (db : Database) (id : Z) : option Server :=
  find (fun s => server_id s =? id) (servers db).

(** [prisma.channels.findUnique({ where: { id } })] *)
Definition findChannel (db : Database) (id : Z) : option Channel :=
  find (fun c => channel_id c =? id) (channels db).

(** [prisma.serverMembers.findFirst({ where: { serverId, userId } })] *)
Definition findMember (db : Database) (serverId userId : Z)
  : option ServerMember :=
  find (fun m => (member_serverId m =? serverId) && (member_userId m =? userId))
       (serverMembers db).

(** [prisma.channelRecipients.findFirst({ where: { channelId, userId } })] *)
Definition findRecipient (db : Database) (channelId userId : Z)
  : option ChannelRecipient :=
  find (fun r => (recipient_channelId r =? channelId)
                 && (recipient_userId r =? userId))
       (channelRecipients db).

Definition set_lastMessageId (c : Channel) (mid : Z) : Channel :=
  {| channel_id := channel_id c; channel_serverId := channel_serverId c;
     channel_isDeleted := channel_isDeleted c;
     channel_permissionOverwrites := channel_permissionOverwrites c;
     channel_lastMessageId := Some mid |}.

(** [prisma.channels.update({ where: { id }, data: { lastMessageId } })] *)
Definition updateLastMessage (db : Database) (id mid : Z) : Database :=
  set_channels db
    (map (fun c => if channel_id c =? id then set_lastMessageId c mid else c)
         (channels db)).

(** The key that the store gives a new [messages] row. *)
Definition nextMessageId (db : Database) : Z :=
  Z.of_nat (length (messages db)) + 1.

(** The truthiness test [if (channel.serverId)]: an absent id and the
    bigint [0n] are both falsy. *)
Definition truthy_id (o : option Z) : option Z :=
  match o with
  | Some z => if z =? 0 then None else Some z
  | None => None
  end.

(** ** config/redis

    The module that the backend imports as [@/config/redis] is in the
    source tree as [app/src/App.tsx], lines 793 to 1164.  Its [redis] is
    a client of a Redis server ([new Redis(...)] of [ioredis]); the
    methods of that client are the Redis commands of the same names. *)

(** *** The counters

    A key holds an integer and, once [expire] was called on it, the time
    (milliseconds) at which it goes away.  [now] is the time of the Redis
    server when the command runs. *)

Record RedisEntry : Type := mkRedisEntry {
  entry_value : Z;
  entry_expireAt : option Z
}.

Definition redis_live (now : Z) (e : RedisEntry) : bool :=
  match entry_expireAt e with
  | Some t => now <? t
  | None => true
  end.

Definition redis_get (store : gmap string RedisEntry) (now : Z) (key : string)
  : option RedisEntry :=
  match store !! key with
  | Some e => if redis_live now e then Some e else None
  | None => None
  end.

(** [redis.incr(key)], the Redis command [INCR]: a missing (or expired)
    key counts from 0 and has no expiry, an existing one keeps its
    expiry. *)
Definition redis_incr (store : gmap string RedisEntry) (now : Z) (key : string)
  : Z * gmap string RedisEntry :=
  match redis_get store now key with
  | Some e =>
      (entry_value e + 1,
       <[key := mkRedisEntry (entry_value e + 1) (entry_expireAt e)]> store)
  | None => (1, <[key := mkRedisEntry 1 None]> store)
  end.

(** [redis.expire(key, seconds)], the Redis command [EXPIRE]: a live key
    goes away [seconds] after the command, a missing key is left
    missing. *)
Definition redis_expire (store : gmap string RedisEntry) (now : Z)
    (key : string) (seconds : Z) : gmap string RedisEntry :=
  match redis_get store now key with
  | Some e =>
      <[key := mkRedisEntry (entry_value e) (Some (now + seconds * 1000))]> store
  | None => store
  end.

(** *** Presence and the sockets of a user

    What [updatePresence], [registerWebSocket] and [unregisterWebSocket]
    (App.tsx, lines 923 to 942 and 1058 to 1076) keep in Redis, which all
    gateway processes share: the string keys [presence:<userId>] with
    their expiry, the sorted set [online_users], the sets
    [ws:user:<userId>] and the string keys [ws:session:<socketId>] with
    their expiry.  A key is kept here by the id it is built from. *)

(** The value of [presence:<userId>] and the time at which the key goes
    away. *)
Record PresenceRecord : Type := mkPresenceRecord {
  presence_status : string;
  presence_customStatus : option string;     (* [None]: [null] *)
  presence_lastSeenAt : Z;
  presence_expireAt : Z
}.

Record PresenceRegistry : Type := mkPresenceRegistry {
  presence : gmap Z PresenceRecord;
  onlineSet : gmap Z Z;                      (* member, score *)
  socketsOf : gmap Z (gset string);
  sessionOf : gmap string (Z * Z)            (* user id, expiry *)
}.

Definition PRESENCE_TTL : Z := 300.

Definition Status_eqb (a b : Status) : bool :=
  match a, b with
  | online, online | offline, offline | idle, idle
  | dnd, dnd | invisible, invisible => true
  | _, _ => false
  end.

(** The name of a status, as the handlers write it. *)
Definition Status_name (s : Status) : string :=
  match s with
  | online => "online"
  | offline => "offline"
  | idle => "idle"
  | dnd => "dnd"
  | invisible => "invisible"
  end.

(** [customStatus || null] *)
Definition or_null (customStatus : option string) : option string :=
  match customStatus with
  | Some s => if decide (s = "") then None else Some s
  | None => None
  end.

(** [updatePresence(userId, status, customStatus)] at time [now]: [setex]
    of the record for 300 seconds, then [zadd] with the time as score, or
    [zrem] for the status "offline". *)
Definition updatePresence (r : PresenceRegistry) (now userId : Z)
    (status : string) (customStatus : option string) : PresenceRegistry :=
  {| presence :=
       <[userId := mkPresenceRecord status (or_null customStatus) now
                     (now + PRESENCE_TTL * 1000)]> (presence r);
     onlineSet := if decide (status = "offline")
                  then delete userId (onlineSet r)
                  else <[userId := now]> (onlineSet r);
     socketsOf := socketsOf r;
     sessionOf := sessionOf r |}.

(** [getUserSockets(userId)]: [smembers] of the user's set. *)
Definition getUserSockets (r : PresenceRegistry) (userId : Z) : gset string :=
  default ∅ (socketsOf r !! userId).

(** [hasActiveConnections(userId)]: [scard(...) > 0]. *)
Definition hasActiveConnections (r : PresenceRegistry) (userId : Z) : bool :=
  (0 <? size (getUserSockets r userId))%nat.

(** [registerWebSocket(sessionId, userId, socketId)] at time [now]: [sadd]
    to the user's set, then [setex] of [ws:session:<socketId>] for 3600
    seconds.  The function does not read its [sessionId]. *)
Definition registerWebSocket (r : PresenceRegistry) (now userId : Z)
    (socketId : string) : PresenceRegistry :=
  {| presence := presence r; onlineSet := onlineSet r;
     socketsOf := <[userId := getUserSockets r userId ∪ {[socketId]}]>
                    (socketsOf r);
     sessionOf := <[socketId := (userId, now + 3600 * 1000)]> (sessionOf r) |}.

(** [unregisterWebSocket(userId, socketId)]: [srem] from the user's set (a
    set that becomes empty is no key any more), then [del] of
    [ws:session:<socketId>]. *)
Definition unregisterWebSocket (r : PresenceRegistry) (userId : Z)
    (socketId : string) : PresenceRegistry :=
  {| presence := presence r; onlineSet := onlineSet r;
     socketsOf :=
       if decide (getUserSockets r userId ∖ {[socketId]} = ∅)
       then delete userId (socketsOf r)
       else <[userId := getUserSockets r userId ∖ {[socketId]}]>
              (socketsOf r);
     sessionOf := delete socketId (sessionOf r) |}.

(** *** [JSON.stringify]

    The values that [JSON.stringify] meets in a row of the store:
    [null], strings, bigints, arrays and objects with their properties in
    order. *)
#[local] Unset Elimination Schemes.
Inductive Json : Type :=
| JNull
| JString (s : string)
| JBigInt (n : Z)
| JArray (items : list Json)
| JObject (fields : list (string * Json)).
#[local] Set Elimination Schemes.

(** The message of the [TypeError] that [JSON.stringify] throws when it
    comes to a bigint. *)
Definition BIGINT_NOT_SERIALIZABLE : string :=
  "Do not know how to serialize a BigInt".

Definition hex_digit (n : N) : ascii :=
  nth (N.to_nat n) (list_ascii_of_string "0123456789abcdef") "0"%char.

Definition double_quote : string := String (ascii_of_N 34) EmptyString.

(** How a character is written inside a JSON string: the quote, the
    backslash and the control characters are escaped. *)
Definition quoteChar (c : ascii) : string :=
  let n := N_of_ascii c in
  if (n =? 8)%N then "\b"
  else if (n =? 9)%N then "\t"
  else if (n =? 10)%N then "\n"
  else if (n =? 12)%N then "\f"
  else if (n =? 13)%N then "\r"
  else if (n =? 34)%N then "\" +:+ double_quote
  else if (n =? 92)%N then "\\"
  else if (n <? 32)%N
       then "\u00" +:+ String (hex_digit (n / 16))
                         (String (hex_digit (n mod 16)) EmptyString)
  else String c EmptyString.

Definition quoteJSONString (s : string) : string :=
  double_quote
    +:+ String.concat "" (map quoteChar (list_ascii_of_string s))
    +:+ double_quote.

(** The text of a value; [None] when a bigint is met on the way. *)
Fixpoint serializeJSON (v : Json) : option string :=
  match v with
  | JNull => Some "null"
  | JString s => Some (quoteJSONString s)
  | JBigInt _ => None
  | JArray items =>
      match (fix each (items : list Json) : option (list string) :=
               match items with
               | [] => Some []
               | item :: rest =>
                   match serializeJSON item, each rest with
                   | Some t, Some ts => Some (t :: ts)
                   | _, _ => None
                   end
               end) items with
      | Some texts => Some ("[" +:+ String.concat "," texts +:+ "]")
      | None => None
      end
  | JObject fields =>
      match (fix each (fields : list (string * Json))
               : option (list string) :=
               match fields with
               | [] => Some []
               | (key, item) :: rest =>
                   match serializeJSON item, each rest with
                   | Some t, Some ts =>
                       Some ((quoteJSONString key +:+ ":" +:+ t) :: ts)
                   | _, _ => None
                   end
               end) fields with
      | Some texts => Some ("{" +:+ String.concat "," texts +:+ "}")
      | None => None
      end
  end.

(** [JSON.stringify(value)] *)
Definition JSON_stringify (v : Json) : outcome string :=
  match serializeJSON v with
  | Some text => Returns text
  | None => Throws BIGINT_NOT_SERIALIZABLE
  end.

(** Whether a bigint occurs in a value. *)
Fixpoint has_bigint (v : Json) : bool :=
  match v with
  | JNull | JString _ => false
  | JBigInt _ => true
  | JArray items =>
      (fix any (items : list Json) : bool :=
         match items with
         | [] => false
         | item :: rest => has_bigint item || any rest
         end) items
  | JObject fields =>
      (fix any (fields : list (string * Json)) : bool :=
         match fields with
         | [] => false
         | (_, item) :: rest => has_bigint item || any rest
         end) fields
  end.

(** *** The message cache

    The lists [channel:messages:<channelId>] (App.tsx, lines 1097 to
    1125): the serialised messages, newest first, and the time at which
    the key goes away.  The lists are kept apart from the counters here;
    their keys differ from the keys of the counters by the prefix. *)
Record CachedList : Type := mkCachedList {
  cached_items : list string;
  cached_expireAt : option Z
}.

Definition MESSAGE_CACHE_PREFIX : string := "channel:messages:".
Definition MESSAGE_CACHE_TTL : Z := 3600.
Definition MESSAGE_CACHE_LIMIT : Z := 100.

(** The elements of a list key at time [now]; a key that is missing or
    has gone away holds none. *)
Definition cached_live (cache : gmap string CachedList) (now : Z)
    (key : string) : list string :=
  match cache !! key with
  | Some l =>
      match cached_expireAt l with
      | Some t => if now <? t then cached_items l else []
      | None => cached_items l
      end
  | None => []
  end.

(** [cacheMessage(channelId, message)] at time [now]: the argument of
    [lpush] is [JSON.stringify(message)], so nothing is sent to Redis when
    that throws; otherwise [lpush], [ltrim(key, 0, 99)] and
    [expire(key, 3600)]. *)
Definition cacheMessage (now channelId : Z) (message : Json)
    (cache : gmap string CachedList)
  : outcome unit * gmap string CachedList :=
  let key := MESSAGE_CACHE_PREFIX +:+ pretty channelId in
  match JSON_stringify message with
  | Returns text =>
      let pushed := text :: cached_live cache now key in
      let trimmed := take (Z.to_nat MESSAGE_CACHE_LIMIT) pushed in
      (Returns tt,
       <[key := mkCachedList trimmed
                  (Some (now + MESSAGE_CACHE_TTL * 1000))]> cache)
  | Throws e => (Throws e, cache)
  | Pending => (Pending, cache)
  end.

(** ** The process state and the monad of the handlers *)

(** [socket.data.user] *)
Record User : Type := mkUser {
  user_id : Z;
  user_username : string
}.

(** What the handlers read of a [Socket]: its id and [socket.data]. *)
Record Socket : Type := mkSocket {
  socket_id : string;
  socket_authenticated : bool;
  socket_user : option User
}.

Inductive Target : Type :=
| ToAll                      (* io.emit *)
| ToRoom (room : string)     (* io.to(room).emit *)
| ToSocket (id : string).    (* socket.emit *)

(** The dispatch events ([op: DISPATCH]) the modelled handlers send. *)
Inductive Dispatch : Type :=
| MESSAGE_CREATE (m : Message)
| MESSAGE_ACK (nonce : option string) (messageId : Z)
| MESSAGE_ERROR (nonce : option string) (error : string)
| READY (userId : Z) (sessionId : string)
| PRESENCE_UPDATE (userId : Z) (status : Status) (lastSeenAt : Z).

Record World : Type := mkWorld {
  db : Database;
  redis : gmap string RedisEntry;
  registry : PresenceRegistry;
  snowflake : Snowflake.t;            (* the singleton of snowflake.ts *)
  clock : list Z;                     (* the coming Date.now() readings *)
  connectedClients : gmap string Socket;
  userSockets : gmap string (gset string);
  emitted : list (Target * Dispatch); (* what went out on Socket.IO *)
  published : list (string * Dispatch) (* what went out on the bus *)
}.

Definition set_db (w : World) (d : Database) : World :=
  {| db := d; redis := redis w; registry := registry w;
     snowflake := snowflake w; clock := clock w;
     connectedClients := connectedClients w; userSockets := userSockets w;
     emitted := emitted w; published := published w |}.

Definition set_redis (w : World) (r : gmap string RedisEntry) : World :=
  {| db := db w; redis := r; registry := registry w;
     snowflake := snowflake w; clock := clock w;
     connectedClients := connectedClients w; userSockets := userSockets w;
     emitted := emitted w; published := published w |}.

Definition set_registry (w : World) (r : PresenceRegistry) : World :=
  {| db := db w; redis := redis w; registry := r;
     snowflake := snowflake w; clock := clock w;
     connectedClients := connectedClients w; userSockets := userSockets w;
     emitted := emitted w; published := published w |}.

Definition set_idgen (w : World) (g : Snowflake.t) (c : list Z) : World :=
  {| db := db w; redis := redis w; registry := registry w;
     snowflake := g; clock := c;
     connectedClients := connectedClients w; userSockets := userSockets w;
     emitted := emitted w; published := published w |}.

Definition set_connectedClients (w : World) (m : gmap string Socket) : World :=
  {| db := db w; redis := redis w; registry := registry w;
     snowflake := snowflake w; clock := clock w;
     connectedClients := m; userSockets := userSockets w;
     emitted := emitted w; published := published w |}.

Definition set_userSockets (w : World) (m : gmap string (gset string)) : World :=
  {| db := db w; redis := redis w; registry := registry w;
     snowflake := snowflake w; clock := clock w;
     connectedClients := connectedClients w; userSockets := m;
     emitted := emitted w; published := published w |}.

Definition emit (w : World) (t : Target) (d : Dispatch) : World :=
  {| db := db w; redis := redis w; registry := registry w;
     snowflake := snowflake w; clock := clock w;
     connectedClients := connectedClients w; userSockets := userSockets w;
     emitted := emitted w ++ [(t, d)]; published := published w |}.

Definition publish (w : World) (topic : string) (d : Dispatch) : World :=
  {| db := db w; redis := redis w; registry := registry w;
     snowflake := snowflake w; clock := clock w;
     connectedClients := connectedClients w; userSockets := userSockets w;
     emitted := emitted w; published := published w ++ [(topic, d)] |}.

(** A handler runs on the process state and ends as an [outcome]; the
    state it leaves behind is kept in every case, so what a call did
    before it threw stays done.  Each handler runs to its end before the
    next one starts. *)
Definition M (A : Type) : Type := World -> outcome A * World.

#[global] Instance M_ret : MRet M := fun A a w => (Returns a, w).

#[global] Instance M_bind : MBind M := fun A B k m w =>
  match m w with
  | (Returns a, w') => k a w'
  | (Throws msg, w') => (Throws msg, w')
  | (Pending, w') => (Pending, w')
  end.

Definition throw {A : Type} (msg : string) : M A :=
  fun w => (Throws msg, w).

Definition gets {A : Type} (f : World -> A) : M A :=
  fun w => (Returns (f w), w).

Definition modify (f : World -> World) : M unit :=
  fun w => (Returns tt, f w).

(** [snowflake.generate()] on the singleton. *)
Definition snowflake_generate : M Z := fun w =>
  let '(o, g, c) := Snowflake.generate (snowflake w) (clock w) in
  (o, set_idgen w g c).

(** [prisma.messages.create]: the new row gets the store's next key. *)
Definition messages_create (row : Z -> Message) : M Message := fun w =>
  let m := row (nextMessageId (db w)) in
  (Returns m, set_db w (set_messages (db w) (messages (db w) ++ [m]))).

(** ** message.service.ts *)

Module MessageService.

Record CreateMessageData : Type := mkCreateMessageData {
  data_channelId : Z;
  data_authorId : Z;
  data_content : option string;
  data_attachments : option (list string);
  data_replyTo : option Z;
  data_nonce : option string
}.

(** [!data.content]: absent or the empty string. *)
Definition no_content (c : option string) : bool :=
  match c with
  | Some s => if decide (s = "") then true else false
  | None => true
  end.

(** [!data.attachments || data.attachments.length === 0] *)
Definition no_attachments (a : option (list string)) : bool :=
  match a with
  | Some l => Nat.eqb (length l) 0
  | None => true
  end.

(** [checkChannelPermission]: it reads the [servers] and the
    [serverMembers] table. *)
Definition checkChannelPermission (d : Database)
    (userId serverId channelId permission : Z) : bool :=
  let server := findServer d serverId in
  if match server with
     | Some s => server_ownerId s =? userId
     | None => false
     end
  then true
  else
    match findMember d serverId userId with
    | None => false
    | Some member =>
        let permissions :=
          fold_left (fun acc rm => Z.lor acc (role_permissions rm))
                    (member_roleMembers member) 0 in
        if PermissionUtils.has permissions Permissions.ADMINISTRATOR
        then true
        else PermissionUtils.has permissions permission
    end.

Definition rateKey (data : CreateMessageData) : string :=
  "message:rate:" +:+ pretty (data_authorId data) +:+ ":"
    +:+ pretty (data_channelId data).

Definition RATE_LIMIT_EXCEEDED : string :=
  "Rate limit exceeded. Please slow down.".

Definition NO_SEND_PERMISSION : string :=
  "You do not have permission to send messages in this channel".

(** [createMessage] up to the channel update; [now] is the time of the
    Redis server during the call.  The cache write and the mention
    notifications that follow the channel update touch neither the
    [messages] table nor the rate counters; they are added in
    [Mentions.createMessage_notifying]. *)
Definition createMessage (now : Z) (data : CreateMessageData) : M Message :=
  if no_content (data_content data)
     && no_attachments (data_attachments data)
  then throw "Message must have content or attachments"
  else
    channel ← gets (fun w => findChannel (db w) (data_channelId data));
    match channel with
    | None => throw "Channel not found"
    | Some channel =>
        if channel_isDeleted channel then throw "Channel not found"
        else
          (match truthy_id (channel_serverId channel) with
           | Some serverId =>
               canSend ← gets (fun w =>
                 checkChannelPermission (db w) (data_authorId data) serverId
                   (data_channelId data) Permissions.SEND_MESSAGES);
               if negb canSend then throw NO_SEND_PERMISSION
               else mret tt
           | None =>
               recipient ← gets (fun w =>
                 findRecipient (db w) (data_channelId data)
                               (data_authorId data));
               match recipient with
               | None => throw "You are not a recipient of this DM"
               | Some _ => mret tt
               end
           end);;
          currentCount ← (fun w =>
            let '(n, r) := redis_incr (redis w) now (rateKey data) in
            (Returns n, set_redis w r));
          (if currentCount =? 1
           then modify (fun w =>
                  set_redis w (redis_expire (redis w) now (rateKey data) 60))
           else mret tt);;
          if currentCount >? 30 then throw RATE_LIMIT_EXCEEDED
          else
            snowflakeId ← snowflake_generate;
            let processedContent := default "" (data_content data) in
            message ← messages_create (fun id =>
              {| message_id := id;
                 message_snowflakeId := snowflakeId;
                 message_channelId := data_channelId data;
                 message_authorId := data_authorId data;
                 message_content := Some processedContent;
                 message_nonce := data_nonce data;
                 message_referencedMessageId := data_replyTo data;
                 message_attachments :=
                   default [] (data_attachments data) |});
            modify (fun w =>
              set_db w (updateLastMessage (db w) (data_channelId data)
                                          (message_id message)));;
            mret message
    end.

(** A driver: the given calls of [createMessage], each at its time and
    with its own data, in order, collecting how each call ended. *)
Fixpoint createMessageCalls (calls : list (Z * CreateMessageData))
    (w : World) : list (outcome Message) * World :=
  match calls with
  | [] => ([], w)
  | (now, data) :: rest =>
      let '(o, w') := createMessage now data w in
      let '(os, w'') := createMessageCalls rest w' in
      (o :: os, w'')
  end.

(** *** Vocabulary of the statements *)

(** The checks of [createMessage] that come before the rate limit:
    content or attachments, a live channel, and the permission of a
    server channel or the membership of a DM. *)
Definition authorized (d : Database) (data : CreateMessageData) : bool :=
  negb (no_content (data_content data)
        && no_attachments (data_attachments data))
  && match findChannel d (data_channelId data) with
     | None => false
     | Some channel =>
         negb (channel_isDeleted channel)
         && match truthy_id (channel_serverId channel) with
            | Some serverId =>
                checkChannelPermission d (data_authorId data) serverId
                  (data_channelId data) Permissions.SEND_MESSAGES
            | None =>
                match findRecipient d (data_channelId data)
                                    (data_authorId data) with
                | Some _ => true
                | None => false
                end
            end
     end.

(** The two calls are made by the same author for the same channel. *)
Definition same_pair (data other : CreateMessageData) : bool :=
  (data_authorId other =? data_authorId data)
  && (data_channelId other =? data_channelId data).

(** How many of the given calls are made for the (author, channel) pair
    of [data] and get as far as the rate limit. *)
Definition counted (d : Database) (data : CreateMessageData)
    (calls : list (Z * CreateMessageData)) : nat :=
  length (List.filter (fun c => same_pair data c.2 && authorized d c.2)
                      calls).

(** The rate-limit step of [createMessage] (the [incr], the [expire] on
    the first count and the comparison with 30). *)
Definition rateLimit (now : Z) (data : CreateMessageData) : M unit :=
  currentCount ← (fun w =>
    let '(n, r) := redis_incr (redis w) now (rateKey data) in
    (Returns n, set_redis w r));
  (if currentCount =? 1
   then modify (fun w =>
          set_redis w (redis_expire (redis w) now (rateKey data) 60))
   else mret tt);;
  if currentCount >? 30 then throw RATE_LIMIT_EXCEEDED else mret tt.

(** What [createMessage] does once the rate limit has let it pass. *)
Definition persist (data : CreateMessageData) : M Message :=
  snowflakeId ← snowflake_generate;
  message ← messages_create (fun id =>
    {| message_id := id;
       message_snowflakeId := snowflakeId;
       message_channelId := data_channelId data;
       message_authorId := data_authorId data;
       message_content := Some (default "" (data_content data));
       message_nonce := data_nonce data;
       message_referencedMessageId := data_replyTo data;
       message_attachments := default [] (data_attachments data) |});
  modify (fun w =>
    set_db w (updateLastMessage (db w) (data_channelId data)
                                (message_id message)));;
  mret message.

(** No [":"] among the characters of a string. *)
Fixpoint colon_free (s : string) : bool :=
  match s with
  | EmptyString => true
  | String c rest => negb (Ascii.eqb c ":"%char) && colon_free rest
  end.

(** The bitwise OR of a member's role permissions. *)
Definition rolePermissions (m : ServerMember) : Z :=
  fold_left (fun acc rm => Z.lor acc (role_permissions rm))
            (member_roleMembers m) 0.

Definition isOwner (d : Database) (serverId userId : Z) : bool :=
  match findServer d serverId with
  | Some s => server_ownerId s =? userId
  | None => false
  end.

Definition without_overwrites (c : Channel) : Channel :=
  {| channel_id := channel_id c; channel_serverId := channel_serverId c;
     channel_isDeleted := channel_isDeleted c;
     channel_permissionOverwrites := [];
     channel_lastMessageId := channel_lastMessageId c |}.

(** Two stores that differ at most in the permission overwrites of their
    channels. *)
Definition same_but_overwrites (d1 d2 : Database) : Prop :=
  servers d1 = servers d2 /\ serverMembers d1 = serverMembers d2
  /\ channelRecipients d1 = channelRecipients d2
  /\ messages d1 = messages d2 /\ users_status d1 = users_status d2
  /\ map without_overwrites (channels d1)
     = map without_overwrites (channels d2).

End MessageService.

(** ** The gateway of middleware/auth.ts *)

Module Gateway.

(** The payload of a [MESSAGE_CREATE] event, ids already read as
    integers. *)
Record MessageCreatePayload : Type := mkMessageCreatePayload {
  p_channelId : Z;
  p_content : option string;
  p_nonce : option string;
  p_replyTo : option Z;
  p_attachments : option (list string)
}.

Definition channelRoom (channelId : Z) : string :=
  "channel:" +:+ pretty channelId.

(** [handleMessageCreate].  The mention notifications after the publish
    are left out. *)
Definition handleMessageCreate (socket : Socket)
    (data : MessageCreatePayload) : M Message :=
  match socket_user socket with
  | None => throw "TypeError: Cannot read properties of undefined"
  | Some user =>
      let userId := user_id user in
      channel ← gets (fun w => findChannel (db w) (p_channelId data));
      match channel with
      | None => throw "Channel not found"
      | Some channel =>
          (match truthy_id (channel_serverId channel) with
           | Some serverId =>
               member ← gets (fun w => findMember (db w) serverId userId);
               match member with
               | None => throw "Not a member of this server"
               | Some _ => mret tt
               end
           | None =>
               recipient ← gets (fun w =>
                 findRecipient (db w) (p_channelId data) userId);
               match recipient with
               | None => throw "Not a recipient of this DM"
               | Some _ => mret tt
               end
           end);;
          snowflakeId ← snowflake_generate;
          message ← messages_create (fun id =>
            {| message_id := id;
               message_snowflakeId := snowflakeId;
               message_channelId := p_channelId data;
               message_authorId := userId;
               message_content := p_content data;
               message_nonce := p_nonce data;
               message_referencedMessageId :=
                 match p_replyTo data with
                 | Some r => if r =? 0 then None else Some r
                 | None => None
                 end;
               message_attachments := default [] (p_attachments data) |});
          modify (fun w =>
            set_db w (updateLastMessage (db w) (p_channelId data)
                                        (message_id message)));;
          modify (fun w =>
            emit w (ToRoom (channelRoom (p_channelId data)))
                 (MESSAGE_CREATE message));;
          modify (fun w =>
            publish w (pretty (p_channelId data)) (MESSAGE_CREATE message));;
          mret message
      end
  end.

(** [socket.on('MESSAGE_CREATE', ...)]: the state after the handler. *)
Definition on_MESSAGE_CREATE (socket : Socket)
    (data : MessageCreatePayload) (w : World) : World :=
  if negb (socket_authenticated socket) then w
  else
    match handleMessageCreate socket data w with
    | (Returns message, w') =>
        emit w' (ToSocket (socket_id socket))
             (MESSAGE_ACK (p_nonce data) (message_id message))
    | (Throws error, w') =>
        emit w' (ToSocket (socket_id socket))
             (MESSAGE_ERROR (p_nonce data) error)
    | (Pending, w') => w'
    end.

(** [broadcastPresence(userId, status)] *)
Definition broadcastPresence (now userId : Z) (s : Status) (w : World)
  : World :=
  emit w ToAll (PRESENCE_UPDATE userId s now).

(** [socket.on('IDENTIFY', ...)] from the point where the token, the user
    and the session have been found valid, up to the [READY] event: the
    socket with its [socket.data] set, and the state after these steps.
    The rooms the socket joins afterwards are not part of the state. *)
Definition on_IDENTIFY_verified (now : Z) (socket : Socket) (user : User)
    (w : World) : Socket * World :=
  let socket := mkSocket (socket_id socket) true (Some user) in
  let w := set_registry w
             (registerWebSocket (registry w) now (user_id user)
                                (socket_id socket)) in
  let userIdStr : string := pretty (user_id user) in
  let w := if decide (is_Some (userSockets w !! userIdStr)) then w
           else set_userSockets w (<[userIdStr := ∅]> (userSockets w)) in
  let w := set_userSockets w
             (<[userIdStr := default ∅ (userSockets w !! userIdStr)
                             ∪ {[socket_id socket]}]> (userSockets w)) in
  let w := set_registry w
             (updatePresence (registry w) now (user_id user) "online"
                             None) in
  let w := set_db w
             (set_users_status (db w)
                (<[user_id user := online]> (users_status (db w)))) in
  let w := broadcastPresence now (user_id user) online w in
  let w := emit w (ToSocket (socket_id socket))
             (READY (user_id user) (socket_id socket)) in
  (socket, w).

(** [socket.on('disconnect', ...)]: the state after the handler; [now] is
    the wall-clock time while it runs. *)
Definition on_disconnect (now : Z) (socket : Socket) (w : World) : World :=
  let w := set_connectedClients w
             (delete (socket_id socket) (connectedClients w)) in
  match socket_authenticated socket, socket_user socket with
  | true, Some user =>
      let userId := user_id user in
      let w := set_registry w
                 (unregisterWebSocket (registry w) userId (socket_id socket)) in
      let userIdStr : string := pretty userId in
      match userSockets w !! userIdStr with
      | Some sockets =>
          let sockets := sockets ∖ {[socket_id socket]} in
          let w := set_userSockets w (<[userIdStr := sockets]> (userSockets w)) in
          if Nat.eqb (size sockets) 0 then
            let w := set_userSockets w (delete userIdStr (userSockets w)) in
            let w := set_registry w
                       (updatePresence (registry w) now userId "offline"
                                       None) in
            let w := set_db w
                       (set_users_status (db w)
                          (<[userId := offline]> (users_status (db w)))) in
            broadcastPresence now userId offline w
          else w
      | None => w
      end
  | _, _ => w
  end.

(** A handler run by another gateway process, seen from this one.  The
    processes share the store and Redis, and an [io.emit] of one of them
    reaches the clients of all through the Socket.IO Redis adapter; the
    maps [connectedClients] and [userSockets] are each process's own.
    [clients] and [sockets] are the maps of the other process when its
    handler starts; the result is the state of this process when that
    handler has ended.  A handler is taken to run to its end before the
    next one starts. *)
Definition elsewhere (clients : gmap string Socket)
    (sockets : gmap string (gset string)) (handler : World -> World)
    (w : World) : World :=
  let w' := handler (set_userSockets (set_connectedClients w clients)
                                     sockets) in
  set_userSockets (set_connectedClients w' (connectedClients w))
                  (userSockets w).

End Gateway.

(** ** A sample state

    Server 1 is owned by user 100.  User 7 is a member without any role;
    user 8 is a member whose only role grants [SEND_MESSAGES] and
    [VIEW_CHANNEL].  Channel 10 belongs to server 1 and carries a member
    overwrite that denies [SEND_MESSAGES] to user 8. *)

Module Sample.

Definition overwrite8 : PermissionOverwrite :=
  mkPermissionOverwrite 8 OverwriteMember 0 Permissions.SEND_MESSAGES.

Definition database (overwrites : list PermissionOverwrite) : Database :=
  {| servers := [mkServer 1 100];
     serverMembers :=
       [mkServerMember 1 7 [];
        mkServerMember 1 8
          [mkRole 1 (Z.lor Permissions.SEND_MESSAGES
                           Permissions.VIEW_CHANNEL)]];
     channels := [mkChannel 10 (Some 1) false overwrites None];
     channelRecipients := [];
     messages := [];
     users_status := ∅ |}.

Definition world : World :=
  {| db := database [overwrite8];
     redis := ∅;
     registry := mkPresenceRegistry ∅ ∅ ∅ ∅;
     snowflake := Snowflake.default_instance;
     clock := map (fun k => 1700000000000 + k) (seqZ 0 40);
     connectedClients := ∅;
     userSockets := ∅;
     emitted := [];
     published := [] |}.

(** A socket of user 7 after a successful [IDENTIFY]. *)
Definition socket7 (id : string) : Socket :=
  mkSocket id true (Some (mkUser 7 "seven")).

Definition payload : Gateway.MessageCreatePayload :=
  Gateway.mkMessageCreatePayload 10 (Some "hello") (Some "n1") None None.

Definition data (authorId : Z) : MessageService.CreateMessageData :=
  MessageService.mkCreateMessageData 10 authorId (Some "hello") None None
    (Some "n1").

(** A message of the given author in channel 10. *)
Definition send (authorId : Z) (content nonce : string)
  : MessageService.CreateMessageData :=
  MessageService.mkCreateMessageData 10 authorId (Some content) None None
    (Some nonce).

(** The [k]-th message of member 8 at time [5000 + k]: no two of them
    have the same content or nonce. *)
Definition by8 (k : Z) : Z * MessageService.CreateMessageData :=
  (5000 + k, send 8 ("message " +:+ pretty k) ("n" +:+ pretty k)).

(** After a first message at 5000, member 8 sends 30 more within the
    minute; the owner of the server sends one in between. *)
Definition burst : list (Z * MessageService.CreateMessageData) :=
  map by8 (seqZ 1 15) ++ [(5500, send 100 "me too" "m")]
  ++ map by8 (seqZ 16 15).

(** User 7 online on two gateway processes: from the sample world, this
    process has handled the [IDENTIFY] of the socket [s1] and another
    process, with empty maps until then, the [IDENTIFY] of the socket
    [s2]. *)
Definition two_processes : World :=
  Gateway.elsewhere ∅ ∅
    (fun w => (Gateway.on_IDENTIFY_verified 1500 (mkSocket "s2" false None)
                 (mkUser 7 "seven") w).2)
    (Gateway.on_IDENTIFY_verified 1000 (mkSocket "s1" false None)
       (mkUser 7 "seven") world).2.

End Sample.

(** ** permissions.ts: the whole table and the names *)

Module PermissionTable.

(** [Object.entries(Permissions)], in the order of the object literal. *)
Definition entries : list (string * Z) :=
  [("CREATE_INSTANT_INVITE", Z.shiftl 1 0);
   ("KICK_MEMBERS", Z.shiftl 1 1);
   ("BAN_MEMBERS", Z.shiftl 1 2);
   ("ADMINISTRATOR", Z.shiftl 1 3);
   ("MANAGE_CHANNELS", Z.shiftl 1 4);
   ("MANAGE_GUILD", Z.shiftl 1 5);
   ("VIEW_AUDIT_LOG", Z.shiftl 1 7);
   ("VIEW_GUILD_INSIGHTS", Z.shiftl 1 19);
   ("MODIFY_GUILD_PROFILE", Z.shiftl 1 33);
   ("MODERATE_MEMBERS", Z.shiftl 1 40);
   ("ADD_REACTIONS", Z.shiftl 1 6);
   ("VIEW_CHANNEL", Z.shiftl 1 10);
   ("SEND_MESSAGES", Z.shiftl 1 11);
   ("SEND_TTS_MESSAGES", Z.shiftl 1 12);
   ("MANAGE_MESSAGES", Z.shiftl 1 13);
   ("EMBED_LINKS", Z.shiftl 1 14);
   ("ATTACH_FILES", Z.shiftl 1 15);
   ("READ_MESSAGE_HISTORY", Z.shiftl 1 16);
   ("MENTION_EVERYONE", Z.shiftl 1 17);
   ("USE_EXTERNAL_EMOJIS", Z.shiftl 1 18);
   ("USE_APPLICATION_COMMANDS", Z.shiftl 1 31);
   ("CREATE_PUBLIC_THREADS", Z.shiftl 1 35);
   ("CREATE_PRIVATE_THREADS", Z.shiftl 1 36);
   ("USE_EXTERNAL_STICKERS", Z.shiftl 1 37);
   ("SEND_MESSAGES_IN_THREADS", Z.shiftl 1 38);
   ("USE_EMBEDDED_ACTIVITIES", Z.shiftl 1 39);
   ("CONNECT", Z.shiftl 1 20);
   ("SPEAK", Z.shiftl 1 21);
   ("MUTE_MEMBERS", Z.shiftl 1 22);
   ("DEAFEN_MEMBERS", Z.shiftl 1 23);
   ("MOVE_MEMBERS", Z.shiftl 1 24);
   ("USE_VAD", Z.shiftl 1 25);
   ("PRIORITY_SPEAKER", Z.shiftl 1 8);
   ("STREAM", Z.shiftl 1 9);
   ("REQUEST_TO_SPEAK", Z.shiftl 1 32);
   ("START_EMBEDDED_ACTIVITIES", Z.shiftl 1 39);
   ("MANAGE_WEBHOOKS", Z.shiftl 1 29);
   ("MANAGE_GUILD_EXPRESSIONS", Z.shiftl 1 30);
   ("MANAGE_EVENTS", Z.shiftl 1 33);
   ("MANAGE_THREADS", Z.shiftl 1 34);
   ("CREATE_GUILD_EXPRESSIONS", Z.shiftl 1 43);
   ("CREATE_EVENTS", Z.shiftl 1 44);
   ("USE_SOUNDBOARD", Z.shiftl 1 42);
   ("USE_EXTERNAL_SOUNDS", Z.shiftl 1 45);
   ("SEND_VOICE_MESSAGES", Z.shiftl 1 46);
   ("ALL", Permissions.ALL);
   ("NONE", Permissions.NONE)].

(** The object literal [PermissionNames]: computed keys
    [value.toString()], in source order. *)
Definition PermissionNames_literal : list (Z * string) :=
  [(Z.shiftl 1 0, "Create Invite");
   (Z.shiftl 1 1, "Kick Members");
   (Z.shiftl 1 2, "Ban Members");
   (Z.shiftl 1 3, "Administrator");
   (Z.shiftl 1 4, "Manage Channels");
   (Z.shiftl 1 5, "Manage Server");
   (Z.shiftl 1 6, "Add Reactions");
   (Z.shiftl 1 7, "View Audit Log");
   (Z.shiftl 1 8, "Priority Speaker");
   (Z.shiftl 1 9, "Video");
   (Z.shiftl 1 10, "View Channel");
   (Z.shiftl 1 11, "Send Messages");
   (Z.shiftl 1 12, "Send TTS Messages");
   (Z.shiftl 1 13, "Manage Messages");
   (Z.shiftl 1 14, "Embed Links");
   (Z.shiftl 1 15, "Attach Files");
   (Z.shiftl 1 16, "Read History");
   (Z.shiftl 1 17, "Mention @everyone");
   (Z.shiftl 1 18, "Use External Emojis");
   (Z.shiftl 1 19, "View Insights");
   (Z.shiftl 1 20, "Connect");
   (Z.shiftl 1 21, "Speak");
   (Z.shiftl 1 22, "Mute Members");
   (Z.shiftl 1 23, "Deafen Members");
   (Z.shiftl 1 24, "Move Members");
   (Z.shiftl 1 25, "Use Voice Activity");
   (Z.shiftl 1 29, "Manage Webhooks");
   (Z.shiftl 1 30, "Manage Expressions");
   (Z.shiftl 1 31, "Use Commands");
   (Z.shiftl 1 32, "Request to Speak");
   (Z.shiftl 1 33, "Manage Events");
   (Z.shiftl 1 34, "Manage Threads");
   (Z.shiftl 1 35, "Create Public Threads");
   (Z.shiftl 1 36, "Create Private Threads");
   (Z.shiftl 1 37, "Use External Stickers");
   (Z.shiftl 1 38, "Send in Threads");
   (Z.shiftl 1 39, "Use Activities");
   (Z.shiftl 1 40, "Timeout Members");
   (Z.shiftl 1 42, "Use Soundboard");
   (Z.shiftl 1 43, "Create Expressions");
   (Z.shiftl 1 44, "Create Events");
   (Z.shiftl 1 45, "Use External Sounds");
   (Z.shiftl 1 46, "Send Voice Messages")].

(** The object itself: a later property with the same key replaces an
    earlier one. *)
Definition PermissionNames : gmap string string :=
  fold_left (fun m kv => <[pretty (fst kv) := snd kv]> m)
            PermissionNames_literal ∅.

(** [PermissionNames[value.toString()] || 'Unknown'] *)
Definition nameOf (value : Z) : string :=
  match PermissionNames !! pretty value with
  | Some name => if decide (name = "") then "Unknown" else name
  | None => "Unknown"
  end.

(** The filter of [getPermissionNames]; every value of the table is a
    bigint, so the [typeof] test always holds. *)
Definition listed (permissions : Z) (entry : string * Z) : bool :=
  negb (String.eqb (fst entry) "ALL")
  && negb (String.eqb (fst entry) "NONE")
  && PermissionUtils.has permissions (snd entry).

Definition getPermissionNames (permissions : Z) : list string :=
  map (fun entry => nameOf (snd entry))
      (List.filter (listed permissions) entries).

(** The entries of the table that are shown under [name]. *)
Definition named (name : string) (entry : string * Z) : bool :=
  String.eqb (nameOf (snd entry)) name.

End PermissionTable.

(** ** snowflake.ts: the static helpers *)

Module SnowflakeStatic.
Import Snowflake.

(** [Snowflake.getTimestamp] on a bigint argument. *)
Definition getTimestamp (id : Z) : Date :=
  Date_of_BigInt (Z.shiftr id TIMESTAMP_SHIFT + CUSTOM_EPOCH).

(** [Snowflake.compare] on bigint arguments. *)
Definition compare (a b : Z) : Z :=
  if a <? b then -1 else if a >? b then 1 else 0.

(** [Snowflake.isValid] on a bigint argument (nothing can throw then). *)
Definition isValid (id : Z) : bool :=
  (id >? 0) && (id <? Z.shiftl 1 63).

End SnowflakeStatic.

(** ** middleware/auth.ts: the HTTP side *)

Module Middleware.

(** What the handlers and the error handler read of a thrown error. *)
Record HttpError : Type := mkHttpError {
  err_name : string;
  err_message : string;
  err_code : string;
  err_statusCode : option Z
}.

(** [new AuthenticationError(message, code = 'UNAUTHORIZED',
    statusCode = 401)] *)
Definition AuthenticationError (message : string) (code : option string)
  : HttpError :=
  mkHttpError "AuthenticationError" message (default "UNAUTHORIZED" code)
              (Some 401).

(** [new AuthorizationError(message = 'Forbidden', code = 'FORBIDDEN',
    statusCode = 403)] *)
Definition AuthorizationError (message : option string)
    (code : option string) (statusCode : option Z) : HttpError :=
  mkHttpError "AuthorizationError" (default "Forbidden" message)
              (default "FORBIDDEN" code) (Some (default 403 statusCode)).

(** A hook either lets the request pass or throws. *)
Inductive checked (A : Type) : Type :=
| Passed (a : A)
| Rejected (e : HttpError).
Arguments Passed {A} a.
Arguments Rejected {A} e.

(** [request.user] *)
Record RequestUser : Type := mkRequestUser {
  ru_id : Z;
  ru_username : string;
  ru_sessionId : string
}.

(** A built-in error of the language ([SyntaxError], [RangeError],
    [TypeError]) as the error handler reads it: it has a name and a
    message, no [statusCode] and no [code] (the empty string here). *)
Definition NativeError (name message : string) : HttpError :=
  mkHttpError name message "" None.

(** What the permission hooks read of a request.  [req_serverId] is the
    value of [request.params?.serverId || request.body?.serverId] as the
    client sent it, a route parameter or a field of the body, before any
    conversion; [None] when it is falsy (absent, the empty string, 0). *)
Record Request (Value : Type) : Type := mkRequest {
  req_user : option RequestUser;
  req_serverId : option Value
}.
Arguments mkRequest {Value} req_user req_serverId.
Arguments req_user {Value} r.
Arguments req_serverId {Value} r.

(** The reduce over [member.roleMembers] in the three hooks. *)
Definition memberPermissions (m : ServerMember) : Z :=
  fold_left (fun acc rm => Z.lor acc (role_permissions rm))
            (member_roleMembers m) 0.

Section PermissionHooks.

Context {Value : Type}.

(** [BigInt(serverId)] on the value of the request: the integer it
    denotes, or the error the conversion throws (a [SyntaxError] on text
    that is no integer literal, a [RangeError] on a number with a
    fraction).  The hooks evaluate it where they build the first query,
    after the checks of the user and of the presence of the id; the
    second evaluation in [requirePermission] and [requireServerAdmin]
    gives the same integer. *)
Variable BigInt : Value -> HttpError + Z.

(** The hook that [requirePermission(permission)] returns. *)
Definition requirePermission (permission : Z) (request : Request Value)
    (d : Database) : checked unit :=
  match req_user request with
  | None => Rejected (AuthenticationError "Authentication required" None)
  | Some user =>
      match req_serverId request with
      | None =>
          Rejected (AuthorizationError
                      (Some "Server ID required for permission check")
                      None None)
      | Some raw =>
          match BigInt raw with
          | inl thrown => Rejected thrown
          | inr serverId =>
              match findServer d serverId with
              | None =>
                  Rejected (AuthorizationError (Some "Server not found")
                                               None None)
              | Some server =>
                  if server_ownerId server =? ru_id user then Passed tt
                  else
                    match findMember d serverId (ru_id user) with
                    | None =>
                        Rejected (AuthorizationError
                                    (Some "Not a member of this server")
                                    None None)
                    | Some member =>
                        let permissions := memberPermissions member in
                        if Z.land permissions (Z.shiftl 1 3) =? Z.shiftl 1 3
                        then Passed tt
                        else if negb (Z.land permissions permission
                                      =? permission)
                        then Rejected
                               (AuthorizationError
                                  (Some "You do not have permission to perform this action")
                                  None None)
                        else Passed tt
                    end
              end
          end
      end
  end.

Definition requireServerOwner (request : Request Value) (d : Database)
  : checked unit :=
  match req_user request with
  | None => Rejected (AuthenticationError "Authentication required" None)
  | Some user =>
      match req_serverId request with
      | None =>
          Rejected (AuthorizationError (Some "Server ID required") None None)
      | Some raw =>
          match BigInt raw with
          | inl thrown => Rejected thrown
          | inr serverId =>
              match findServer d serverId with
              | None =>
                  Rejected (AuthorizationError (Some "Server not found")
                                               None None)
              | Some server =>
                  if negb (server_ownerId server =? ru_id user)
                  then Rejected
                         (AuthorizationError
                            (Some "Only server owner can perform this action")
                            None None)
                  else Passed tt
              end
          end
      end
  end.

Definition requireServerAdmin (request : Request Value) (d : Database)
  : checked unit :=
  match req_user request with
  | None => Rejected (AuthenticationError "Authentication required" None)
  | Some user =>
      match req_serverId request with
      | None =>
          Rejected (AuthorizationError (Some "Server ID required") None None)
      | Some raw =>
          match BigInt raw with
          | inl thrown => Rejected thrown
          | inr serverId =>
              match findServer d serverId with
              | None =>
                  Rejected (AuthorizationError (Some "Server not found")
                                               None None)
              | Some server =>
                  if server_ownerId server =? ru_id user then Passed tt
                  else
                    match findMember d serverId (ru_id user) with
                    | None =>
                        Rejected (AuthorizationError
                                    (Some "Not a member of this server")
                                    None None)
                    | Some member =>
                        let permissions := memberPermissions member in
                        if negb (Z.land permissions (Z.shiftl 1 3)
                                 =? Z.shiftl 1 3)
                        then Rejected
                               (AuthorizationError
                                  (Some "Administrator permission required")
                                  None None)
                        else Passed tt
                    end
              end
          end
      end
  end.

End PermissionHooks.

(** Two values a client can send as [serverId], and [BigInt] on them:
    [BigInt('1')] is [1n], [BigInt('abc')] throws
    [SyntaxError: Cannot convert abc to a BigInt]. *)
Inductive SentId : Type :=
| sent_1
| sent_abc.

Definition BigInt_SentId (v : SentId) : HttpError + Z :=
  match v with
  | sent_1 => inr 1
  | sent_abc =>
      inl (NativeError "SyntaxError" "Cannot convert abc to a BigInt")
  end.

(** *** [createUserRateLimit] *)

(** An entry of the [requests] map of one limiter. *)
Record RateRecord : Type := mkRateRecord {
  rec_count : Z;
  rec_resetTime : Z
}.

(** [request.user?.id.toString() || request.ip] *)
Definition rateLimitKey (userId : option Z) (ip : string) : string :=
  match userId with
  | Some id => pretty id
  | None => ip
  end.

(** [Math.ceil(a / b)] for integers [a] and [b > 0]. *)
Definition ceil_div (a b : Z) : Z := - ((- a) / b).

(** The hook that [createUserRateLimit(windowMs, maxRequests)] returns,
    called at time [now] for the key [userId]: how it ends, the
    [Retry-After] header it sets, if any, and the [requests] map after the
    call. *)
Definition userRateLimit (windowMs maxRequests : Z) (now : Z)
    (userId : string) (requests : gmap string RateRecord)
  : checked unit * option Z * gmap string RateRecord :=
  let fresh :=
    (Passed tt, None,
     <[userId := mkRateRecord 1 (now + windowMs)]> requests) in
  match requests !! userId with
  | None => fresh
  | Some record =>
      if now >? rec_resetTime record then fresh
      else if rec_count record >=? maxRequests then
        (Rejected (AuthorizationError (Some "Rate limit exceeded")
                                      (Some "RATE_LIMITED") (Some 429)),
         Some (ceil_div (rec_resetTime record - now) 1000),
         requests)
      else
        (Passed tt, None,
         <[userId := mkRateRecord (rec_count record + 1)
                                  (rec_resetTime record)]> requests)
  end.

(** A driver: one call of the hook for the same key at each of the given
    times, in order, collecting how each call ended. *)
Fixpoint userRateLimits (windowMs maxRequests : Z) (times : list Z)
    (userId : string) (requests : gmap string RateRecord)
  : list (checked unit) * gmap string RateRecord :=
  match times with
  | [] => ([], requests)
  | now :: rest =>
      let '(o, _, requests') :=
        userRateLimit windowMs maxRequests now userId requests in
      let '(os, requests'') :=
        userRateLimits windowMs maxRequests rest userId requests' in
      (o :: os, requests'')
  end.

(** *** The error handler of server.ts *)

Record Reply : Type := mkReply {
  reply_status : Z;
  reply_code : string;
  reply_message : string
}.

(** [a || b] on strings. *)
Definition or_string (a b : string) : string :=
  if decide (a = "") then b else a.

(** The callback of [app.setErrorHandler]: the status and the [error]
    object of the reply ([isDev] is [config.server.isDev]; the stack of the
    development reply is left out). *)
Definition errorHandler (isDev : bool) (error : HttpError) : Reply :=
  if String.eqb (err_name error) "AuthenticationError" then
    mkReply 401 (or_string (err_message error) "UNAUTHORIZED")
            (err_message error)
  else if String.eqb (err_name error) "AuthorizationError" then
    mkReply 403 (or_string (err_message error) "FORBIDDEN")
            (err_message error)
  else if String.eqb (err_name error) "ValidationError" then
    mkReply 400 "VALIDATION_ERROR" (err_message error)
  else if match err_statusCode error with
          | Some c => c =? 429
          | None => false
          end then
    mkReply 429 "RATE_LIMITED" "Too many requests. Please try again later."
  else
    mkReply (match err_statusCode error with
             | Some c => if c =? 0 then 500 else c
             | None => 500
             end)
            "INTERNAL_ERROR"
            (if isDev then err_message error
             else "An internal error occurred").

(** How a hook's outcome is answered: a passing request goes on to its
    route ([None]), a rejected one gets the error handler's reply. *)
Definition answer {A : Type} (isDev : bool) (c : checked A) : option Reply :=
  match c with
  | Passed _ => None
  | Rejected e => Some (errorHandler isDev e)
  end.

End Middleware.

(** ** message.service.ts: reading, editing, deleting and pinning *)

Module Moderation.

(** A [messages] row with the columns that the functions below read or
    write next to those of the create path. *)
Record MessageRow : Type := mkMessageRow {
  row : Message;
  row_isDeleted : bool;
  row_deletedAt : option Z;
  row_deletedBy : option Z;
  row_isPinned : bool;
  row_editedTimestamp : option Z;
  row_editCount : Z;
  row_editHistory : list (option string * Z);   (* content, editedAt *)
  row_embeds : list string
}.

(** An [auditLogs] row; [options] holds [count] and [channelId] for a bulk
    delete. *)
Record AuditLog : Type := mkAuditLog {
  audit_serverId : Z;
  audit_actionType : Z;
  audit_userId : Z;
  audit_targetId : option Z;
  audit_options : option (nat * string)
}.

(** The tables of the store these functions touch: [servers],
    [serverMembers] and [channels] are those of [tables]. *)
Record Store : Type := mkStore {
  tables : Database;
  rows : list MessageRow;
  auditLogs : list AuditLog
}.

Definition set_rows (s : Store) (l : list MessageRow) : Store :=
  {| tables := tables s; rows := l; auditLogs := auditLogs s |}.

Definition add_auditLog (s : Store) (a : AuditLog) : Store :=
  {| tables := tables s; rows := rows s; auditLogs := auditLogs s ++ [a] |}.

Definition row_id (r : MessageRow) : Z := message_id (row r).

(** [prisma.messages.findUnique({ where: { id: messageId } })] *)
Definition findMessage (s : Store) (messageId : Z) : option MessageRow :=
  find (fun r => row_id r =? messageId) (rows s).

(** [prisma.messages.update({ where: { id }, data })] *)
Definition updateRow (s : Store) (messageId : Z)
    (data : MessageRow -> MessageRow) : Store :=
  set_rows s (map (fun r => if row_id r =? messageId then data r else r)
                  (rows s)).

Definition set_content (m : Message) (content : option string)
    (attachments : list string) : Message :=
  {| message_id := message_id m;
     message_snowflakeId := message_snowflakeId m;
     message_channelId := message_channelId m;
     message_authorId := message_authorId m;
     message_content := content;
     message_nonce := message_nonce m;
     message_referencedMessageId := message_referencedMessageId m;
     message_attachments := attachments |}.

(** The [data] of the soft delete, the same in [deleteMessage] and in
    [bulkDeleteMessages]. *)
Definition softDelete (now userId : Z) (r : MessageRow) : MessageRow :=
  {| row := set_content (row r) (Some "[deleted]") [];
     row_isDeleted := true;
     row_deletedAt := Some now;
     row_deletedBy := Some userId;
     row_isPinned := row_isPinned r;
     row_editedTimestamp := row_editedTimestamp r;
     row_editCount := row_editCount r;
     row_editHistory := row_editHistory r;
     row_embeds := [] |}.

Definition set_isPinned (b : bool) (r : MessageRow) : MessageRow :=
  {| row := row r;
     row_isDeleted := row_isDeleted r;
     row_deletedAt := row_deletedAt r;
     row_deletedBy := row_deletedBy r;
     row_isPinned := b;
     row_editedTimestamp := row_editedTimestamp r;
     row_editCount := row_editCount r;
     row_editHistory := row_editHistory r;
     row_embeds := row_embeds r |}.

(** [array.slice(-n)]: the last [n] elements. *)
Definition slice_last {A : Type} (n : nat) (l : list A) : list A :=
  skipn (length l - n) l.

(** The [data] of [updateMessage]; [editHistory] is the stored history
    with the replaced content pushed onto it. *)
Definition edit (now : Z) (content : string) (r : MessageRow) : MessageRow :=
  {| row := set_content (row r) (Some content) (message_attachments (row r));
     row_isDeleted := row_isDeleted r;
     row_deletedAt := row_deletedAt r;
     row_deletedBy := row_deletedBy r;
     row_isPinned := row_isPinned r;
     row_editedTimestamp := Some now;
     row_editCount := row_editCount r + 1;
     row_editHistory :=
       slice_last 10 (row_editHistory r ++ [(message_content (row r), now)]);
     row_embeds := row_embeds r |}.

(** The message with [include: { channel: true }].  The foreign key of
    [messages.channelId] gives every row its channel; a row without one
    would make the read of [message.channel.serverId] a [TypeError]. *)
Definition channelOf (s : Store) (message : MessageRow) : outcome Channel :=
  match findChannel (tables s) (message_channelId (row message)) with
  | Some channel => Returns channel
  | None => Throws "Cannot read properties of null (reading 'serverId')"
  end.

(** The permission block of [updateMessage] and of [deleteMessage]: the
    author may, and in a server channel so may who holds
    [MANAGE_MESSAGES]. *)
Definition authorOrManager (s : Store) (message : MessageRow) (userId : Z)
  : outcome bool :=
  let isAuthor := message_authorId (row message) =? userId in
  if isAuthor then Returns true
  else
    channel ← channelOf s message;
    match truthy_id (channel_serverId channel) with
    | Some serverId =>
        Returns (MessageService.checkChannelPermission (tables s) userId
                   serverId (message_channelId (row message))
                   Permissions.MANAGE_MESSAGES)
    | None => Returns false
    end.

Definition MESSAGE_NOT_FOUND : string := "Message not found".

(** [getMessage] *)
Definition getMessage (messageId : Z) (s : Store) : outcome MessageRow :=
  match findMessage s messageId with
  | None => Throws MESSAGE_NOT_FOUND
  | Some message =>
      if row_isDeleted message then Throws MESSAGE_NOT_FOUND
      else Returns message
  end.

(** [updateMessage]; [now] is the reading of [new Date()].  The updated
    row is what the call returns. *)
Definition updateMessage (now messageId userId : Z) (content : string)
    (s : Store) : outcome MessageRow * Store :=
  match findMessage s messageId with
  | None => (Throws MESSAGE_NOT_FOUND, s)
  | Some message =>
      if row_isDeleted message then (Throws MESSAGE_NOT_FOUND, s)
      else
        match authorOrManager s message userId with
        | Returns canEdit =>
            if negb canEdit
            then (Throws "You do not have permission to edit this message", s)
            else (Returns (edit now content message),
                  updateRow s messageId (edit now content))
        | Throws e => (Throws e, s)
        | Pending => (Pending, s)
        end
  end.

(** [deleteMessage] *)
Definition deleteMessage (now messageId userId : Z) (s : Store)
  : outcome unit * Store :=
  match findMessage s messageId with
  | None => (Throws MESSAGE_NOT_FOUND, s)
  | Some message =>
      if row_isDeleted message then (Throws MESSAGE_NOT_FOUND, s)
      else
        match authorOrManager s message userId with
        | Returns canDelete =>
            if negb canDelete
            then (Throws "You do not have permission to delete this message",
                  s)
            else (Returns tt, updateRow s messageId (softDelete now userId))
        | Throws e => (Throws e, s)
        | Pending => (Pending, s)
        end
  end.

(** [prisma.messages.updateMany({ where: { id: { in: messageIds },
    channelId }, data })] *)
Definition inBulk (channelId : Z) (messageIds : list Z) (r : MessageRow)
  : bool :=
  existsb (Z.eqb (row_id r)) messageIds
  && (message_channelId (row r) =? channelId).

Definition MESSAGE_BULK_DELETE : Z := 73.
Definition MESSAGE_PIN : Z := 74.
Definition MESSAGE_UNPIN : Z := 75.

(** [bulkDeleteMessages] *)
Definition bulkDeleteMessages (now channelId : Z) (messageIds : list Z)
    (userId : Z) (s : Store) : outcome unit * Store :=
  if (100 <? length messageIds)%nat
  then (Throws "Cannot delete more than 100 messages at once", s)
  else
    match findChannel (tables s) channelId with
    | None => (Throws "Invalid channel", s)
    | Some channel =>
        match truthy_id (channel_serverId channel) with
        | None => (Throws "Invalid channel", s)
        | Some serverId =>
            let canDelete :=
              MessageService.checkChannelPermission (tables s) userId
                serverId channelId Permissions.MANAGE_MESSAGES in
            if negb canDelete
            then (Throws "You do not have permission to delete messages", s)
            else
              let s1 :=
                set_rows s
                  (map (fun r => if inBulk channelId messageIds r
                                 then softDelete now userId r else r)
                       (rows s)) in
              (Returns tt,
               add_auditLog s1
                 {| audit_serverId := serverId;
                    audit_actionType := MESSAGE_BULK_DELETE;
                    audit_userId := userId;
                    audit_targetId := None;
                    audit_options :=
                      Some (length messageIds, pretty channelId) |})
        end
    end.

(** [pinMessage] ([pinned = true], action 74) and [unpinMessage]
    ([pinned = false], action 75): the two functions differ in the flag
    they write, in the action type and in the word of their messages. *)
Definition setPinned (pinned : bool) (messageId userId : Z) (s : Store)
  : outcome unit * Store :=
  match findMessage s messageId with
  | None => (Throws MESSAGE_NOT_FOUND, s)
  | Some message =>
      if row_isDeleted message then (Throws MESSAGE_NOT_FOUND, s)
      else
        match channelOf s message with
        | Returns channel =>
            match truthy_id (channel_serverId channel) with
            | None =>
                (Throws (if pinned then "Cannot pin messages in DMs"
                         else "Cannot unpin messages in DMs"), s)
            | Some serverId =>
                let can :=
                  MessageService.checkChannelPermission (tables s) userId
                    serverId (message_channelId (row message))
                    Permissions.MANAGE_MESSAGES in
                if negb can
                then (Throws
                        (if pinned
                         then "You do not have permission to pin messages"
                         else "You do not have permission to unpin messages"),
                      s)
                else
                  (Returns tt,
                   add_auditLog (updateRow s messageId (set_isPinned pinned))
                     {| audit_serverId := serverId;
                        audit_actionType :=
                          if pinned then MESSAGE_PIN else MESSAGE_UNPIN;
                        audit_userId := userId;
                        audit_targetId := Some messageId;
                        audit_options := None |})
            end
        | Throws e => (Throws e, s)
        | Pending => (Pending, s)
        end
  end.

Definition pinMessage : Z -> Z -> Store -> outcome unit * Store :=
  setPinned true.

Definition unpinMessage : Z -> Z -> Store -> outcome unit * Store :=
  setPinned false.

(** A driver: the given edits of one message by one user, in order. *)
Fixpoint updateMessages (edits : list (Z * string)) (messageId userId : Z)
    (s : Store) : list (outcome MessageRow) * Store :=
  match edits with
  | [] => ([], s)
  | (now, content) :: rest =>
      let '(o, s') := updateMessage now messageId userId content s in
      let '(os, s'') := updateMessages rest messageId userId s' in
      (o :: os, s'')
  end.

(** *** Vocabulary of the statements *)

(** Who [deleteMessage] and [updateMessage] let act on a row. *)
Definition mayModerate (s : Store) (message : MessageRow) (userId : Z)
  : Prop :=
  message_authorId (row message) = userId
  \/ exists channel serverId,
       findChannel (tables s) (message_channelId (row message)) = Some channel
       /\ truthy_id (channel_serverId channel) = Some serverId
       /\ MessageService.checkChannelPermission (tables s) userId serverId
            (message_channelId (row message)) Permissions.MANAGE_MESSAGES
          = true.

(** The contents that the given edits of a message replace, each with the
    time of its replacement; [content] is what the message held before
    the first of them. *)
Fixpoint replaced (content : option string) (edits : list (Z * string))
  : list (option string * Z) :=
  match edits with
  | [] => []
  | (now, c) :: rest => (content, now) :: replaced (Some c) rest
  end.

End Moderation.

Module ModerationSample.

Import Moderation.

Definition message (id authorId : Z) (content : string) : MessageRow :=
  {| row := mkMessage id (1000 + id) 10 authorId (Some content) None None
              ["file.png"];
     row_isDeleted := false;
     row_deletedAt := None;
     row_deletedBy := None;
     row_isPinned := false;
     row_editedTimestamp := None;
     row_editCount := 0;
     row_editHistory := [];
     row_embeds := [] |}.

(** Channel 10 of server 1 (owner 100) with a message of member 7 and one
    of member 8. *)
Definition store : Store :=
  {| tables := Sample.database [];
     rows := [message 1 7 "hello"; message 2 8 "world"];
     auditLogs := [] |}.

End ModerationSample.

(** ** message.service.ts: mentions *)

Module Mentions.

(** [\d] *)
Definition is_digit (c : ascii) : bool :=
  (48 <=? nat_of_ascii c)%nat && (nat_of_ascii c <=? 57)%nat.

(** [(\d+)] at the head of [s]: the longest run of digits and what
    follows it. *)
Fixpoint digits (s : string) : string * string :=
  match s with
  | String c t =>
      if is_digit c then let '(d, rest) := digits t in (String c d, rest)
      else (EmptyString, s)
  | EmptyString => (EmptyString, EmptyString)
  end.

(** [(\d+)>] at the head of [s]: the captured digits and the length of
    the match.  The run is greedy; giving back a digit cannot help, as a
    digit is no [>]. *)
Definition digitsClose (s : string) : option (string * nat) :=
  match digits s with
  | (EmptyString, _) => None
  | (d, String ">" _) => Some (d, S (String.length d))
  | _ => None
  end.

Definition longer (k : nat) (m : option (string * nat))
  : option (string * nat) :=
  match m with
  | Some (d, n) => Some (d, (k + n)%nat)
  | None => None
  end.

(** [/<@!?(\d+)>/] at the head of [s] *)
Definition userMention (s : string) : option (string * nat) :=
  match s with
  | String "<" (String "@" (String "!" t)) => longer 3 (digitsClose t)
  | String "<" (String "@" t) => longer 2 (digitsClose t)
  | _ => None
  end.

(** [/<@&(\d+)>/] at the head of [s] *)
Definition roleMention (s : string) : option (string * nat) :=
  match s with
  | String "<" (String "@" (String "&" t)) => longer 3 (digitsClose t)
  | _ => None
  end.

(** [/<#(\d+)>/] at the head of [s] *)
Definition channelMention (s : string) : option (string * nat) :=
  match s with
  | String "<" (String "#" t) => longer 2 (digitsClose t)
  | _ => None
  end.

(** [content.matchAll(re)] for a global [re], keeping [match[1]]: the
    search goes on behind each match; [skip] is the number of characters
    to the place ([lastIndex]) where it resumes.  The patterns hold ASCII
    characters only, so matching on the bytes of the UTF-8 text finds the
    matches that matching on UTF-16 units finds. *)
Fixpoint matchAll (re : string -> option (string * nat)) (skip : nat)
    (s : string) : list string :=
  match s with
  | EmptyString => []
  | String c t =>
      match skip with
      | S k => matchAll re k t
      | O =>
          match re s with
          | Some (d, n) => d :: matchAll re (n - 1) t
          | None => matchAll re 0 t
          end
      end
  end.

Record Extracted : Type := mkExtracted {
  users : list string;
  roles : list string;
  channels : list string
}.

(** [extractMentions] *)
Definition extractMentions (content : string) : Extracted :=
  {| users := matchAll userMention 0 content;
     roles := matchAll roleMention 0 content;
     channels := matchAll channelMention 0 content |}.

(** [BigInt(s)] for a string of decimal digits. *)
Definition BigInt (s : string) : Z :=
  fold_left (fun acc c => acc * 10 + (Z.of_nat (nat_of_ascii c) - 48))
            (list_ascii_of_string s) 0.

(** A [roleMembers] row with its [serverMember] included. *)
Record RoleMember : Type := mkRoleMember {
  rm_roleId : Z;
  rm_serverMember_userId : Z
}.

Record Notification : Type := mkNotification {
  n_userId : Z;
  n_type : string;
  n_title : string;
  n_body : string;
  n_data_messageId : string;
  n_data_channelId : string;
  n_sourceUserId : Z;
  n_sourceChannelId : Z
}.

(** The message as [createMentionNotifications] gets it: the row with the
    relations that the query has included. *)
Record Included : Type := mkIncluded {
  inc_message : Message;
  inc_author_username : string;
  inc_channel_name : option string     (* [None]: [channel] not included *)
}.

Definition notification (message : Included) (userId : Z)
    (type title body : string) : Notification :=
  {| n_userId := userId;
     n_type := type;
     n_title := title;
     n_body := body;
     n_data_messageId := pretty (message_id (inc_message message));
     n_data_channelId := pretty (message_channelId (inc_message message));
     n_sourceUserId := message_authorId (inc_message message);
     n_sourceChannelId := message_channelId (inc_message message) |}.

(** The first loop of [createMentionNotifications]: the mention is skipped
    when its text is the decimal form of the author's id. *)
Definition notifyUsers (message : Included) (mentioned : list string)
    (notifications : list Notification) : list Notification :=
  fold_left
    (fun ns userId =>
       if String.eqb userId (pretty (message_authorId (inc_message message)))
       then ns
       else ns ++ [notification message (BigInt userId) "mention"
                     "New Mention"
                     (inc_author_username message +:+ " mentioned you")])
    mentioned notifications.

Definition TYPE_ERROR : string :=
  "Cannot read properties of undefined (reading 'name')".

(** The inner loop of the second: the members of one role.  The body of
    the notification reads [message.channel.name]. *)
Fixpoint notifyMembers (message : Included) (members : list RoleMember)
    (notifications : list Notification) : outcome unit * list Notification :=
  match members with
  | [] => (Returns tt, notifications)
  | member :: rest =>
      if rm_serverMember_userId member
         =? message_authorId (inc_message message)
      then notifyMembers message rest notifications
      else
        match inc_channel_name message with
        | None => (Throws TYPE_ERROR, notifications)
        | Some name =>
            notifyMembers message rest
              (notifications
               ++ [notification message (rm_serverMember_userId member)
                     "role_ping" "Role Mention"
                     ("You were mentioned in " +:+ name)])
        end
  end.

(** [prisma.roleMembers.findMany({ where: { roleId } })] *)
Definition membersOf (roleMembers : list RoleMember) (roleId : Z)
  : list RoleMember :=
  List.filter (fun rm => rm_roleId rm =? roleId) roleMembers.

Fixpoint notifyRoles (message : Included) (roleMembers : list RoleMember)
    (mentioned : list string) (notifications : list Notification)
  : outcome unit * list Notification :=
  match mentioned with
  | [] => (Returns tt, notifications)
  | roleId :: rest =>
      match notifyMembers message (membersOf roleMembers (BigInt roleId))
                          notifications with
      | (Returns _, ns) => notifyRoles message roleMembers rest ns
      | thrown => thrown
      end
  end.

(** [createMentionNotifications] on the tables [roleMembers] and
    [notifications] *)
Definition createMentionNotifications (message : Included)
    (mentions : Extracted) (roleMembers : list RoleMember)
    (notifications : list Notification) : outcome unit * list Notification :=
  notifyRoles message roleMembers (roles mentions)
    (notifyUsers message (users mentions) notifications).

(** The last two statements of [createMessage]: the message that
    [prisma.messages.create] has returned, with [author] and
    [referencedMessage] included and [channel] not, goes to
    [createMentionNotifications] together with the mentions found in the
    stored content, and is returned after it. *)
Definition notifyCreated (authorName : string) (message : Message)
    (roleMembers : list RoleMember) (notifications : list Notification)
  : outcome Message * list Notification :=
  let extractedMentions :=
    extractMentions (default "" (message_content message)) in
  match createMentionNotifications
          (mkIncluded message authorName None) extractedMentions
          roleMembers notifications with
  | (Returns _, ns) => (Returns message, ns)
  | (Throws e, ns) => (Throws e, ns)
  | (Pending, ns) => (Pending, ns)
  end.

(** The row that [prisma.messages.create] returns, as [JSON.stringify]
    meets it: the columns that the embedding carries, in which the ids are
    bigints, and the included [author].  The row of the source has further
    columns, and [referencedMessage]. *)
Definition rowJson (message : Message) (authorName : string) : Json :=
  let optional {A : Type} (f : A -> Json) (o : option A) : Json :=
    match o with
    | Some a => f a
    | None => JNull
    end in
  JObject
    [("id", JBigInt (message_id message));
     ("snowflakeId", JBigInt (message_snowflakeId message));
     ("channelId", JBigInt (message_channelId message));
     ("authorId", JBigInt (message_authorId message));
     ("content", optional JString (message_content message));
     ("nonce", optional JString (message_nonce message));
     ("referencedMessageId",
      optional JBigInt (message_referencedMessageId message));
     ("attachments", JArray (map JString (message_attachments message)));
     ("author",
      JObject [("id", JBigInt (message_authorId message));
               ("username", JString authorName)])].

(** [createMessage] to its end: the calls modelled by
    [MessageService.createMessage], then [cacheMessage] on the row they
    return, then [createMentionNotifications] on that row.  [cache] holds
    the cached lists and [notifications] the table of that name. *)
Definition createMessage_notifying (now : Z) (authorName : string)
    (data : MessageService.CreateMessageData)
    (roleMembers : list RoleMember) (w : World)
    (cache : gmap string CachedList) (notifications : list Notification)
  : outcome Message * World * gmap string CachedList * list Notification :=
  match MessageService.createMessage now data w with
  | (Returns message, w') =>
      match cacheMessage now (MessageService.data_channelId data)
                         (rowJson message authorName) cache with
      | (Returns _, cache') =>
          let '(o, ns) :=
            notifyCreated authorName message roleMembers notifications in
          (o, w', cache', ns)
      | (Throws e, cache') => (Throws e, w', cache', notifications)
      | (Pending, cache') => (Pending, w', cache', notifications)
      end
  | (Throws e, w') => (Throws e, w', cache, notifications)
  | (Pending, w') => (Pending, w', cache, notifications)
  end.

(** *** Vocabulary of the statements *)

(** Whether a mentioned role has a member who is not the author. *)
Definition pings (authorId : Z) (roleMembers : list RoleMember)
    (mentioned : list string) : bool :=
  existsb (fun roleId =>
             existsb (fun rm => negb (rm_serverMember_userId rm =? authorId))
                     (membersOf roleMembers (BigInt roleId)))
          mentioned.

Definition all_digits (s : string) : Prop :=
  Forall (fun c => is_digit c = true) (list_ascii_of_string s).

Definition lt_free (s : string) : Prop :=
  Forall (fun c => c <> "<"%char) (list_ascii_of_string s).

(** A pattern that can only match at a [<]. *)
Definition needs_lt (re : string -> option (string * nat)) : Prop :=
  forall c t, c <> "<"%char -> re (String c t) = None.

(** A mentioned role has a member who is not the author. *)
Definition pings_someone (authorId : Z) (roleMembers : list RoleMember)
    (mentioned : list string) : Prop :=
  exists roleId member,
    In roleId mentioned
    /\ In member roleMembers
    /\ rm_roleId member = BigInt roleId
    /\ rm_serverMember_userId member <> authorId.

End Mentions.

Module MentionSample.

Import Mentions.

(** A message by user 7 in channel 10, as [prisma.messages.create] returns
    it. *)
Definition message : Included :=
  mkIncluded (mkMessage 1 1001 10 7 (Some "hi") None None []) "seven" None.

(** Member 8 of the sample server pings role 5, which user 7 holds. *)
Definition data : MessageService.CreateMessageData :=
  MessageService.mkCreateMessageData 10 8 (Some "<@7> <@&5> hi") None None
    (Some "n1").

Definition roleMembers : list RoleMember := [mkRoleMember 5 7].

End MentionSample.

(** ** middleware/auth.ts: the authentication hook *)

Module HttpAuth.

Import Middleware.

(** What [extractToken] reads of a request: the [authorization] header and
    the [access_token] cookie. *)
Record Credentials : Type := mkCredentials {
  authorization : option string;
  cookie_access_token : option string
}.

(** [extractToken] *)
Definition extractToken (request : Credentials) : option string :=
  match authorization request with
  | Some authHeader =>
      if String.prefix "Bearer " authHeader
      then Some (String.substring 7 (String.length authHeader - 7) authHeader)
      else match cookie_access_token request with
           | Some cookieToken =>
               if decide (cookieToken = "") then None else Some cookieToken
           | None => None
           end
  | None =>
      match cookie_access_token request with
      | Some cookieToken =>
          if decide (cookieToken = "") then None else Some cookieToken
      | None => None
      end
  end.

(** The payload of a token, [userId] as [BigInt] reads it. *)
Record TokenPayload : Type := mkTokenPayload {
  payload_type : string;
  payload_userId : Z;
  payload_sessionId : string
}.

(** How [verifyToken] of [utils/crypto] (which is [jwt.verify]) ends: with
    the payload, or with a thrown error of the given [name]. *)
Inductive Verified : Type :=
| Payload (p : TokenPayload)
| Thrown (name : string).

Record UserSession : Type := mkUserSession {
  session_id : string;
  session_revokedAt : option Z;
  session_expiresAt : Z;
  session_deviceName : option string;
  session_isTrusted : bool;
  session_lastActiveAt : Z
}.

Record AccountRow : Type := mkAccountRow {
  account_id : Z;
  account_username : string;
  account_isDeleted : bool
}.

Record Accounts : Type := mkAccounts {
  userSessions : list UserSession;
  users : list AccountRow
}.

(** [request.session] *)
Record RequestSession : Type := mkRequestSession {
  rs_id : string;
  rs_deviceName : option string;
  rs_isTrusted : bool
}.

Definition touch (now : Z) (s : UserSession) : UserSession :=
  {| session_id := session_id s;
     session_revokedAt := session_revokedAt s;
     session_expiresAt := session_expiresAt s;
     session_deviceName := session_deviceName s;
     session_isTrusted := session_isTrusted s;
     session_lastActiveAt := now |}.

Section WithVerifier.

Variable verifyToken : string -> Verified.

(** [authenticateRequest]; [now] is the reading of [new Date()].  What it
    returns here is what it attaches to the request. *)
Definition authenticateRequest (now : Z) (request : Credentials)
    (a : Accounts) : checked (RequestUser * RequestSession) * Accounts :=
  match extractToken request with
  | None =>
      (Rejected (AuthenticationError "No authentication token provided"
                                     (Some "NO_TOKEN")), a)
  | Some token =>
      if decide (token = "")
      then (Rejected (AuthenticationError "No authentication token provided"
                                          (Some "NO_TOKEN")), a)
      else
        match verifyToken token with
        | Thrown name =>
            if String.eqb name "TokenExpiredError"
            then (Rejected (AuthenticationError "Token expired"
                                                (Some "TOKEN_EXPIRED")), a)
            else if String.eqb name "JsonWebTokenError"
            then (Rejected (AuthenticationError "Invalid token"
                                                (Some "INVALID_TOKEN")), a)
            else (Rejected (AuthenticationError "Authentication failed"
                                                (Some "AUTH_FAILED")), a)
        | Payload payload =>
            if negb (String.eqb (payload_type payload) "access")
            then (Rejected (AuthenticationError "Invalid token type"
                              (Some "INVALID_TOKEN_TYPE")), a)
            else
              match find (fun s => String.eqb (session_id s)
                                     (payload_sessionId payload))
                         (userSessions a) with
              | None =>
                  (Rejected (AuthenticationError "Session expired or revoked"
                               (Some "SESSION_INVALID")), a)
              | Some session =>
                  if match session_revokedAt session with
                     | Some _ => true
                     | None => false
                     end
                     || (session_expiresAt session <? now)
                  then (Rejected
                          (AuthenticationError "Session expired or revoked"
                             (Some "SESSION_INVALID")), a)
                  else
                    match find (fun u => account_id u
                                         =? payload_userId payload)
                               (users a) with
                    | None =>
                        (Rejected (AuthenticationError "User not found"
                                     (Some "USER_NOT_FOUND")), a)
                    | Some user =>
                        if account_isDeleted user
                        then (Rejected (AuthenticationError "User not found"
                                          (Some "USER_NOT_FOUND")), a)
                        else
                          (Passed
                             (mkRequestUser (account_id user)
                                (account_username user)
                                (payload_sessionId payload),
                              mkRequestSession (session_id session)
                                (session_deviceName session)
                                (session_isTrusted session)),
                           {| userSessions :=
                                map (fun s =>
                                       if String.eqb (session_id s)
                                            (session_id session)
                                       then touch now s else s)
                                    (userSessions a);
                              users := users a |})
                    end
              end
        end
  end.

(** [optionalAuth]: what the request holds afterwards. *)
Definition optionalAuth (now : Z) (request : Credentials) (a : Accounts)
  : option (RequestUser * RequestSession) * Accounts :=
  match authenticateRequest now request a with
  | (Passed attached, a') => (Some attached, a')
  | (Rejected _, a') => (None, a')
  end.

End WithVerifier.

End HttpAuth.

(** ** middleware/auth.ts: voice state *)

Module Voice.

(** The payload of a [VOICE_STATE_UPDATE] event, ids as integers. *)
Record VoiceStateUpdate : Type := mkVoiceStateUpdate {
  d_guildId : option Z;
  d_channelId : option Z;
  d_selfMute : option bool;
  d_selfDeaf : option bool;
  d_selfVideo : option bool
}.

Record VoiceState : Type := mkVoiceState {
  vs_userId : Z;
  vs_guildId : option Z;
  vs_channelId : Z;
  vs_sessionId : string;
  vs_isSelfMuted : bool;
  vs_isSelfDeafened : bool;
  vs_isVideoEnabled : bool
}.

Inductive VoiceEvent : Type :=
| VOICE_STATE_UPDATE (state : VoiceState)
| VOICE_STATE_LEFT (userId : Z) (guildId : option Z)   (* [channelId: null] *)
| VOICE_SERVER_UPDATE (token : string) (guildId : option Z).

(** What the handler works on: the hashes and the string keys of Redis,
    the rooms of each socket, and what went out on Socket.IO.  [redis] is
    the Redis client of the process, the one that [setupWebSocketGateway]
    hands to the Socket.IO adapter with [redis.duplicate()]; its [hset],
    [hdel], [set], [get] and [del] are the Redis commands of these
    names. *)
Record VoiceWorld : Type := mkVoiceWorld {
  hashes : gmap string (gmap string VoiceState);
  strings : gmap string string;
  rooms : gmap string (gset string);
  sent : list (Target * VoiceEvent)
}.

Definition hget (v : VoiceWorld) (key field : string) : option VoiceState :=
  default ∅ (hashes v !! key) !! field.

Definition hset (v : VoiceWorld) (key field : string) (value : VoiceState)
  : VoiceWorld :=
  {| hashes := <[key := <[field := value]> (default ∅ (hashes v !! key))]>
                 (hashes v);
     strings := strings v; rooms := rooms v; sent := sent v |}.

Definition hdel (v : VoiceWorld) (key field : string) : VoiceWorld :=
  {| hashes := <[key := delete field (default ∅ (hashes v !! key))]>
                 (hashes v);
     strings := strings v; rooms := rooms v; sent := sent v |}.

Definition set_string (v : VoiceWorld) (key value : string) : VoiceWorld :=
  {| hashes := hashes v; strings := <[key := value]> (strings v);
     rooms := rooms v; sent := sent v |}.

Definition del_string (v : VoiceWorld) (key : string) : VoiceWorld :=
  {| hashes := hashes v; strings := delete key (strings v);
     rooms := rooms v; sent := sent v |}.

Definition roomsOf (v : VoiceWorld) (socketId : string) : gset string :=
  default ∅ (rooms v !! socketId).

(** [socket.join(room)] *)
Definition join (v : VoiceWorld) (socketId room : string) : VoiceWorld :=
  {| hashes := hashes v; strings := strings v;
     rooms := <[socketId := roomsOf v socketId ∪ {[room]}]> (rooms v);
     sent := sent v |}.

(** [socket.leave(room)] *)
Definition leave (v : VoiceWorld) (socketId room : string) : VoiceWorld :=
  {| hashes := hashes v; strings := strings v;
     rooms := <[socketId := roomsOf v socketId ∖ {[room]}]> (rooms v);
     sent := sent v |}.

Definition send (v : VoiceWorld) (t : Target) (e : VoiceEvent) : VoiceWorld :=
  {| hashes := hashes v; strings := strings v; rooms := rooms v;
     sent := sent v ++ [(t, e)] |}.

Definition voiceKey (channel : string) : string := "voice:" +:+ channel.

Definition voiceUserKey (userId : Z) : string :=
  "voice_user:" +:+ pretty userId.

(** [generateVoiceToken] *)
Definition generateVoiceToken (now userId channelId : Z) : string :=
  "voice_" +:+ pretty userId +:+ "_" +:+ pretty channelId +:+ "_"
    +:+ pretty now.

(** [handleVoiceStateUpdate]; [voiceEnabled] is [config.voice.enabled] and
    [now] the reading of [Date.now()]. *)
Definition handleVoiceStateUpdate (voiceEnabled : bool) (now : Z)
    (socket : Socket) (data : VoiceStateUpdate) (v : VoiceWorld)
  : outcome unit * VoiceWorld :=
  match socket_user socket with
  | None => (Throws "TypeError: Cannot read properties of undefined", v)
  | Some user =>
      let userId := user_id user in
      match truthy_id (d_channelId data) with
      | Some channelId =>
          let voiceState :=
            {| vs_userId := userId;
               vs_guildId := d_guildId data;
               vs_channelId := channelId;
               vs_sessionId := socket_id socket;
               vs_isSelfMuted := default false (d_selfMute data);
               vs_isSelfDeafened := default false (d_selfDeaf data);
               vs_isVideoEnabled := default false (d_selfVideo data) |} in
          let v := hset v (voiceKey (pretty channelId)) (pretty userId)
                        voiceState in
          let v := set_string v (voiceUserKey userId) (pretty channelId) in
          let v := join v (socket_id socket) (voiceKey (pretty channelId)) in
          let v := send v (ToRoom (voiceKey (pretty channelId)))
                        (VOICE_STATE_UPDATE voiceState) in
          let v := if voiceEnabled
                   then send v (ToSocket (socket_id socket))
                          (VOICE_SERVER_UPDATE
                             (generateVoiceToken now userId channelId)
                             (d_guildId data))
                   else v in
          (Returns tt, v)
      | None =>
          match strings v !! voiceUserKey userId with
          | Some currentChannel =>
              if decide (currentChannel = "") then (Returns tt, v)
              else
                let v := hdel v (voiceKey currentChannel) (pretty userId) in
                let v := del_string v (voiceUserKey userId) in
                let v := leave v (socket_id socket)
                               (voiceKey currentChannel) in
                let v := send v (ToRoom (voiceKey currentChannel))
                              (VOICE_STATE_LEFT userId (d_guildId data)) in
                (Returns tt, v)
          | None => (Returns tt, v)
          end
      end
  end.

(** A driver: the given updates from one socket, in order. *)
Fixpoint handleVoiceStateUpdates (voiceEnabled : bool) (now : Z)
    (socket : Socket) (updates : list VoiceStateUpdate) (v : VoiceWorld)
  : VoiceWorld :=
  match updates with
  | [] => v
  | data :: rest =>
      handleVoiceStateUpdates voiceEnabled now socket rest
        (handleVoiceStateUpdate voiceEnabled now socket data v).2
  end.

(** *** Vocabulary of the statements *)

Definition joining (channelId : Z) : VoiceStateUpdate :=
  mkVoiceStateUpdate (Some 1) (Some channelId) None None None.

Definition leaving : VoiceStateUpdate :=
  mkVoiceStateUpdate (Some 1) None None None None.

Definition empty : VoiceWorld := mkVoiceWorld ∅ ∅ ∅ [].

End Voice.

(** ** middleware/auth.ts: the events of a gateway process *)

Module GatewayEvents.

Import Gateway.

(** [socket.on('PRESENCE_UPDATE', ...)]: the state after the handler, for
    an event whose data has a status of the enumeration and no custom
    status.  Without
    [socket.data.user] the handler ends in a [TypeError] before it has
    written anything. *)
Definition on_PRESENCE_UPDATE (now : Z) (socket : Socket) (status : Status)
    (w : World) : World :=
  if negb (socket_authenticated socket) then w
  else
    match socket_user socket with
    | None => w
    | Some user =>
        let userId := user_id user in
        let w := set_registry w
                   (updatePresence (registry w) now userId
                                   (Status_name status) None) in
        let w := set_db w
                   (set_users_status (db w)
                      (<[userId := status]> (users_status (db w)))) in
        broadcastPresence now userId status w
    end.

(** What reaches the handlers of one process, one event after the
    other. *)
Inductive Event : Type :=
| Identified (now : Z) (socket : Socket) (user : User)
| PresenceUpdate (now : Z) (socket : Socket) (status : Status)
| MessageCreate (socket : Socket) (data : MessageCreatePayload)
| Disconnect (now : Z) (socket : Socket).

Definition step (w : World) (e : Event) : World :=
  match e with
  | Identified now socket user => (on_IDENTIFY_verified now socket user w).2
  | PresenceUpdate now socket status => on_PRESENCE_UPDATE now socket status w
  | MessageCreate socket data => on_MESSAGE_CREATE socket data w
  | Disconnect now socket => on_disconnect now socket w
  end.

Definition run (events : list Event) (w : World) : World :=
  fold_left step events w.

(** *** Vocabulary of the statements *)

(** No user is mapped to an empty set of sockets. *)
Definition no_empty_set (w : World) : Prop :=
  forall userIdStr sockets,
    userSockets w !! userIdStr = Some sockets -> sockets <> ∅.

End GatewayEvents.

(** * Properties *)

(** ** Permission arithmetic *)

Module PermissionFacts.
Import PermissionUtils.

Lemma has_lor_r (x a : Z) : has (Z.lor x a) a = true.
Proof.
  unfold has. apply Z.eqb_eq. apply Z.bits_inj'. intros n _.
  rewrite Z.land_spec, Z.lor_spec.
  destruct (Z.testbit x n), (Z.testbit a n); reflexivity.
Qed.

Lemma calculateEffectivePermissions_nil (base : Z) :
  calculateEffectivePermissions base [] = base.
Proof. reflexivity. Qed.

Lemma calculateEffectivePermissions_app (base : Z) (l1 l2 : list Overwrite) :
  calculateEffectivePermissions base (l1 ++ l2)
  = calculateEffectivePermissions (calculateEffectivePermissions base l1) l2.
Proof.
  revert base. induction l1 as [|o l1 IH]; intros base; simpl.
  - reflexivity.
  - apply IH.
Qed.

Lemma calculateEffectivePermissions_snoc (base : Z) (l : list Overwrite)
    (o : Overwrite) :
  calculateEffectivePermissions base (l ++ [o])
  = Z.lor (Z.land (calculateEffectivePermissions base l) (Z.lnot (deny o)))
          (allow o).
Proof. rewrite calculateEffectivePermissions_app. reflexivity. Qed.

(** C1. An administrator base does not short-circuit
    [calculateEffectivePermissions]: for every base, administrator or
    not, an empty overwrite list gives the base back and a single
    overwrite gives [(base & ~deny) | allow].  With base
    [ADMINISTRATOR | SEND_MESSAGES] and the single overwrite
    [{allow: 0, deny: SEND_MESSAGES}] the function returns
    [ADMINISTRATOR] alone, which is not [Permissions.ALL] and no longer
    holds [SEND_MESSAGES], although [isAdministrator] holds of the base. *)
Theorem administrator_base_is_overwritten :
  (forall base, calculateEffectivePermissions base [] = base) /\
  (forall base o,
      calculateEffectivePermissions base [o]
      = Z.lor (Z.land base (Z.lnot (deny o))) (allow o)) /\
  let base := Z.lor Permissions.ADMINISTRATOR Permissions.SEND_MESSAGES in
  let overwrites := [mkOverwrite 0 Permissions.SEND_MESSAGES] in
  isAdministrator base = true /\
  calculateEffectivePermissions base overwrites = Permissions.ADMINISTRATOR /\
  calculateEffectivePermissions base overwrites <> Permissions.ALL /\
  has (calculateEffectivePermissions base overwrites)
      Permissions.SEND_MESSAGES = false.
Proof.
  split; [intros base; reflexivity |].
  split; [intros base o; reflexivity |].
  cbv zeta. split; [reflexivity |]. split; [reflexivity |].
  split; [| reflexivity].
  intros Heq. vm_compute in Heq. discriminate Heq.
Qed.

(** C3. [calculateEffectivePermissions base []] is [base] for every
    base; the overwrites are applied front to back, each step being
    [current = (current & ~deny) | allow], so the last overwrite's
    [allow] bits are always in the result; and for
    [base = SEND_MESSAGES | VIEW_CHANNEL] with the overwrites
    [{deny: SEND_MESSAGES}] then [{allow: SEND_MESSAGES}] the result
    still holds [SEND_MESSAGES]. *)
Theorem effective_permissions_in_order :
  (forall base, calculateEffectivePermissions base [] = base) /\
  (forall base o rest,
      calculateEffectivePermissions base (o :: rest)
      = calculateEffectivePermissions
          (Z.lor (Z.land base (Z.lnot (deny o))) (allow o)) rest) /\
  (forall base l o,
      calculateEffectivePermissions base (l ++ [o])
      = Z.lor (Z.land (calculateEffectivePermissions base l)
                      (Z.lnot (deny o)))
              (allow o)) /\
  (forall base l o,
      has (calculateEffectivePermissions base (l ++ [o])) (allow o) = true) /\
  has (calculateEffectivePermissions
         (Z.lor Permissions.SEND_MESSAGES Permissions.VIEW_CHANNEL)
         [mkOverwrite 0 Permissions.SEND_MESSAGES;
          mkOverwrite Permissions.SEND_MESSAGES 0])
      Permissions.SEND_MESSAGES = true.
Proof.
  split; [exact calculateEffectivePermissions_nil |].
  split; [reflexivity |].
  split; [exact calculateEffectivePermissions_snoc |].
  split.
  - intros base l o. rewrite calculateEffectivePermissions_snoc.
    apply has_lor_r.
  - reflexivity.
Qed.

End PermissionFacts.

(** ** The identifier generator *)

Module SnowflakeFacts.
Import Snowflake.

(** *** Bit fields as sums *)

Lemma lor_shiftl_small (a b n : Z) :
  0 <= n -> 0 <= b < 2 ^ n -> Z.lor (Z.shiftl a n) b = a * 2 ^ n + b.
Proof.
  intros Hn Hb.
  assert (Hdisj : Z.land (Z.shiftl a n) b = 0).
  { apply Z.bits_inj'. intros i Hi.
    rewrite Z.land_spec, Z.bits_0.
    destruct (Z.lt_ge_cases i n) as [Hlt | Hge].
    - rewrite Z.shiftl_spec_low by lia. reflexivity.
    - replace b with (b mod 2 ^ n) by (apply Z.mod_small; lia).
      rewrite Z.mod_pow2_bits_high by lia. apply andb_false_r. }
  rewrite <- Z.lxor_lor by assumption.
  rewrite <- Z.add_nocarry_lxor by assumption.
  rewrite Z.shiftl_mul_pow2 by lia. reflexivity.
Qed.

Lemma wf_ranges (g : t) :
  wf g ->
  0 <= workerId g <= 31 /\ 0 <= datacenterId g <= 31 /\
  0 <= sequence g <= 4095.
Proof. exact (fun H => H). Qed.

Lemma compose_sum (g : t) (ts : Z) :
  wf g ->
  compose g ts
  = (ts - epoch g) * 4194304 + datacenterId g * 131072
    + workerId g * 4096 + sequence g.
Proof.
  intros Hwf. apply wf_ranges in Hwf. destruct Hwf as (Hw & Hd & Hs).
  unfold compose.
  change TIMESTAMP_SHIFT with 22. change DATACENTER_ID_SHIFT with 17.
  change WORKER_ID_SHIFT with 12.
  rewrite <- !Z.lor_assoc.
  rewrite (lor_shiftl_small (workerId g) (sequence g) 12)
    by (change (2 ^ 12) with 4096; lia).
  change (2 ^ 12) with 4096.
  rewrite (lor_shiftl_small (datacenterId g)
             (workerId g * 4096 + sequence g) 17)
    by (change (2 ^ 17) with 131072; lia).
  change (2 ^ 17) with 131072.
  rewrite (lor_shiftl_small (ts - epoch g)
             (datacenterId g * 131072 + (workerId g * 4096 + sequence g)) 22)
    by (change (2 ^ 22) with 4194304; lia).
  change (2 ^ 22) with 4194304.
  lia.
Qed.

Lemma id_at_sum (g : t) (ts s : Z) :
  wf g -> 0 <= s <= 4095 ->
  id_at g ts s
  = (ts - epoch g) * 4194304 + datacenterId g * 131072
    + workerId g * 4096 + s.
Proof.
  intros Hwf Hs. unfold id_at. rewrite compose_sum; [reflexivity |].
  destruct Hwf as (Hw & Hd & _). repeat split; simpl; try tauto.
  all: change MAX_SEQUENCE with 4095; lia.
Qed.

Lemma deconstruct_sum (a d w s : Z) :
  0 <= d <= 31 -> 0 <= w <= 31 -> 0 <= s <= 4095 ->
  deconstruct (a * 4194304 + d * 131072 + w * 4096 + s)
  = {| d_timestamp := Date_of_BigInt (a + CUSTOM_EPOCH);
       d_workerId := w; d_datacenterId := d; d_sequence := s;
       d_epoch := CUSTOM_EPOCH |}.
Proof.
  intros Hd Hw Hs. unfold deconstruct.
  change TIMESTAMP_SHIFT with 22. change DATACENTER_ID_SHIFT with 17.
  change WORKER_ID_SHIFT with 12.
  change MAX_WORKER_ID with (Z.ones 5).
  change MAX_DATACENTER_ID with (Z.ones 5).
  change MAX_SEQUENCE with (Z.ones 12).
  rewrite !Z.land_ones by lia. rewrite !Z.shiftr_div_pow2 by lia.
  change (2 ^ 22) with 4194304. change (2 ^ 17) with 131072.
  change (2 ^ 12) with 4096. change (2 ^ 5) with 32.
  set (x := a * 4194304 + d * 131072 + w * 4096 + s).
  assert (H22 : x / 4194304 = a) by (subst x; Z.div_mod_to_equations; lia).
  assert (H17 : (x / 131072) mod 32 = d)
    by (subst x; Z.div_mod_to_equations; lia).
  assert (H12 : (x / 4096) mod 32 = w)
    by (subst x; Z.div_mod_to_equations; lia).
  assert (H0 : x mod 4096 = s) by (subst x; Z.div_mod_to_equations; lia).
  rewrite H22, H17, H12, H0. reflexivity.
Qed.

(** *** The constructor *)

Lemma land_31_range (z : Z) : 0 <= Z.land z 31 <= 31.
Proof.
  pose proof (Z.land_ones z 5) as H. change (Z.ones 5) with 31 in H.
  rewrite H by lia. change (2 ^ 5) with 32.
  pose proof (Z.mod_pos_bound z 32). lia.
Qed.

(** For integral arguments the constructor never throws: it masks both
    ids to their low five bits before it tests the range. *)
Lemma constructor_masks (w d : Z) (e : option Z) :
  constructor (mkConfig (Some (Integral w)) (Some (Integral d)) e)
  = Returns {| workerId := w mod 32; datacenterId := d mod 32;
               epoch := nullish e CUSTOM_EPOCH; sequence := 0;
               lastTimestamp := -1; lock := false |}.
Proof.
  unfold constructor. cbn [cfg_workerId cfg_datacenterId cfg_epoch nullish
                            BigInt mbind outcome_bind].
  change MAX_WORKER_ID with 31. change MAX_DATACENTER_ID with 31.
  pose proof (land_31_range w) as Hw. pose proof (land_31_range d) as Hd.
  replace (Z.land w 31 <? 0) with false by (symmetry; apply Z.ltb_ge; lia).
  replace (Z.land w 31 >? 31) with false
    by (symmetry; rewrite Z.gtb_ltb; apply Z.ltb_ge; lia).
  replace (Z.land d 31 <? 0) with false by (symmetry; apply Z.ltb_ge; lia).
  replace (Z.land d 31 >? 31) with false
    by (symmetry; rewrite Z.gtb_ltb; apply Z.ltb_ge; lia).
  cbn [orb]. change 31 with (Z.ones 5). rewrite !Z.land_ones by lia.
  reflexivity.
Qed.

Lemma constructor_wf (config : SnowflakeConfig) (g : t) :
  constructor config = Returns g ->
  wf g /\ sequence g = 0 /\ lastTimestamp g = -1
  /\ epoch g = nullish (cfg_epoch config) CUSTOM_EPOCH.
Proof.
  unfold constructor.
  destruct (BigInt (nullish (cfg_workerId config) (Integral 1))) as [w | |];
    cbn [mbind outcome_bind]; try discriminate.
  destruct (BigInt (nullish (cfg_datacenterId config) (Integral 1)))
    as [d | |]; cbn [mbind outcome_bind]; try discriminate.
  change MAX_WORKER_ID with 31. change MAX_DATACENTER_ID with 31.
  destruct (_ || _); [discriminate |].
  destruct (_ || _); [discriminate |].
  intros [= <-]. unfold wf. cbn.
  change MAX_WORKER_ID with 31. change MAX_DATACENTER_ID with 31.
  change MAX_SEQUENCE with 4095.
  pose proof (land_31_range w). pose proof (land_31_range d).
  repeat split; lia.
Qed.

(** C4. The constructor does not reject out-of-range ids: for all
    integral worker and datacenter ids it returns an instance whose ids
    are the arguments reduced modulo 32, so it never reaches either
    [throw]; with [workerId: 32] and [datacenterId: -1] it returns an
    instance whose worker id is 0 and whose datacenter id is 31. *)
Theorem constructor_accepts_out_of_range :
  (forall w d e,
      constructor (mkConfig (Some (Integral w)) (Some (Integral d)) e)
      = Returns {| workerId := w mod 32; datacenterId := d mod 32;
                   epoch := nullish e CUSTOM_EPOCH; sequence := 0;
                   lastTimestamp := -1; lock := false |}) /\
  constructor (mkConfig (Some (Integral 32)) (Some (Integral (-1))) None)
  = Returns {| workerId := 0; datacenterId := 31; epoch := CUSTOM_EPOCH;
               sequence := 0; lastTimestamp := -1; lock := false |}.
Proof.
  split.
  - exact constructor_masks.
  - rewrite constructor_masks. reflexivity.
Qed.

(** *** One call of [generate] *)

Lemma next_sequence (g : t) :
  wf g ->
  Z.land (sequence g + 1) MAX_SEQUENCE
  = if sequence g =? 4095 then 0 else sequence g + 1.
Proof.
  intros (_ & _ & Hs). change MAX_SEQUENCE with 4095 in Hs.
  change MAX_SEQUENCE with (Z.ones 12). rewrite Z.land_ones by lia.
  change (2 ^ 12) with 4096.
  destruct (Z.eqb_spec (sequence g) 4095) as [-> | Hne].
  - reflexivity.
  - apply Z.mod_small. lia.
Qed.

Lemma waitNextMillis_Some (last : Z) (clock : list Z) (ts : Z)
    (rest : list Z) :
  waitNextMillis last clock = Some (ts, rest) ->
  last < ts /\
  exists stall, clock = stall ++ ts :: rest
                /\ Forall (fun r => r <= last) stall.
Proof.
  induction clock as [|r clock IH]; simpl; [discriminate |].
  destruct (Z.leb_spec r last) as [Hle | Hgt].
  - intros H. destruct (IH H) as (Hlt & stall & -> & Hall).
    split; [assumption |]. exists (r :: stall). split; [reflexivity |].
    constructor; assumption.
  - intros [= -> ->]. split; [assumption |]. exists []. split;
      [reflexivity | constructor].
Qed.

Lemma waitNextMillis_advance (last : Z) (stall : list Z) (ts : Z)
    (rest : list Z) :
  Forall (fun r => r <= last) stall -> last < ts ->
  waitNextMillis last (stall ++ ts :: rest) = Some (ts, rest).
Proof.
  intros Hall Hlt. induction Hall as [|r stall Hr _ IH]; simpl.
  - destruct (Z.leb_spec ts last); [lia | reflexivity].
  - destruct (Z.leb_spec r last); [exact IH | lia].
Qed.

Lemma generate_regress (g : t) (ts : Z) (rest : list Z) :
  ts < lastTimestamp g ->
  generate g (ts :: rest)
  = (Throws "Clock moved backwards. Refusing to generate ID", g, rest).
Proof.
  intros Hlt. unfold generate.
  destruct (Z.ltb_spec ts (lastTimestamp g)); [reflexivity | lia].
Qed.

Lemma generate_new_ms (g : t) (ts : Z) (rest : list Z) :
  lastTimestamp g < ts ->
  generate g (ts :: rest)
  = (Returns (id_at g ts 0), set_lastTimestamp (set_sequence g 0) ts, rest).
Proof.
  intros Hlt. unfold generate.
  destruct (Z.ltb_spec ts (lastTimestamp g)); [lia |].
  destruct (Z.eqb_spec ts (lastTimestamp g)); [lia |].
  reflexivity.
Qed.

Lemma generate_same_ms (g : t) (rest : list Z) :
  wf g -> sequence g < MAX_SEQUENCE ->
  generate g (lastTimestamp g :: rest)
  = (Returns (id_at g (lastTimestamp g) (sequence g + 1)),
     set_lastTimestamp (set_sequence g (sequence g + 1)) (lastTimestamp g),
     rest).
Proof.
  intros Hwf Hs. change MAX_SEQUENCE with 4095 in Hs. unfold generate.
  rewrite Z.ltb_irrefl, Z.eqb_refl. cbn [sequence set_sequence].
  rewrite next_sequence by assumption.
  destruct (Z.eqb_spec (sequence g) 4095); [lia |].
  destruct (Z.eqb_spec (sequence g + 1) 0);
    [destruct Hwf as (_ & _ & ?); lia |].
  reflexivity.
Qed.

Lemma generate_overflow (g : t) (stall : list Z) (ts : Z) (rest : list Z) :
  wf g -> sequence g = MAX_SEQUENCE ->
  Forall (fun r => r <= lastTimestamp g) stall -> lastTimestamp g < ts ->
  generate g (lastTimestamp g :: stall ++ ts :: rest)
  = (Returns (id_at g ts 0), set_lastTimestamp (set_sequence g 0) ts, rest).
Proof.
  intros Hwf Hs Hall Hlt. change MAX_SEQUENCE with 4095 in Hs.
  unfold generate.
  rewrite Z.ltb_irrefl, Z.eqb_refl. cbn [sequence set_sequence].
  rewrite next_sequence by assumption. rewrite Hs. cbn [Z.eqb].
  cbn [lastTimestamp].
  rewrite waitNextMillis_advance by assumption.
  reflexivity.
Qed.

Local Ltac inv_goal :=
  unfold wf; cbn; change MAX_SEQUENCE with 4095;
  repeat split; try tauto; try lia.

(** Every call that returns leaves the instance in range, keeps its
    worker, datacenter and epoch, returns the identifier of the
    millisecond and sequence number it leaves in the instance, took that
    millisecond from the clock, and either stayed in the millisecond with
    the next sequence number or moved to a later one with sequence 0. *)
Lemma generate_returns_inv (g : t) (clock : list Z) (id : Z) (g' : t)
    (clock' : list Z) :
  wf g ->
  generate g clock = (Returns id, g', clock') ->
  wf g' /\ workerId g' = workerId g /\ datacenterId g' = datacenterId g
  /\ epoch g' = epoch g
  /\ id = id_at g (lastTimestamp g') (sequence g')
  /\ In (lastTimestamp g') clock
  /\ ((lastTimestamp g' = lastTimestamp g
       /\ sequence g' = sequence g + 1)
      \/ (lastTimestamp g < lastTimestamp g' /\ sequence g' = 0)).
Proof.
  intros Hwf. pose proof Hwf as (Hw & Hd & Hs).
  change MAX_SEQUENCE with 4095 in Hs.
  destruct clock as [|ts clock1]; [discriminate |].
  destruct (Z.lt_trichotomy ts (lastTimestamp g)) as [Hlt | [Heq | Hgt]].
  - rewrite generate_regress by assumption. discriminate.
  - subst ts. unfold generate.
    rewrite Z.ltb_irrefl, Z.eqb_refl. cbn [sequence set_sequence].
    rewrite next_sequence by assumption.
    destruct (Z.eqb_spec (sequence g) 4095) as [Hmax | Hnmax].
    + cbn [Z.eqb lastTimestamp set_sequence].
      destruct (waitNextMillis (lastTimestamp g) clock1)
        as [[ts' clock2] |] eqn:Hwait; [| discriminate].
      apply waitNextMillis_Some in Hwait.
      destruct Hwait as (Hlt & stall & -> & _).
      intros [= <- <- <-]. inv_goal.
      right. apply in_or_app. right. left. reflexivity.
    + destruct (Z.eqb_spec (sequence g + 1) 0); [lia |].
      intros [= <- <- <-]. inv_goal.
  - rewrite generate_new_ms by assumption.
    intros [= <- <- <-]. inv_goal.
Qed.

(** *** Decoding *)

Lemma deconstruct_id_at (g : t) (ts s : Z) :
  wf g -> epoch g = CUSTOM_EPOCH -> 0 <= s <= 4095 -> valid_time ts ->
  deconstruct (id_at g ts s)
  = {| d_timestamp := Some ts; d_workerId := workerId g;
       d_datacenterId := datacenterId g; d_sequence := s;
       d_epoch := CUSTOM_EPOCH |}.
Proof.
  intros Hwf He Hs Hts. pose proof (wf_ranges g Hwf) as (Hw & Hd & _).
  rewrite id_at_sum by assumption.
  rewrite deconstruct_sum by assumption.
  rewrite He. replace (ts - CUSTOM_EPOCH + CUSTOM_EPOCH) with ts by lia.
  unfold Date_of_BigInt. unfold valid_time in Hts.
  destruct (Z.leb_spec (Z.abs ts) MAX_TIME_VALUE); [reflexivity | lia].
Qed.

(** C5. On an instance with the default epoch, [deconstruct] is the
    inverse of [generate]: for every identifier a call returns,
    [deconstruct] yields the millisecond (as a valid date holding the
    absolute time), the worker id, the datacenter id and the sequence
    number that the call composed it from; these are the worker and
    datacenter of the instance and the millisecond and sequence number
    the call left in it. *)
Theorem deconstruct_inverts_generate (g : t) (clock : list Z) (id : Z)
    (g' : t) (clock' : list Z) :
  wf g -> epoch g = CUSTOM_EPOCH -> Forall valid_time clock ->
  generate g clock = (Returns id, g', clock') ->
  id = compose g' (lastTimestamp g') /\
  deconstruct id
  = {| d_timestamp := Some (lastTimestamp g');
       d_workerId := workerId g;
       d_datacenterId := datacenterId g;
       d_sequence := sequence g';
       d_epoch := CUSTOM_EPOCH |}.
Proof.
  intros Hwf He Hclock Hgen.
  destruct (generate_returns_inv g clock id g' clock' Hwf Hgen)
    as (Hwf' & Hw & Hd & Hepoch & Hid & Hin & _).
  split.
  - rewrite Hid. unfold id_at, compose. cbn. rewrite Hw, Hd, Hepoch.
    reflexivity.
  - rewrite Hid. apply deconstruct_id_at; try assumption.
    + destruct Hwf' as (_ & _ & Hs). exact Hs.
    + rewrite Forall_forall in Hclock. apply Hclock.
      apply list_elem_of_In. exact Hin.
Qed.

(** *** Successive calls *)

Lemma generate_key_increases (g : t) (clock : list Z) (id : Z) (g' : t)
    (clock' : list Z) :
  wf g ->
  generate g clock = (Returns id, g', clock') ->
  wf g' /\ id = id_at g' (lastTimestamp g') (sequence g')
  /\ id_at g (lastTimestamp g) (sequence g) < id.
Proof.
  intros Hwf Hgen.
  destruct (generate_returns_inv g clock id g' clock' Hwf Hgen)
    as (Hwf' & Hw & Hd & Hepoch & Hid & _ & Hstep).
  pose proof (wf_ranges g Hwf) as (Rw & Rd & Rs).
  pose proof (wf_ranges g' Hwf') as (_ & _ & Rs').
  split; [assumption |]. split.
  - rewrite Hid. rewrite !id_at_sum by assumption.
    rewrite Hw, Hd, Hepoch. reflexivity.
  - rewrite Hid. rewrite !id_at_sum by assumption.
    destruct Hstep as [[-> ->] | [Hlt ->]]; lia.
Qed.

Lemma generateMany_sorted (n : nat) :
  forall g clock ids g' clock',
    wf g ->
    generateMany n g clock = (ids, g', clock') ->
    StronglySorted Z.lt ids
    /\ Forall (fun id => id_at g (lastTimestamp g) (sequence g) < id) ids.
Proof.
  induction n as [|n IH]; intros g clock ids g' clock' Hwf; simpl.
  - intros [= <- <- <-]. split; constructor.
  - destruct (generate g clock) as [[o g1] clock1] eqn:Hgen.
    destruct o as [id | msg |].
    + destruct (generateMany n g1 clock1) as [[ids2 g2] clock2] eqn:Hmany.
      intros [= <- <- <-].
      destruct (generate_key_increases _ _ _ _ _ Hwf Hgen)
        as (Hwf1 & Hid & Hlt).
      destruct (IH _ _ _ _ _ Hwf1 Hmany) as (Hsorted & Hall).
      rewrite <- Hid in Hall.
      split.
      * constructor; assumption.
      * constructor; [assumption |].
        eapply Forall_impl; [exact Hall |]. cbn. intros; lia.
    + intros [= <- <- <-]. split; constructor.
    + intros [= <- <- <-]. split; constructor.
Qed.

(** [n] further calls within the millisecond of the last identifier, as
    long as the sequence number has room. *)
Lemma generateMany_same_ms (n : nat) :
  forall g rest,
    wf g -> sequence g + Z.of_nat n <= 4095 ->
    generateMany n g (repeat (lastTimestamp g) n ++ rest)
    = (map (id_at g (lastTimestamp g)) (seqZ (sequence g + 1) (Z.of_nat n)),
       set_lastTimestamp (set_sequence g (sequence g + Z.of_nat n))
                         (lastTimestamp g),
       rest).
Proof.
  induction n as [|n IH]; intros g rest Hwf Hroom.
  - cbn. rewrite Z.add_0_r. destruct g; reflexivity.
  - pose proof (wf_ranges g Hwf) as (Rw & Rd & Rs).
    cbn [repeat app generateMany].
    rewrite generate_same_ms
      by (try assumption; change MAX_SEQUENCE with 4095; lia).
    set (g1 := set_lastTimestamp (set_sequence g (sequence g + 1))
                                 (lastTimestamp g)).
    assert (Hwf1 : wf g1).
    { unfold wf, g1. cbn. change MAX_SEQUENCE with 4095.
      destruct Hwf as (? & ? & ?). repeat split; try tauto; lia. }
    specialize (IH g1 rest Hwf1).
    change (lastTimestamp g1) with (lastTimestamp g) in IH.
    change (sequence g1) with (sequence g + 1) in IH.
    rewrite IH by lia.
    rewrite (seqZ_cons (sequence g + 1) (Z.of_nat (S n))) by lia.
    replace (Z.pred (Z.of_nat (S n))) with (Z.of_nat n) by lia.
    replace (Z.succ (sequence g + 1)) with (sequence g + 1 + 1) by lia.
    replace (sequence g + 1 + Z.of_nat n) with (sequence g + Z.of_nat (S n))
      by lia.
    reflexivity.
Qed.

Lemma generateMany_add (n m : nat) :
  forall g clock ids g' clock',
    generateMany n g clock = (ids, g', clock') ->
    length ids = n ->
    generateMany (n + m) g clock
    = (ids ++ (generateMany m g' clock').1.1,
       (generateMany m g' clock').1.2,
       (generateMany m g' clock').2).
Proof.
  induction n as [|n IH]; intros g clock ids g' clock'; simpl.
  - intros [= <- <- <-] _.
    destruct (generateMany m g clock) as [[? ?] ?]. reflexivity.
  - destruct (generate g clock) as [[o g1] clock1].
    destruct o as [id | msg |]; try (intros [= <- <- <-]; discriminate).
    destruct (generateMany n g1 clock1) as [[ids2 g2] clock2] eqn:Hmany.
    intros [= <- <- <-] [= Hlen].
    rewrite (IH _ _ _ _ _ Hmany Hlen). reflexivity.
Qed.

(** A first call in a new millisecond [ts], [n] calls that fill the
    sequence numbers of [ts], and one more call that meets [ts] again. *)
Lemma generateMany_fill (n : nat) (g : t) (ts : Z) (stall : list Z)
    (ts' : Z) (rest : list Z) :
  wf g -> Z.of_nat n = 4095 -> lastTimestamp g < ts ->
  Forall (fun r => r <= ts) stall -> ts < ts' ->
  generateMany (S (n + 1)) g
    (ts :: repeat ts n ++ ts :: stall ++ ts' :: rest)
  = (id_at g ts 0 :: map (id_at g ts) (seqZ 1 4095) ++ [id_at g ts' 0],
     set_lastTimestamp (set_sequence g 0) ts', rest).
Proof.
  intros Hwf Hn Hnew Hstall Hlt.
  cbn [generateMany]. rewrite generate_new_ms by assumption.
  set (g1 := set_lastTimestamp (set_sequence g 0) ts).
  assert (Hwf1 : wf g1).
  { unfold wf, g1. cbn. change MAX_SEQUENCE with 4095.
    destruct Hwf as (? & ? & _). repeat split; try tauto; lia. }
  pose proof (generateMany_same_ms n g1 (ts :: stall ++ ts' :: rest) Hwf1)
    as Hrun.
  change (lastTimestamp g1) with ts in Hrun.
  change (sequence g1) with 0 in Hrun.
  specialize (Hrun ltac:(lia)).
  rewrite (generateMany_add n 1 _ _ _ _ _ Hrun)
    by (rewrite length_map, length_seqZ; lia).
  set (g2 := set_lastTimestamp (set_sequence g1 (0 + Z.of_nat n)) ts).
  assert (Hwf2 : wf g2).
  { unfold wf, g2, g1. cbn. change MAX_SEQUENCE with 4095.
    destruct Hwf as (? & ? & _). repeat split; try tauto; lia. }
  cbn [generateMany].
  change (ts :: stall ++ ts' :: rest)
    with (lastTimestamp g2 :: stall ++ ts' :: rest).
  rewrite generate_overflow;
    [| assumption | cbn; change MAX_SEQUENCE with 4095; lia
     | exact Hstall | exact Hlt ].
  cbn [fst snd]. rewrite Hn. reflexivity.
Qed.

Lemma generateMany_4097 (g : t) (ts : Z) (stall : list Z) (ts' : Z)
    (rest : list Z) :
  wf g -> lastTimestamp g < ts ->
  Forall (fun r => r <= ts) stall -> ts < ts' ->
  generateMany 4097 g (repeat ts 4097 ++ stall ++ ts' :: rest)
  = (map (id_at g ts) (seqZ 0 4096) ++ [id_at g ts' 0],
     set_lastTimestamp (set_sequence g 0) ts', rest).
Proof.
  intros Hwf Hnew Hstall Hlt.
  pose proof (generateMany_fill 4095 g ts stall ts' rest Hwf eq_refl
                Hnew Hstall Hlt) as H.
  rewrite (seqZ_cons 0 4096) by lia.
  change (Z.succ 0) with 1. change (Z.pred 4096) with 4095.
  replace (repeat ts 4097) with (ts :: repeat ts 4095 ++ [ts]).
  - cbn [map app]. rewrite <- app_assoc. cbn [app]. exact H.
  - change 4097%nat with (S (4095 + 1)). cbn [repeat].
    rewrite repeat_app. reflexivity.
Qed.

(** C6. The identifiers of one instance increase strictly from call to
    call: any two successive calls that return give [id1 < id2], and the
    identifiers of any run of calls are strictly sorted.  A call that
    reads the millisecond of the previous identifier while the sequence
    number has room returns the previous identifier plus one: same
    millisecond, worker and datacenter, sequence number one higher.
    4097 calls that all read the same new millisecond [ts] return the
    sequence numbers 0 to 4095 of [ts] and then, once the clock shows a
    later millisecond [ts'], sequence number 0 of [ts']. *)
Theorem generate_strictly_increasing (g : t) :
  wf g ->
  (forall clock id1 g1 clock1 id2 g2 clock2,
      generate g clock = (Returns id1, g1, clock1) ->
      generate g1 clock1 = (Returns id2, g2, clock2) ->
      id1 < id2) /\
  (forall n clock, StronglySorted Z.lt (generateMany n g clock).1.1) /\
  (forall clock id1 g1 rest,
      generate g clock = (Returns id1, g1, lastTimestamp g1 :: rest) ->
      sequence g1 < MAX_SEQUENCE ->
      id1 = id_at g (lastTimestamp g1) (sequence g1) /\
      id1 + 1 = id_at g (lastTimestamp g1) (sequence g1 + 1) /\
      generate g1 (lastTimestamp g1 :: rest)
      = (Returns (id1 + 1),
         set_lastTimestamp (set_sequence g1 (sequence g1 + 1))
                           (lastTimestamp g1),
         rest)) /\
  (forall ts stall ts' rest,
      lastTimestamp g < ts ->
      Forall (fun r => r <= ts) stall -> ts < ts' ->
      generateMany 4097 g (repeat ts 4097 ++ stall ++ ts' :: rest)
      = (map (id_at g ts) (seqZ 0 4096) ++ [id_at g ts' 0],
         set_lastTimestamp (set_sequence g 0) ts', rest)).
Proof.
  intros Hwf. split; [| split; [| split]].
  - intros clock id1 g1 clock1 id2 g2 clock2 H1 H2.
    destruct (generate_key_increases _ _ _ _ _ Hwf H1) as (Hwf1 & Hid1 & _).
    destruct (generate_key_increases _ _ _ _ _ Hwf1 H2) as (_ & _ & Hlt).
    rewrite Hid1. exact Hlt.
  - intros n clock.
    destruct (generateMany n g clock) as [[ids g'] clock'] eqn:Hmany.
    exact (proj1 (generateMany_sorted n _ _ _ _ _ Hwf Hmany)).
  - intros clock id1 g1 rest H1 Hroom.
    destruct (generate_returns_inv _ _ _ _ _ Hwf H1)
      as (Hwf1 & Hw & Hd & He & Hid & _ & _).
    pose proof (wf_ranges g Hwf) as (Rw & Rd & Rs).
    pose proof (wf_ranges g1 Hwf1) as (_ & _ & Rs1).
    change MAX_SEQUENCE with 4095 in Hroom.
    split; [exact Hid |]. split.
    + rewrite Hid. rewrite !id_at_sum by (try assumption; lia). lia.
    + rewrite generate_same_ms
        by (try assumption; change MAX_SEQUENCE with 4095; lia).
      f_equal. f_equal. f_equal. rewrite Hid.
      rewrite !id_at_sum by (try assumption; lia).
      rewrite Hw, Hd, He. lia.
  - intros ts stall ts' rest. apply generateMany_4097. exact Hwf.
Qed.

(** C7. A clock reading strictly behind the last millisecond makes
    [generate] throw at once: it reads the clock once, returns no
    identifier and leaves the instance as it was; so every identifier a
    later call returns is still above the last one issued. *)
Theorem generate_fails_on_clock_regression (g : t) (ts : Z)
    (rest : list Z) :
  ts < lastTimestamp g ->
  generate g (ts :: rest)
  = (Throws "Clock moved backwards. Refusing to generate ID", g, rest)
  /\ (wf g ->
      forall later id g' clock',
        generate g later = (Returns id, g', clock') ->
        id_at g (lastTimestamp g) (sequence g) < id).
Proof.
  intros Hlt. split.
  - apply generate_regress. exact Hlt.
  - intros Hwf later id g' clock' Hgen.
    exact (proj2 (proj2 (generate_key_increases _ _ _ _ _ Hwf Hgen))).
Qed.

(** *** Instances on the default instance *)

Lemma default_instance_wf : wf default_instance.
Proof. unfold wf. cbn. change MAX_WORKER_ID with 31.
       change MAX_DATACENTER_ID with 31. change MAX_SEQUENCE with 4095.
       lia.
Defined.

Lemma deconstruct_inverts_generate_witness :
  379755639603335168 = compose
    (set_lastTimestamp default_instance 1700000000000) 1700000000000 /\
  deconstruct 379755639603335168
  = {| d_timestamp := Some 1700000000000; d_workerId := 1;
       d_datacenterId := 1; d_sequence := 0; d_epoch := CUSTOM_EPOCH |}.
Proof.
  apply (deconstruct_inverts_generate default_instance [1700000000000]
           379755639603335168
           (set_lastTimestamp default_instance 1700000000000) []).
  - exact default_instance_wf.
  - reflexivity.
  - constructor; [| constructor]. unfold valid_time. vm_compute.
    discriminate.
  - reflexivity.
Defined.

Lemma generate_strictly_increasing_witness :
  379755639603335168 < 379755639603335169 /\
  StronglySorted Z.lt
    (generateMany 3 default_instance
       [1700000000000; 1700000000000; 1700000000001]).1.1 /\
  generate (set_lastTimestamp default_instance 1700000000000)
           [1700000000000]
  = (Returns (379755639603335168 + 1),
     set_lastTimestamp
       (set_sequence (set_lastTimestamp default_instance 1700000000000) 1)
       1700000000000,
     []) /\
  generateMany 4097 default_instance
    (repeat 1700000000000 4097 ++ [] ++ [1700000000001])
  = (map (id_at default_instance 1700000000000) (seqZ 0 4096)
       ++ [id_at default_instance 1700000000001 0],
     set_lastTimestamp (set_sequence default_instance 0) 1700000000001,
     []).
Proof.
  pose proof (generate_strictly_increasing default_instance
                default_instance_wf) as (H1 & H2 & H3 & H4).
  split; [| split; [| split]].
  - apply (H1 [1700000000000; 1700000000000] _ _ _ _ _ _
             eq_refl eq_refl).
  - apply H2.
  - refine (proj2 (proj2 (H3 [1700000000000; 1700000000000] _ _ _
                             eq_refl _))).
    cbn. change MAX_SEQUENCE with 4095. lia.
  - apply H4; [cbn; lia | constructor | lia].
Defined.

Lemma generate_fails_on_clock_regression_witness :
  generate (set_lastTimestamp default_instance 1700000000000)
           [1699999999999; 1700000000000]
  = (Throws "Clock moved backwards. Refusing to generate ID",
     set_lastTimestamp default_instance 1700000000000,
     [1700000000000]).
Proof.
  refine (proj1 (generate_fails_on_clock_regression
                   (set_lastTimestamp default_instance 1700000000000)
                   1699999999999 [1700000000000] _)).
  cbn. lia.
Defined.

End SnowflakeFacts.

(** ** The message service *)

Module MessageFacts.
Import MessageService.

(** *** [checkChannelPermission] *)

Lemma checkChannelPermission_spec (d : Database)
    (userId serverId channelId permission : Z) :
  checkChannelPermission d userId serverId channelId permission
  = isOwner d serverId userId
    || match findMember d serverId userId with
       | Some m =>
           PermissionUtils.has (rolePermissions m) Permissions.ADMINISTRATOR
           || PermissionUtils.has (rolePermissions m) permission
       | None => false
       end.
Proof.
  unfold checkChannelPermission, isOwner, rolePermissions.
  destruct (findServer d serverId) as [s |]; cbn [orb].
  - destruct (server_ownerId s =? userId); cbn [orb]; [reflexivity |].
    destruct (findMember d serverId userId) as [m |]; [| reflexivity].
    destruct (PermissionUtils.has _ Permissions.ADMINISTRATOR); reflexivity.
  - destruct (findMember d serverId userId) as [m |]; [| reflexivity].
    destruct (PermissionUtils.has _ Permissions.ADMINISTRATOR); reflexivity.
Qed.

(** C10. [checkChannelPermission] does not depend on channel permission
    overwrites: on two stores that differ at most in the overwrites of
    their channels it returns the same value, for every channel id; the
    value is decided by server ownership and the bitwise OR of the
    member's role permissions, [ADMINISTRATOR] granting everything. *)
Theorem checkChannelPermission_ignores_overwrites (d1 d2 : Database)
    (userId serverId channelId channelId' permission : Z) :
  same_but_overwrites d1 d2 ->
  checkChannelPermission d1 userId serverId channelId permission
  = checkChannelPermission d2 userId serverId channelId' permission
  /\ checkChannelPermission d1 userId serverId channelId permission
     = isOwner d1 serverId userId
       || match findMember d1 serverId userId with
          | Some m =>
              PermissionUtils.has (rolePermissions m)
                                  Permissions.ADMINISTRATOR
              || PermissionUtils.has (rolePermissions m) permission
          | None => false
          end.
Proof.
  intros (Hs & Hm & _). split.
  - rewrite !checkChannelPermission_spec.
    unfold isOwner, findServer, findMember. rewrite Hs, Hm. reflexivity.
  - apply checkChannelPermission_spec.
Qed.

Lemma checkChannelPermission_ignores_overwrites_witness :
  checkChannelPermission (Sample.database [Sample.overwrite8]) 8 1 10
                         Permissions.SEND_MESSAGES
  = checkChannelPermission (Sample.database []) 8 1 10
                           Permissions.SEND_MESSAGES.
Proof.
  refine (proj1 (checkChannelPermission_ignores_overwrites
                   (Sample.database [Sample.overwrite8])
                   (Sample.database []) 8 1 10 10
                   Permissions.SEND_MESSAGES _)).
  unfold same_but_overwrites. cbn. repeat split; reflexivity.
Defined.

(** *** The stages of [createMessage] *)

Local Ltac unfold_M :=
  unfold mbind, M_bind, mret, M_ret, gets, throw, modify.

Lemma createMessage_unauthorized (now : Z) (data : CreateMessageData)
    (w : World) :
  authorized (db w) data = false ->
  exists msg, createMessage now data w = (Throws msg, w)
              /\ msg <> RATE_LIMIT_EXCEEDED.
Proof.
  unfold authorized, createMessage.
  destruct (no_content _ && no_attachments _); cbn [negb andb].
  { intros _. eexists. split; [reflexivity | discriminate]. }
  unfold_M.
  destruct (findChannel (db w) (data_channelId data)) as [channel |].
  2:{ intros _. eexists. split; [reflexivity | discriminate]. }
  destruct (channel_isDeleted channel); cbn [negb andb].
  { intros _. eexists. split; [reflexivity | discriminate]. }
  destruct (truthy_id (channel_serverId channel)) as [serverId |].
  - intros ->. cbn. eexists. split; [reflexivity | discriminate].
  - destruct (findRecipient _ _ _); [discriminate |].
    intros _. eexists. split; [reflexivity | discriminate].
Qed.

Lemma createMessage_authorized (now : Z) (data : CreateMessageData)
    (w : World) :
  authorized (db w) data = true ->
  createMessage now data w = (rateLimit now data ≫= fun _ => persist data) w.
Proof.
  unfold authorized, createMessage, rateLimit, persist.
  destruct (no_content _ && no_attachments _); cbn [negb andb];
    [discriminate |].
  unfold_M.
  destruct (findChannel (db w) (data_channelId data)) as [channel |];
    [| discriminate].
  destruct (channel_isDeleted channel); cbn [negb andb]; [discriminate |].
  destruct (truthy_id (channel_serverId channel)) as [serverId |].
  - intros ->. cbn [negb].
    destruct (redis_incr (redis w) now (rateKey data)) as [n r].
    destruct (n =? 1); destruct (n >? 30); reflexivity.
  - destruct (findRecipient _ _ _); [| discriminate]. intros _.
    destruct (redis_incr (redis w) now (rateKey data)) as [n r].
    destruct (n =? 1); destruct (n >? 30); reflexivity.
Qed.

Lemma rateLimit_run (now : Z) (data : CreateMessageData) (w : World) :
  rateLimit now data w
  = let '(n, r) := redis_incr (redis w) now (rateKey data) in
    let r' := if n =? 1 then redis_expire r now (rateKey data) 60 else r in
    (if n >? 30 then Throws RATE_LIMIT_EXCEEDED else Returns tt,
     set_redis w r').
Proof.
  unfold rateLimit. unfold_M.
  destruct (redis_incr (redis w) now (rateKey data)) as [n r].
  destruct (n =? 1); destruct (n >? 30); reflexivity.
Qed.

Lemma generate_throws_message (g : Snowflake.t) (c : list Z) (msg : string)
    (g' : Snowflake.t) (c' : list Z) :
  Snowflake.generate g c = (Throws msg, g', c') ->
  msg = "Clock moved backwards. Refusing to generate ID".
Proof.
  unfold Snowflake.generate, Snowflake.issue.
  destruct c as [|ts c1]; [discriminate |].
  destruct (ts <? _); [intros [= <- _ _]; reflexivity |].
  destruct (ts =? _); [| discriminate].
  destruct (_ =? 0); [| discriminate].
  destruct (Snowflake.waitNextMillis _ _) as [[? ?] |]; discriminate.
Qed.

Lemma find_map_keep {A : Type} (p : A -> bool) (f : A -> A) (l : list A) :
  (forall x, p (f x) = p x) ->
  find p (map f l) = option_map f (find p l).
Proof.
  intros Hp. induction l as [|x l IH]; cbn; [reflexivity |].
  rewrite Hp. destruct (p x); [reflexivity | exact IH].
Qed.

Lemma authorized_after_write (d : Database) (data : CreateMessageData)
    (ms : list Message) (cid mid : Z) :
  authorized (updateLastMessage (set_messages d ms) cid mid) data
  = authorized d data.
Proof.
  unfold authorized. f_equal.
  unfold findChannel, updateLastMessage. cbn [channels set_channels
    set_messages].
  rewrite find_map_keep.
  2:{ intros c. destruct (channel_id c =? cid); reflexivity. }
  destruct (find _ (channels d)) as [channel |]; cbn [option_map];
    [| reflexivity].
  destruct (channel_id channel =? cid); reflexivity.
Qed.

(** [persist] leaves the counters alone, keeps the author authorized,
    never answers with the rate-limit error, and writes nothing unless
    it returns. *)
Lemma persist_effect (data : CreateMessageData) (w : World)
    (o : outcome Message) (w' : World) :
  persist data w = (o, w') ->
  redis w' = redis w
  /\ (forall data', authorized (db w') data' = authorized (db w) data')
  /\ o <> Throws RATE_LIMIT_EXCEEDED
  /\ ((forall m, o <> Returns m) -> db w' = db w).
Proof.
  unfold persist, snowflake_generate, messages_create. unfold_M.
  destruct (Snowflake.generate (snowflake w) (clock w)) as [[og g] c] eqn:Hg.
  destruct og as [id | msg |]; intros [= <- <-]; cbn.
  - repeat split.
    + intros data'. apply authorized_after_write.
    + discriminate.
    + intros H. exfalso. eapply H. reflexivity.
  - apply generate_throws_message in Hg. subst msg.
    repeat split. discriminate.
  - repeat split. discriminate.
Qed.

(** A call that does not return has written nothing to the store. *)
Lemma createMessage_no_write (now : Z) (data : CreateMessageData)
    (w : World) (o : outcome Message) (w' : World) :
  createMessage now data w = (o, w') ->
  (forall m, o <> Returns m) ->
  db w' = db w.
Proof.
  intros Hrun Hnot.
  destruct (authorized (db w) data) eqn:Hauth.
  - rewrite createMessage_authorized in Hrun by assumption.
    unfold mbind, M_bind in Hrun. rewrite rateLimit_run in Hrun.
    destruct (redis_incr (redis w) now (rateKey data)) as [n r].
    cbv zeta in Hrun.
    destruct (n >? 30).
    + injection Hrun as <- <-. reflexivity.
    + destruct (persist_effect _ _ _ _ Hrun) as (_ & _ & _ & Hdb).
      rewrite (Hdb Hnot). reflexivity.
  - destruct (createMessage_unauthorized now data w Hauth)
      as (msg & Hthrow & _).
    rewrite Hthrow in Hrun. injection Hrun as <- <-. reflexivity.
Qed.

(** *** The counter of one (author, channel) pair *)

Lemma redis_incr_fresh (store : gmap string RedisEntry) (now : Z)
    (key : string) :
  redis_get store now key = None ->
  redis_incr store now key = (1, <[key := mkRedisEntry 1 None]> store).
Proof. intros H. unfold redis_incr. rewrite H. reflexivity. Qed.

Lemma redis_incr_live (store : gmap string RedisEntry) (now : Z)
    (key : string) (n e : Z) :
  store !! key = Some (mkRedisEntry n (Some e)) -> now < e ->
  redis_incr store now key
  = (n + 1, <[key := mkRedisEntry (n + 1) (Some e)]> store).
Proof.
  intros H Hlive. unfold redis_incr, redis_get, redis_live. rewrite H. cbn.
  destruct (Z.ltb_spec now e); [reflexivity | lia].
Qed.

Lemma redis_expire_first (store : gmap string RedisEntry) (now : Z)
    (key : string) :
  redis_expire (<[key := mkRedisEntry 1 None]> store) now key 60
  = <[key := mkRedisEntry 1 (Some (now + 60 * 1000))]> store.
Proof.
  unfold redis_expire, redis_get. rewrite lookup_insert_eq. cbn.
  apply insert_insert_eq.
Qed.

(** The call that opens a window: no live counter before it, count 1
    and an expiry 60 seconds later after it; it is not rate limited. *)
Lemma createMessage_opens_window (now : Z) (data : CreateMessageData)
    (w : World) (o : outcome Message) (w' : World) :
  authorized (db w) data = true ->
  redis_get (redis w) now (rateKey data) = None ->
  createMessage now data w = (o, w') ->
  o <> Throws RATE_LIMIT_EXCEEDED
  /\ authorized (db w') data = true
  /\ redis w' !! rateKey data
     = Some (mkRedisEntry 1 (Some (now + 60 * 1000))).
Proof.
  intros Hauth Hfresh Hrun.
  rewrite createMessage_authorized in Hrun by assumption.
  unfold mbind, M_bind in Hrun. rewrite rateLimit_run in Hrun.
  rewrite redis_incr_fresh in Hrun by assumption.
  cbv zeta in Hrun. change (1 =? 1) with true in Hrun.
  change (1 >? 30) with false in Hrun. cbv iota in Hrun.
  rewrite redis_expire_first in Hrun.
  destruct (persist_effect _ _ _ _ Hrun) as (Hredis & Hkeep & Hnot & _).
  split; [exact Hnot |]. split.
  - rewrite Hkeep. exact Hauth.
  - rewrite Hredis. cbn. apply lookup_insert_eq.
Qed.

(** A call inside the window: the count goes from [n] to [n + 1], the
    expiry stays, and the call is rate limited exactly when the new count
    exceeds 30. *)
Lemma createMessage_in_window (now : Z) (data : CreateMessageData)
    (w : World) (n e : Z) (o : outcome Message) (w' : World) :
  authorized (db w) data = true ->
  redis w !! rateKey data = Some (mkRedisEntry n (Some e)) ->
  1 <= n -> now < e ->
  createMessage now data w = (o, w') ->
  (o = Throws RATE_LIMIT_EXCEEDED <-> 30 < n + 1)
  /\ authorized (db w') data = true
  /\ redis w' !! rateKey data = Some (mkRedisEntry (n + 1) (Some e)).
Proof.
  intros Hauth Hcount Hn Hlive Hrun.
  rewrite createMessage_authorized in Hrun by assumption.
  unfold mbind, M_bind in Hrun. rewrite rateLimit_run in Hrun.
  rewrite (redis_incr_live _ _ _ n e) in Hrun by assumption.
  cbv zeta in Hrun.
  destruct (Z.eqb_spec (n + 1) 1) as [Hone | _]; [lia |].
  rewrite Z.gtb_ltb in Hrun.
  destruct (Z.ltb_spec 30 (n + 1)) as [Hover | Hunder].
  - injection Hrun as <- <-. cbn. split; [tauto |].
    split; [exact Hauth | apply lookup_insert_eq].
  - destruct (persist_effect _ _ _ _ Hrun) as (Hredis & Hkeep & Hnot & _).
    split; [split; [intros ->; contradiction | lia] |].
    split.
    + rewrite Hkeep. exact Hauth.
    + rewrite Hredis. cbn. apply lookup_insert_eq.
Qed.

(** *** One counter per (author, channel) pair *)

Lemma append_nil_l (t : string) : "" +:+ t = t.
Proof. reflexivity. Qed.

Lemma append_cons_l (c : ascii) (s t : string) :
  String c s +:+ t = String c (s +:+ t).
Proof. reflexivity. Qed.

Lemma pretty_N_go_colon_free (x : N) :
  forall s, colon_free s = true -> colon_free (pretty_N_go x s) = true.
Proof.
  induction (N.lt_wf_0 x) as [x _ IH]; intros s Hs.
  assert (Hx : (x = 0 \/ 0 < x)%N) by lia. destruct Hx as [-> | Hpos].
  - rewrite pretty_N_go_0. exact Hs.
  - rewrite pretty_N_go_step by exact Hpos. apply IH.
    + apply N.div_lt; [exact Hpos | reflexivity].
    + cbn [colon_free]. rewrite Hs. rewrite andb_true_r.
      unfold pretty_N_char. repeat case_match; reflexivity.
Qed.

Lemma pretty_Z_colon_free (z : Z) : colon_free (pretty z) = true.
Proof.
  assert (HN : forall n : N, colon_free (pretty n) = true).
  { intros n. unfold pretty, pretty_N. case_decide; [reflexivity |].
    apply pretty_N_go_colon_free. reflexivity. }
  destruct z as [| p | p]; unfold pretty, pretty_Z.
  - reflexivity.
  - apply HN.
  - rewrite append_cons_l, append_nil_l. cbn [colon_free]. apply HN.
Qed.

Lemma split_at_colon (s s' t t' : string) :
  colon_free s = true -> colon_free s' = true ->
  s +:+ String ":" t = s' +:+ String ":" t' ->
  s = s' /\ t = t'.
Proof.
  revert s'. induction s as [|c s IH]; intros [|c' s'];
    cbn [colon_free]; rewrite ?append_nil_l, ?append_cons_l.
  - intros _ _ [= ->]. split; reflexivity.
  - destruct (Ascii.eqb_spec c' ":"%char); [discriminate |].
    intros _ _ [= <- _]. contradiction.
  - destruct (Ascii.eqb_spec c ":"%char); [discriminate |].
    intros _ _ [= -> _]. contradiction.
  - intros Hs Hs' [= -> Heq].
    apply andb_true_iff in Hs. apply andb_true_iff in Hs'.
    destruct (IH s' (proj2 Hs) (proj2 Hs') Heq) as [-> ->].
    split; reflexivity.
Qed.

(** Different authors, or different channels, have different counters. *)
Lemma rateKey_inj (d1 d2 : CreateMessageData) :
  rateKey d1 = rateKey d2 ->
  data_authorId d1 = data_authorId d2
  /\ data_channelId d1 = data_channelId d2.
Proof.
  unfold rateKey. intros H.
  rewrite !append_cons_l, !append_nil_l in H. simplify_eq.
  apply split_at_colon in H; try apply pretty_Z_colon_free.
  destruct H as [Ha Hc].
  split; eapply (inj pretty); eassumption.
Qed.

(** A call for another (author, channel) pair leaves the counter of this
    pair as it is. *)
Lemma createMessage_other_pair (now : Z) (data other : CreateMessageData)
    (w : World) (o : outcome Message) (w' : World) :
  (data_authorId other ≠ data_authorId data
   \/ data_channelId other ≠ data_channelId data) ->
  createMessage now other w = (o, w') ->
  redis w' !! rateKey data = redis w !! rateKey data.
Proof.
  intros Hpair Hrun.
  assert (Hkey : rateKey other ≠ rateKey data).
  { intros Heq. apply rateKey_inj in Heq. tauto. }
  destruct (authorized (db w) other) eqn:Hauth.
  - rewrite createMessage_authorized in Hrun by assumption.
    unfold mbind, M_bind in Hrun. rewrite rateLimit_run in Hrun.
    assert (Hincr : (redis_incr (redis w) now (rateKey other)).2
                      !! rateKey data = redis w !! rateKey data).
    { unfold redis_incr.
      destruct (redis_get (redis w) now (rateKey other)); cbn;
        apply lookup_insert_ne; exact Hkey. }
    destruct (redis_incr (redis w) now (rateKey other)) as [n r].
    cbn [snd] in Hincr. cbv zeta in Hrun.
    assert (Hexp : (if n =? 1 then redis_expire r now (rateKey other) 60
                    else r) !! rateKey data = redis w !! rateKey data).
    { destruct (n =? 1); [| exact Hincr]. unfold redis_expire.
      destruct (redis_get r now (rateKey other)); [| exact Hincr].
      rewrite lookup_insert_ne by exact Hkey. exact Hincr. }
    destruct (n >? 30).
    + injection Hrun as <- <-. exact Hexp.
    + destruct (persist_effect _ _ _ _ Hrun) as (Hredis & _).
      rewrite Hredis. exact Hexp.
  - destruct (createMessage_unauthorized now other w Hauth)
      as (msg & Hthrow & _).
    rewrite Hthrow in Hrun. injection Hrun as <- <-. reflexivity.
Qed.

(** *** The window of one (author, channel) pair *)

Lemma same_pair_rateKey (data other : CreateMessageData) :
  same_pair data other = true -> rateKey other = rateKey data.
Proof.
  unfold same_pair, rateKey. rewrite andb_true_iff, !Z.eqb_eq.
  intros [-> ->]. reflexivity.
Qed.

Lemma same_pair_false (data other : CreateMessageData) :
  same_pair data other = false ->
  data_authorId other ≠ data_authorId data
  \/ data_channelId other ≠ data_channelId data.
Proof.
  unfold same_pair. rewrite andb_false_iff, !Z.eqb_neq. tauto.
Qed.

Lemma createMessage_keeps_authorized (now : Z) (data : CreateMessageData)
    (w : World) (o : outcome Message) (w' : World) :
  createMessage now data w = (o, w') ->
  forall data', authorized (db w') data' = authorized (db w) data'.
Proof.
  intros Hrun data'.
  destruct (authorized (db w) data) eqn:Hauth.
  - rewrite createMessage_authorized in Hrun by assumption.
    unfold mbind, M_bind in Hrun. rewrite rateLimit_run in Hrun.
    destruct (redis_incr (redis w) now (rateKey data)) as [n r].
    cbv zeta in Hrun.
    destruct (n >? 30).
    + injection Hrun as <- <-. reflexivity.
    + destruct (persist_effect _ _ _ _ Hrun) as (_ & Hkeep & _).
      apply Hkeep.
  - destruct (createMessage_unauthorized now data w Hauth)
      as (msg & Hthrow & _).
    rewrite Hthrow in Hrun. injection Hrun as <- <-. reflexivity.
Qed.

Lemma counted_cons (d : Database) (data : CreateMessageData)
    (c : Z * CreateMessageData) (calls : list (Z * CreateMessageData)) :
  counted d data (c :: calls)
  = ((if same_pair data c.2 && authorized d c.2 then 1 else 0)
     + counted d data calls)%nat.
Proof.
  unfold counted. cbn [List.filter].
  destruct (same_pair data c.2 && authorized d c.2); reflexivity.
Qed.

(** One call while the counter of the pair of [first] stands at [n]. *)
Lemma createMessage_step (d0 : Database) (first : CreateMessageData)
    (e now : Z) (data : CreateMessageData) (w : World) (n : Z)
    (o : outcome Message) (w' : World) :
  (forall data', authorized (db w) data' = authorized d0 data') ->
  redis w !! rateKey first = Some (mkRedisEntry n (Some e)) ->
  1 <= n -> now < e ->
  createMessage now data w = (o, w') ->
  (same_pair first data = true ->
   (o = Throws RATE_LIMIT_EXCEEDED
    <-> authorized d0 data = true /\ 30 <= n))
  /\ (forall data', authorized (db w') data' = authorized d0 data')
  /\ redis w' !! rateKey first
     = Some (mkRedisEntry
               (n + (if same_pair first data && authorized d0 data
                     then 1 else 0))
               (Some e)).
Proof.
  intros Hkeep Hcount Hn Hlive Hrun.
  assert (Hkeep' : forall data',
             authorized (db w') data' = authorized d0 data').
  { intros data'.
    rewrite (createMessage_keeps_authorized now data w o w' Hrun).
    apply Hkeep. }
  split; [| split; [exact Hkeep' |]].
  - intros Hpair. apply same_pair_rateKey in Hpair.
    destruct (authorized d0 data) eqn:Hauth.
    + rewrite <- Hkeep in Hauth. rewrite <- Hpair in Hcount.
      destruct (createMessage_in_window now data w n e o w' Hauth Hcount
                  Hn Hlive Hrun) as (Ho & _).
      rewrite Ho. split; [intros H; split; [reflexivity | lia] |].
      intros [_ H]. lia.
    + rewrite <- Hkeep in Hauth.
      destruct (createMessage_unauthorized now data w Hauth)
        as (msg & Hthrow & Hmsg).
      rewrite Hthrow in Hrun. injection Hrun as <- <-.
      split; [intros [= H]; contradiction | intros [H _]; discriminate].
  - destruct (same_pair first data) eqn:Hpair; cbn [andb].
    + pose proof (same_pair_rateKey _ _ Hpair) as Hkey.
      destruct (authorized d0 data) eqn:Hauth.
      * rewrite <- Hkeep in Hauth. rewrite <- Hkey in Hcount.
        destruct (createMessage_in_window now data w n e o w' Hauth Hcount
                    Hn Hlive Hrun) as (_ & _ & Hcount').
        rewrite <- Hkey. exact Hcount'.
      * rewrite <- Hkeep in Hauth.
        destruct (createMessage_unauthorized now data w Hauth)
          as (msg & Hthrow & _).
        rewrite Hthrow in Hrun. injection Hrun as <- <-.
        rewrite Z.add_0_r. exact Hcount.
    + rewrite Z.add_0_r.
      rewrite (createMessage_other_pair now first data w o w'
                 (same_pair_false _ _ Hpair) Hrun).
      exact Hcount.
Qed.

(** A run of calls while the counter of the pair of [first] is live. *)
Lemma createMessageCalls_in_window (d0 : Database)
    (first : CreateMessageData) (e : Z)
    (calls : list (Z * CreateMessageData)) :
  forall (w : World) (n : Z),
    (forall data', authorized (db w) data' = authorized d0 data') ->
    redis w !! rateKey first = Some (mkRedisEntry n (Some e)) ->
    1 <= n -> Forall (fun c => c.1 < e) calls ->
    (forall (k : nat) now data o,
        calls !! k = Some (now, data) ->
        (createMessageCalls calls w).1 !! k = Some o ->
        same_pair first data = true ->
        (o = Throws RATE_LIMIT_EXCEEDED
         <-> authorized d0 data = true
             /\ 30 <= n + Z.of_nat (counted d0 first (take k calls))))
    /\ (forall data',
           authorized (db (createMessageCalls calls w).2) data'
           = authorized d0 data')
    /\ redis (createMessageCalls calls w).2 !! rateKey first
       = Some (mkRedisEntry (n + Z.of_nat (counted d0 first calls))
                            (Some e)).
Proof.
  induction calls as [| [now data] calls IH]; intros w n Hkeep Hcount Hn Hall.
  - cbn. split; [intros k ? ? o; rewrite lookup_nil; discriminate |].
    split; [exact Hkeep |]. rewrite Z.add_0_r. exact Hcount.
  - apply Forall_cons in Hall. destruct Hall as [Hnow Hall].
    cbn [fst] in Hnow. cbn [createMessageCalls].
    destruct (createMessage now data w) as [o1 w1] eqn:Hrun.
    destruct (createMessage_step d0 first e now data w n o1 w1 Hkeep Hcount
                Hn Hnow Hrun) as (Ho1 & Hkeep1 & Hcount1).
    assert (Hn1 : 1 <= n + (if same_pair first data && authorized d0 data
                            then 1 else 0)).
    { destruct (same_pair first data && authorized d0 data); lia. }
    specialize (IH w1 _ Hkeep1 Hcount1 Hn1 Hall).
    destruct (createMessageCalls calls w1) as [os w2].
    cbn [fst snd] in *. destruct IH as (IHk & IHkeep & IHcount).
    split; [| split].
    + intros [| k] now' data' o; cbn [take].
      * cbn. intros [= <- <-] [= <-] Hpair.
        rewrite (Ho1 Hpair). unfold counted. cbn. rewrite Z.add_0_r.
        reflexivity.
      * cbn [lookup]. intros Hcall Hout Hpair.
        change (((now, data) :: calls) !! S k) with (calls !! k) in Hcall.
        change ((o1 :: os) !! S k) with (os !! k) in Hout.
        rewrite (IHk k now' data' o Hcall Hout Hpair).
        rewrite counted_cons. cbn [snd].
        destruct (same_pair first data && authorized d0 data);
          split; intros [Ha Hc]; (split; [exact Ha | lia]).
    + exact IHkeep.
    + rewrite IHcount, counted_cons. cbn [snd]. f_equal. f_equal.
      destruct (same_pair first data && authorized d0 data); lia.
Qed.

Lemma createMessageCalls_length (calls : list (Z * CreateMessageData))
    (w : World) :
  length (createMessageCalls calls w).1 = length calls.
Proof.
  revert w. induction calls as [| [now data] calls IH]; intros w;
    cbn [createMessageCalls]; [reflexivity |].
  destruct (createMessage now data w) as [o1 w1].
  specialize (IH w1). destruct (createMessageCalls calls w1) as [os w2].
  cbn [fst length] in *. rewrite IH. reflexivity.
Qed.

(** C8. The rate limit of [createMessage] is a fixed window of 60
    seconds that lets 30 calls of one (author, channel) pair through.
    Take a call at [t0] that gets as far as the rate limit and finds no
    live counter for its pair, and after it any calls made before
    [t0 + 60 s], whatever their authors, channels, contents and nonces.
    Then a call for the pair of the first one is answered with the
    rate-limit error exactly when it passes the checks that come before
    the rate limit and 30 calls for that pair have got as far as the rate
    limit before it: calls that differ in content or nonce count
    together, calls for another author or channel do not count.  A call
    answered with the rate-limit error leaves the store as it was, so it
    creates no message; and the first call for the pair at or after
    [t0 + 60 s] is let through again. *)
Theorem rate_limit_30_per_window (w : World) (t0 : Z)
    (first : CreateMessageData) (calls : list (Z * CreateMessageData)) :
  authorized (db w) first = true ->
  redis_get (redis w) t0 (rateKey first) = None ->
  Forall (fun c => c.1 < t0 + 60 * 1000) calls ->
  (forall (k : nat) now data o,
      ((t0, first) :: calls) !! k = Some (now, data) ->
      (createMessageCalls ((t0, first) :: calls) w).1 !! k = Some o ->
      same_pair first data = true ->
      (o = Throws RATE_LIMIT_EXCEEDED
       <-> authorized (db w) data = true
           /\ (30 <= counted (db w) first
                       (take k ((t0, first) :: calls)))%nat))
  /\ (forall now data w1 w2,
         createMessage now data w1 = (Throws RATE_LIMIT_EXCEEDED, w2) ->
         db w2 = db w1)
  /\ (forall t data,
         t0 + 60 * 1000 <= t ->
         same_pair first data = true ->
         (createMessage t data
            (createMessageCalls ((t0, first) :: calls) w).2).1
         <> Throws RATE_LIMIT_EXCEEDED).
Proof.
  intros Hauth Hfresh Hall.
  assert (Hself : same_pair first first = true).
  { unfold same_pair. rewrite !Z.eqb_refl. reflexivity. }
  cbn [createMessageCalls].
  destruct (createMessage t0 first w) as [o1 w1] eqn:Hrun.
  destruct (createMessage_opens_window _ _ _ _ _ Hauth Hfresh Hrun)
    as (Ho1 & _ & Hcount1).
  pose proof (createMessage_keeps_authorized t0 first w o1 w1 Hrun) as Hkeep1.
  destruct (createMessageCalls_in_window (db w) first (t0 + 60 * 1000) calls
              w1 1 Hkeep1 Hcount1 ltac:(lia) Hall)
    as (Hk & Hkeep2 & Hcount2).
  destruct (createMessageCalls calls w1) as [os w2].
  cbn [fst snd] in *.
  split; [| split].
  - intros [| k] now data o; cbn [take].
    + cbn. intros [= <- <-] [= <-] _.
      split; [intros ->; contradiction | intros [_ H]; lia].
    + intros Hcall Hout Hpair.
      change (((t0, first) :: calls) !! S k) with (calls !! k) in Hcall.
      change ((o1 :: os) !! S k) with (os !! k) in Hout.
      rewrite (Hk k now data o Hcall Hout Hpair).
      rewrite counted_cons. cbn [snd]. rewrite Hself, Hauth. cbn [andb].
      split; intros [Ha Hc]; (split; [exact Ha | lia]).
  - intros now data wa wb Hthrow.
    apply (createMessage_no_write now data wa _ wb Hthrow). discriminate.
  - intros t data Ht Hpair.
    destruct (createMessage t data w2) as [o w3] eqn:Hlate. cbn [fst].
    destruct (authorized (db w2) data) eqn:Hauth2.
    + refine (proj1 (createMessage_opens_window t data w2 o w3 Hauth2 _
                       Hlate)).
      rewrite (same_pair_rateKey _ _ Hpair).
      unfold redis_get, redis_live. rewrite Hcount2. cbn.
      destruct (Z.ltb_spec t (t0 + 60 * 1000)); [lia | reflexivity].
    + destruct (createMessage_unauthorized t data w2 Hauth2)
        as (msg & Hthrow & Hmsg).
      rewrite Hthrow in Hlate. injection Hlate as <- <-.
      intros [= H]. contradiction.
Qed.

Lemma rate_limit_30_per_window_witness :
  (createMessageCalls ((5000, Sample.send 8 "hello" "n0") :: Sample.burst)
                      Sample.world).1 !! 31%nat
  = Some (Throws RATE_LIMIT_EXCEEDED)
  /\ exists o,
       (createMessageCalls ((5000, Sample.send 8 "hello" "n0") :: Sample.burst)
                           Sample.world).1 !! 30%nat = Some o
       /\ o <> Throws RATE_LIMIT_EXCEEDED.
Proof.
  pose proof (rate_limit_30_per_window Sample.world 5000
                (Sample.send 8 "hello" "n0") Sample.burst) as Hwindow.
  destruct Hwindow as (Hk & _).
  - reflexivity.
  - reflexivity.
  - vm_compute. repeat (constructor; [reflexivity |]). constructor.
  - split.
    + destruct (lookup_lt_is_Some_2
                  (createMessageCalls
                     ((5000, Sample.send 8 "hello" "n0") :: Sample.burst)
                     Sample.world).1 31) as [o Ho].
      { rewrite createMessageCalls_length. vm_compute. lia. }
      rewrite Ho. f_equal.
      refine (proj2 (Hk 31%nat 5030 (Sample.send 8 "message 30" "n30") o
                        _ Ho _) _).
      * vm_compute. reflexivity.
      * reflexivity.
      * split; [reflexivity |]. vm_compute. lia.
    + destruct (lookup_lt_is_Some_2
                  (createMessageCalls
                     ((5000, Sample.send 8 "hello" "n0") :: Sample.burst)
                     Sample.world).1 30) as [o Ho].
      { rewrite createMessageCalls_length. vm_compute. lia. }
      exists o. split; [exact Ho |]. intros Hlimited.
      destruct (proj1 (Hk 30%nat 5029 (Sample.send 8 "message 29" "n29") o
                          ltac:(vm_compute; reflexivity) Ho eq_refl)
                      Hlimited) as [_ Hcount].
      vm_compute in Hcount. lia.
Defined.

(** *** The permission check of the service *)

(** In a server channel, [createMessage] returns a message only to an
    author for whom [checkChannelPermission] grants [SEND_MESSAGES]; for
    any other author it throws and leaves the whole state as it was. *)
Lemma createMessage_needs_SEND_MESSAGES (now : Z)
    (data : CreateMessageData) (w : World) (channel : Channel)
    (serverId : Z) :
  findChannel (db w) (data_channelId data) = Some channel ->
  truthy_id (channel_serverId channel) = Some serverId ->
  checkChannelPermission (db w) (data_authorId data) serverId
    (data_channelId data) Permissions.SEND_MESSAGES = false ->
  exists msg, createMessage now data w = (Throws msg, w).
Proof.
  intros Hch Hsrv Hperm.
  destruct (createMessage_unauthorized now data w) as (msg & Hthrow & _).
  - unfold authorized. rewrite Hch, Hsrv, Hperm.
    rewrite andb_false_r. apply andb_false_r.
  - exists msg. exact Hthrow.
Qed.

End MessageFacts.

(** ** The gateway *)

Module GatewayFacts.
Import Gateway.

Local Ltac unfold_M :=
  unfold mbind, M_bind, mret, M_ret, gets, throw, modify.



(** *** Disconnect and presence *)

Lemma size_zero_empty (X : gset string) :
  Nat.eqb (size X) 0 = true <-> X = ∅.
Proof.
  rewrite Nat.eqb_eq, size_empty_iff. split.
  - intros H. apply leibniz_equiv. exact H.
  - intros ->. reflexivity.
Qed.

(** Another socket of the user is in [userSockets]: nothing is sent and
    the presence of the user is not touched. *)
Lemma on_disconnect_other_remains (now : Z) (socket : Socket) (user : User)
    (w : World) (sockets : gset string) :
  socket_authenticated socket = true ->
  socket_user socket = Some user ->
  userSockets w !! pretty (user_id user) = Some sockets ->
  sockets ∖ {[socket_id socket]} ≠ ∅ ->
  emitted (on_disconnect now socket w) = emitted w
  /\ presence (registry (on_disconnect now socket w))
     = presence (registry w)
  /\ onlineSet (registry (on_disconnect now socket w))
     = onlineSet (registry w)
  /\ users_status (db (on_disconnect now socket w)) = users_status (db w)
  /\ userSockets (on_disconnect now socket w)
     = <[pretty (user_id user) := sockets ∖ {[socket_id socket]}]>
         (userSockets w).
Proof.
  intros Hauth Huser Hsockets Hrest.
  unfold on_disconnect. rewrite Hauth, Huser.
  cbn [userSockets set_registry set_connectedClients].
  rewrite Hsockets.
  destruct (Nat.eqb (size (sockets ∖ {[socket_id socket]})) 0) eqn:Hsize.
  - apply size_zero_empty in Hsize. contradiction.
  - cbn. repeat split.
Qed.

(** The last socket of the user in [userSockets] goes: Redis and the
    store say offline, the user has no entry in [userSockets] any more,
    and one offline [PRESENCE_UPDATE] is sent to everyone. *)
Lemma on_disconnect_last (now : Z) (socket : Socket) (user : User)
    (w : World) (sockets : gset string) :
  socket_authenticated socket = true ->
  socket_user socket = Some user ->
  userSockets w !! pretty (user_id user) = Some sockets ->
  sockets ∖ {[socket_id socket]} = ∅ ->
  emitted (on_disconnect now socket w)
  = emitted w ++ [(ToAll, PRESENCE_UPDATE (user_id user) offline now)]
  /\ presence (registry (on_disconnect now socket w)) !! user_id user
     = Some (mkPresenceRecord "offline" None now (now + PRESENCE_TTL * 1000))
  /\ onlineSet (registry (on_disconnect now socket w)) !! user_id user
     = None
  /\ users_status (db (on_disconnect now socket w)) !! user_id user
     = Some offline
  /\ userSockets (on_disconnect now socket w) !! pretty (user_id user)
     = None
  /\ socketsOf (registry (on_disconnect now socket w))
     = socketsOf (unregisterWebSocket (registry w) (user_id user)
                                      (socket_id socket)).
Proof.
  intros Hauth Huser Hsockets Hrest.
  unfold on_disconnect. rewrite Hauth, Huser.
  cbn [userSockets set_registry set_connectedClients].
  rewrite Hsockets.
  destruct (Nat.eqb (size (sockets ∖ {[socket_id socket]})) 0) eqn:Hsize.
  - cbn. repeat split.
    + apply lookup_insert_eq.
    + apply lookup_delete_eq.
    + apply lookup_insert_eq.
    + apply lookup_delete_eq.
  - apply size_zero_empty in Hrest. congruence.
Qed.

(** The user has no entry in [userSockets]: nothing is sent. *)
Lemma on_disconnect_unknown (now : Z) (socket : Socket) (user : User)
    (w : World) :
  socket_authenticated socket = true ->
  socket_user socket = Some user ->
  userSockets w !! pretty (user_id user) = None ->
  emitted (on_disconnect now socket w) = emitted w
  /\ presence (registry (on_disconnect now socket w))
     = presence (registry w).
Proof.
  intros Hauth Huser Hnone.
  unfold on_disconnect. rewrite Hauth, Huser.
  cbn [userSockets set_registry set_connectedClients].
  rewrite Hnone. cbn. split; reflexivity.
Qed.

Lemma pair_minus_first (a b : string) :
  a ≠ b -> ({[a; b]} : gset string) ∖ {[a]} = {[b]}.
Proof.
  intros Hne. apply set_eq. intros x.
  rewrite elem_of_difference, elem_of_union, !elem_of_singleton.
  split.
  - intros [[-> | ->] Hx]; [contradiction | reflexivity].
  - intros ->. split; [right; reflexivity | congruence].
Qed.

Lemma single_minus_itself (a : string) :
  ({[a]} : gset string) ∖ {[a]} = ∅.
Proof.
  apply set_eq. intros x.
  rewrite elem_of_difference, elem_of_singleton.
  split; [intros [-> H]; contradiction | intros H].
  exfalso. exact (not_elem_of_empty x H).
Qed.

(** Two sockets of one user on this process, closed one after the
    other: the first close changes nothing, the second says offline. *)
Lemma on_disconnect_two_sockets (t1 t2 : Z) (s1 s2 : Socket) (user : User)
    (w : World) :
  socket_authenticated s1 = true -> socket_user s1 = Some user ->
  socket_authenticated s2 = true -> socket_user s2 = Some user ->
  socket_id s1 ≠ socket_id s2 ->
  userSockets w !! pretty (user_id user)
  = Some {[socket_id s1; socket_id s2]} ->
  emitted (on_disconnect t1 s1 w) = emitted w
  /\ presence (registry (on_disconnect t1 s1 w)) = presence (registry w)
  /\ emitted (on_disconnect t2 s2 (on_disconnect t1 s1 w))
     = emitted w ++ [(ToAll, PRESENCE_UPDATE (user_id user) offline t2)]
  /\ presence (registry (on_disconnect t2 s2 (on_disconnect t1 s1 w)))
       !! user_id user
     = Some (mkPresenceRecord "offline" None t2 (t2 + PRESENCE_TTL * 1000)).
Proof.
  intros Ha1 Hu1 Ha2 Hu2 Hne Hsockets.
  assert (Hrest : ({[socket_id s1; socket_id s2]} : gset string)
                    ∖ {[socket_id s1]} ≠ ∅).
  { rewrite (pair_minus_first _ _ Hne).
    exact (non_empty_singleton_L (socket_id s2)). }
  destruct (on_disconnect_other_remains t1 s1 user w _ Ha1 Hu1 Hsockets
              Hrest) as (He1 & Hp1 & _ & _ & Hus1).
  assert (Hsockets1 :
            userSockets (on_disconnect t1 s1 w) !! pretty (user_id user)
            = Some (({[socket_id s1; socket_id s2]} : gset string)
                      ∖ {[socket_id s1]})).
  { rewrite Hus1. apply lookup_insert_eq. }
  assert (Hlast : (({[socket_id s1; socket_id s2]} : gset string)
                     ∖ {[socket_id s1]}) ∖ {[socket_id s2]} = ∅).
  { rewrite (pair_minus_first _ _ Hne). apply single_minus_itself. }
  destruct (on_disconnect_last t2 s2 user _ _ Ha2 Hu2 Hsockets1 Hlast)
    as (He2 & Hp2 & _).
  split; [exact He1 |]. split; [exact Hp1 |].
  split; [rewrite He2, He1; reflexivity | exact Hp2].
Qed.

(** *** From [IDENTIFY] to the last disconnect *)

Lemma on_IDENTIFY_verified_effect (now : Z) (socket : Socket) (user : User)
    (w : World) :
  socket_authenticated (on_IDENTIFY_verified now socket user w).1 = true
  /\ socket_user (on_IDENTIFY_verified now socket user w).1 = Some user
  /\ socket_id (on_IDENTIFY_verified now socket user w).1 = socket_id socket
  /\ userSockets (on_IDENTIFY_verified now socket user w).2
       !! pretty (user_id user)
     = Some (default ∅ (userSockets w !! pretty (user_id user))
               ∪ {[socket_id socket]})
  /\ users_status (db (on_IDENTIFY_verified now socket user w).2)
       !! user_id user = Some online
  /\ presence (registry (on_IDENTIFY_verified now socket user w).2)
       !! user_id user
     = Some (mkPresenceRecord "online" None now (now + PRESENCE_TTL * 1000))
  /\ getUserSockets (registry (on_IDENTIFY_verified now socket user w).2)
                    (user_id user)
     = getUserSockets (registry w) (user_id user) ∪ {[socket_id socket]}.
Proof.
  unfold on_IDENTIFY_verified. cbn [fst snd socket_authenticated socket_user
    socket_id].
  split; [reflexivity |]. split; [reflexivity |]. split; [reflexivity |].
  split; [| split; [| split]].
  - cbn. rewrite lookup_insert_eq. f_equal.
    case_decide as Hsome; cbn.
    + reflexivity.
    + rewrite lookup_insert_eq. cbn.
      destruct (userSockets w !! pretty (user_id user)) eqn:Hlook;
        [exfalso; apply Hsome; eauto | reflexivity].
  - cbn. apply lookup_insert_eq.
  - cbn. apply lookup_insert_eq.
  - unfold getUserSockets at 1. cbn.
    case_decide; cbn; rewrite lookup_insert_eq; reflexivity.
Qed.

(** On one process the handlers do what the map of that process says: a
    user without sockets identifies on two sockets and then closes both:
    online after the second [IDENTIFY], untouched by the first close,
    offline with exactly one offline broadcast at the second close. *)
Lemma two_connections_end_to_end (t1 t2 t3 t4 : Z) (s1 s2 : Socket)
    (user : User) (w : World) :
  socket_id s1 ≠ socket_id s2 ->
  userSockets w !! pretty (user_id user) = None ->
  let c1 := (on_IDENTIFY_verified t1 s1 user w).1 in
  let w1 := (on_IDENTIFY_verified t1 s1 user w).2 in
  let c2 := (on_IDENTIFY_verified t2 s2 user w1).1 in
  let w2 := (on_IDENTIFY_verified t2 s2 user w1).2 in
  let w3 := on_disconnect t3 c1 w2 in
  let w4 := on_disconnect t4 c2 w3 in
  presence (registry w2) !! user_id user
  = Some (mkPresenceRecord "online" None t2 (t2 + PRESENCE_TTL * 1000))
  /\ emitted w3 = emitted w2
  /\ presence (registry w3) !! user_id user
     = Some (mkPresenceRecord "online" None t2 (t2 + PRESENCE_TTL * 1000))
  /\ emitted w4
     = emitted w2 ++ [(ToAll, PRESENCE_UPDATE (user_id user) offline t4)]
  /\ presence (registry w4) !! user_id user
     = Some (mkPresenceRecord "offline" None t4 (t4 + PRESENCE_TTL * 1000)).
Proof.
  intros Hne Hnone. cbv zeta.
  pose proof (on_IDENTIFY_verified_effect t1 s1 user w)
    as (Ha1 & Hu1 & Hid1 & Hus1 & _).
  destruct (on_IDENTIFY_verified t1 s1 user w) as [c1 w1].
  cbn [fst snd] in *.
  pose proof (on_IDENTIFY_verified_effect t2 s2 user w1)
    as (Ha2 & Hu2 & Hid2 & Hus2 & _ & Hp2 & _).
  destruct (on_IDENTIFY_verified t2 s2 user w1) as [c2 w2].
  cbn [fst snd] in *.
  rewrite Hnone in Hus1. cbn [default] in Hus1.
  rewrite Hus1 in Hus2. cbn [default] in Hus2.
  assert (Hsockets : userSockets w2 !! pretty (user_id user)
                     = Some {[socket_id c1; socket_id c2]}).
  { rewrite Hus2, Hid1, Hid2. rewrite union_empty_l_L. reflexivity. }
  assert (Hne' : socket_id c1 ≠ socket_id c2) by (rewrite Hid1, Hid2; exact Hne).
  destruct (on_disconnect_two_sockets t3 t4 c1 c2 user w2
              Ha1 Hu1 Ha2 Hu2 Hne' Hsockets) as (He3 & Hp3 & He4 & Hp4).
  split; [exact Hp2 |]. split; [exact He3 |].
  split; [rewrite Hp3; exact Hp2 |]. split; [exact He4 | exact Hp4].
Qed.

(** *** The sockets that Redis lists *)

Lemma getUserSockets_unregisterWebSocket (r : PresenceRegistry) (userId : Z)
    (socketId : string) :
  getUserSockets (unregisterWebSocket r userId socketId) userId
  = getUserSockets r userId ∖ {[socketId]}.
Proof.
  unfold getUserSockets at 1, unregisterWebSocket. cbn [socketsOf].
  case_decide as Hempty.
  - rewrite lookup_delete_eq, Hempty. reflexivity.
  - rewrite lookup_insert_eq. reflexivity.
Qed.

(** C9. The disconnect handler counts the sockets that its own process
    holds, not the sockets that are registered for the user.  When the
    socket that closes is the only one of the user in the [userSockets]
    map of the process, the handler sets the user offline in Redis and in
    the store and sends one offline [PRESENCE_UPDATE] to everyone, also
    when another socket of the user, held by another gateway process, is
    registered in Redis: that socket is still registered when the handler
    has ended ([getUserSockets] lists it and [hasActiveConnections] is
    true). *)
Theorem disconnect_ignores_sockets_registered_elsewhere (now : Z)
    (socket : Socket) (user : User) (w : World) (other : string) :
  socket_authenticated socket = true ->
  socket_user socket = Some user ->
  userSockets w !! pretty (user_id user) = Some {[socket_id socket]} ->
  other ∈ getUserSockets (registry w) (user_id user) ->
  other ≠ socket_id socket ->
  (other ∈ getUserSockets (registry (on_disconnect now socket w))
                          (user_id user))
  /\ hasActiveConnections (registry (on_disconnect now socket w))
                          (user_id user) = true
  /\ emitted (on_disconnect now socket w)
     = emitted w ++ [(ToAll, PRESENCE_UPDATE (user_id user) offline now)]
  /\ presence (registry (on_disconnect now socket w)) !! user_id user
     = Some (mkPresenceRecord "offline" None now (now + PRESENCE_TTL * 1000))
  /\ onlineSet (registry (on_disconnect now socket w)) !! user_id user
     = None
  /\ users_status (db (on_disconnect now socket w)) !! user_id user
     = Some offline.
Proof.
  intros Hauth Huser Hlocal Hother Hne.
  destruct (on_disconnect_last now socket user w _ Hauth Huser Hlocal
              (single_minus_itself (socket_id socket)))
    as (Hemit & Hpresence & Honline & Hstatus & _ & Hsockets).
  assert (Hstill : other ∈ getUserSockets
                             (registry (on_disconnect now socket w))
                             (user_id user)).
  { unfold getUserSockets at 1. rewrite Hsockets.
    change (other ∈ getUserSockets
                      (unregisterWebSocket (registry w) (user_id user)
                                           (socket_id socket))
                      (user_id user)).
    rewrite getUserSockets_unregisterWebSocket.
    apply elem_of_difference. split; [exact Hother |].
    rewrite elem_of_singleton. exact Hne. }
  split; [exact Hstill |]. split.
  - unfold hasActiveConnections. apply Nat.ltb_lt.
    destruct (size (getUserSockets (registry (on_disconnect now socket w))
                                   (user_id user))) eqn:Hsize; [| lia].
    apply size_empty_iff in Hsize. apply leibniz_equiv in Hsize.
    rewrite Hsize in Hstill. exfalso. exact (not_elem_of_empty other Hstill).
  - auto.
Qed.

Lemma disconnect_ignores_sockets_registered_elsewhere_witness :
  hasActiveConnections
    (registry (on_disconnect 2000 (Sample.socket7 "s1") Sample.two_processes))
    7 = true
  /\ emitted (on_disconnect 2000 (Sample.socket7 "s1") Sample.two_processes)
     = emitted Sample.two_processes
       ++ [(ToAll, PRESENCE_UPDATE 7 offline 2000)]
  /\ users_status
       (db (on_disconnect 2000 (Sample.socket7 "s1") Sample.two_processes))
       !! 7 = Some offline.
Proof.
  destruct (disconnect_ignores_sockets_registered_elsewhere 2000
              (Sample.socket7 "s1") (mkUser 7 "seven") Sample.two_processes
              "s2")
    as (_ & Hactive & Hemit & _ & _ & Hstatus).
  - reflexivity.
  - reflexivity.
  - vm_compute. reflexivity.
  - refine (bool_decide_unpack _ _). vm_compute. exact I.
  - discriminate.
  - split; [exact Hactive |]. split; [exact Hemit | exact Hstatus].
Defined.

End GatewayFacts.

(** ** More on permission sets *)

Module PermissionExtras.
Import PermissionUtils.

(** Reads an equation between bit sets at bit [i]. *)
Local Ltac at_bit H i :=
  apply (f_equal (fun z => Z.testbit z i)) in H;
  repeat first [ rewrite Z.land_spec in H | rewrite Z.lor_spec in H
               | rewrite Z.lxor_spec in H
               | rewrite Z.lnot_spec in H by assumption
               | rewrite Z.bits_0 in H ].

Local Ltac bitwise i Hi :=
  apply Z.bits_inj'; intros i Hi;
  repeat first [ rewrite Z.land_spec | rewrite Z.lor_spec
               | rewrite Z.lxor_spec | rewrite Z.lnot_spec by assumption
               | rewrite Z.bits_0 ].

Lemma has_true (p q : Z) : has p q = true <-> Z.land p q = q.
Proof. unfold has. apply Z.eqb_eq. Qed.

Lemma has_lor (p a b : Z) : has p (Z.lor a b) = has p a && has p b.
Proof.
  apply eq_true_iff_eq. rewrite andb_true_iff, !has_true. split.
  - intros H. split; bitwise i Hi; at_bit H i;
      destruct (Z.testbit p i), (Z.testbit a i), (Z.testbit b i);
      cbn in *; congruence.
  - intros [Ha Hb]. bitwise i Hi. at_bit Ha i. at_bit Hb i.
    destruct (Z.testbit p i), (Z.testbit a i), (Z.testbit b i);
      cbn in *; congruence.
Qed.

(** X1. [add] grants and [remove] revokes: after [add p q] the set holds
    [q] and everything [p] held; after [remove p q] no bit of [q] is
    left, so the set holds [q] only if [q] is empty, and permissions that
    share no bit with [q] are held exactly as before; removing what was
    just added is removing from the original set, and adding back what was
    removed is adding to the original set. *)
Theorem add_grants_remove_revokes (p q r : Z) :
  has (add p q) q = true
  /\ (has p r = true -> has (add p q) r = true)
  /\ Z.land (remove p q) q = 0
  /\ (has (remove p q) q = true <-> q = 0)
  /\ (Z.land q r = 0 -> has (remove p q) r = has p r)
  /\ remove (add p q) q = remove p q
  /\ add (remove p q) q = add p q.
Proof.
  assert (Hclear : Z.land (remove p q) q = 0).
  { unfold remove. bitwise i Hi.
    destruct (Z.testbit p i), (Z.testbit q i); reflexivity. }
  split; [apply PermissionFacts.has_lor_r |].
  split.
  { rewrite !has_true. unfold add. intros H. bitwise i Hi. at_bit H i.
    destruct (Z.testbit p i), (Z.testbit q i), (Z.testbit r i);
      cbn in *; congruence. }
  split; [exact Hclear |].
  split.
  { rewrite has_true, Hclear. split; intros H; symmetry; exact H. }
  split.
  { intros Hdisj. unfold has, remove. f_equal. bitwise i Hi. at_bit Hdisj i.
    destruct (Z.testbit p i), (Z.testbit q i), (Z.testbit r i);
      cbn in *; congruence. }
  split.
  - unfold remove, add. bitwise i Hi.
    destruct (Z.testbit p i), (Z.testbit q i); reflexivity.
  - unfold remove, add. bitwise i Hi.
    destruct (Z.testbit p i), (Z.testbit q i); reflexivity.
Qed.

Lemma add_grants_remove_revokes_witness :
  has (add Permissions.VIEW_CHANNEL Permissions.SEND_MESSAGES)
      Permissions.VIEW_CHANNEL = true
  /\ has (remove (Z.lor Permissions.VIEW_CHANNEL Permissions.SEND_MESSAGES)
                 Permissions.SEND_MESSAGES)
         Permissions.VIEW_CHANNEL
     = has (Z.lor Permissions.VIEW_CHANNEL Permissions.SEND_MESSAGES)
           Permissions.VIEW_CHANNEL.
Proof.
  split.
  - refine (proj1 (proj2 (add_grants_remove_revokes
                            Permissions.VIEW_CHANNEL
                            Permissions.SEND_MESSAGES
                            Permissions.VIEW_CHANNEL)) _).
    reflexivity.
  - refine (proj1 (proj2 (proj2 (proj2 (proj2
              (add_grants_remove_revokes
                 (Z.lor Permissions.VIEW_CHANNEL Permissions.SEND_MESSAGES)
                 Permissions.SEND_MESSAGES
                 Permissions.VIEW_CHANNEL))))) _).
    reflexivity.
Defined.

(** X2. [toggle] undoes itself; on a set that holds [q] it is [remove],
    and on a set that shares no bit with [q] it is [add]. *)
Theorem toggle_flips (p q : Z) :
  toggle (toggle p q) q = p
  /\ (has p q = true -> toggle p q = remove p q)
  /\ (Z.land p q = 0 -> toggle p q = add p q).
Proof.
  unfold toggle, remove, add. split; [| split].
  - rewrite Z.lxor_assoc, Z.lxor_nilpotent. apply Z.lxor_0_r.
  - rewrite has_true. intros H. bitwise i Hi. at_bit H i.
    destruct (Z.testbit p i), (Z.testbit q i); cbn in *; congruence.
  - intros H. apply Z.lxor_lor. exact H.
Qed.

Lemma toggle_flips_witness :
  toggle (Z.lor Permissions.VIEW_CHANNEL Permissions.SEND_MESSAGES)
         Permissions.SEND_MESSAGES
  = remove (Z.lor Permissions.VIEW_CHANNEL Permissions.SEND_MESSAGES)
           Permissions.SEND_MESSAGES
  /\ toggle Permissions.VIEW_CHANNEL Permissions.SEND_MESSAGES
     = add Permissions.VIEW_CHANNEL Permissions.SEND_MESSAGES.
Proof.
  split.
  - refine (proj1 (proj2 (toggle_flips _ _)) _). reflexivity.
  - refine (proj2 (proj2 (toggle_flips _ _)) _). reflexivity.
Defined.

Lemma hasAll_fold (p : Z) (perms : list Z) :
  forall acc, hasAll p perms && has p acc = has p (fold_left Z.lor perms acc).
Proof.
  unfold hasAll. induction perms as [|q perms IH]; intros acc; cbn.
  - reflexivity.
  - rewrite <- IH. rewrite has_lor.
    destruct (has p q), (forallb (has p) perms), (has p acc); reflexivity.
Qed.

(** X3. [hasAll] asks whether the set holds the union of the listed
    permissions, and [hasAny] whether it holds one of them whole: for no
    listed permission [hasAll] is true and [hasAny] false; every set holds
    [Permissions.NONE], so a list containing it satisfies [hasAny] on every
    set. *)
Theorem hasAll_is_has_of_union (p : Z) (perms : list Z) :
  hasAll p perms = has p (fold_left Z.lor perms 0)
  /\ hasAll p [] = true
  /\ hasAny p [] = false
  /\ hasAny p (Permissions.NONE :: perms) = true
  /\ (forall q, hasAny p [q] = has p q /\ hasAll p [q] = has p q).
Proof.
  assert (Hnone : has p 0 = true).
  { unfold has. rewrite Z.land_0_r. reflexivity. }
  split.
  - rewrite <- hasAll_fold. rewrite Hnone. symmetry. apply andb_true_r.
  - split; [reflexivity |]. split; [reflexivity |]. split.
    + cbn. change Permissions.NONE with 0. rewrite Hnone. reflexivity.
    + intros q. cbn. rewrite orb_false_r, andb_true_r.
      split; reflexivity.
Qed.

End PermissionExtras.

(** ** The names of a permission set *)

Module PermissionTableFacts.
Import PermissionTable.

Lemma count_occ_names (name : string) (l : list (string * Z)) :
  count_occ string_dec (map (fun entry => nameOf (snd entry)) l) name
  = length (List.filter (named name) l).
Proof.
  induction l as [|e l IH]; [reflexivity |].
  cbn [map List.filter]. unfold named at 1.
  destruct (string_dec (nameOf (snd e)) name) as [Heq | Hne].
  - rewrite count_occ_cons_eq by exact Heq.
    rewrite (proj2 (String.eqb_eq _ _) Heq). cbn [length]. rewrite IH.
    reflexivity.
  - rewrite count_occ_cons_neq by exact Hne.
    rewrite (proj2 (String.eqb_neq _ _) Hne). exact IH.
Qed.

Lemma filter_filter_comm {A : Type} (f g : A -> bool) (l : list A) :
  List.filter f (List.filter g l) = List.filter g (List.filter f l).
Proof.
  induction l as [|x l IH]; cbn; [reflexivity |].
  destruct (f x) eqn:Hf, (g x) eqn:Hg; cbn; rewrite ?Hf, ?Hg, IH;
    reflexivity.
Qed.

Lemma filter_andb {A : Type} (f g : A -> bool) (l : list A) :
  List.filter (fun x => f x && g x) l = List.filter g (List.filter f l).
Proof.
  induction l as [|x l IH]; cbn; [reflexivity |].
  destruct (f x) eqn:Hf; cbn; [| exact IH].
  destruct (g x); rewrite IH; reflexivity.
Qed.

(** How often [getPermissionNames] lists a name: once per entry of the
    table that carries the name and is listed. *)
Lemma count_listed (p : Z) (name : string) :
  count_occ string_dec (getPermissionNames p) name
  = length (List.filter (listed p) (List.filter (named name) entries)).
Proof.
  unfold getPermissionNames. rewrite count_occ_names.
  rewrite filter_filter_comm. reflexivity.
Qed.

(** X4. [getPermissionNames] never answers ['Unknown'], lists at most
    the 45 entries of the table and nothing for [Permissions.NONE].  Two
    pairs of entries share a bit, so their name comes twice: a set that
    holds bit 39 lists "Use Activities" twice, and a set that holds bit 33
    lists "Manage Events" twice. *)
Theorem getPermissionNames_names (p : Z) :
  ~ In "Unknown" (getPermissionNames p)
  /\ (length (getPermissionNames p) <= 45)%nat
  /\ getPermissionNames Permissions.NONE = []
  /\ (PermissionUtils.has p (Z.shiftl 1 39) = true ->
      count_occ string_dec (getPermissionNames p) "Use Activities" = 2%nat)
  /\ (PermissionUtils.has p (Z.shiftl 1 33) = true ->
      count_occ string_dec (getPermissionNames p) "Manage Events" = 2%nat).
Proof.
  split; [| split; [| split; [| split]]].
  - intros Hin. apply (count_occ_In string_dec) in Hin.
    rewrite count_listed in Hin.
    replace (List.filter (named "Unknown") entries)
      with [("ALL", Permissions.ALL); ("NONE", Permissions.NONE)] in Hin
      by (vm_compute; reflexivity).
    assert (Hnone : List.filter (listed p)
                      [("ALL", Permissions.ALL); ("NONE", Permissions.NONE)]
                    = []) by reflexivity.
    rewrite Hnone in Hin. simpl in Hin. lia.
  - unfold getPermissionNames. rewrite length_map.
    unfold listed. rewrite filter_andb.
    etransitivity; [apply filter_length_le |].
    vm_compute. lia.
  - vm_compute. reflexivity.
  - intros Hheld. rewrite count_listed.
    replace (List.filter (named "Use Activities") entries)
      with [("USE_EMBEDDED_ACTIVITIES", Z.shiftl 1 39);
            ("START_EMBEDDED_ACTIVITIES", Z.shiftl 1 39)]
      by (vm_compute; reflexivity).
    cbn [List.filter].
    change (listed p ("USE_EMBEDDED_ACTIVITIES", Z.shiftl 1 39))
      with (PermissionUtils.has p (Z.shiftl 1 39)).
    change (listed p ("START_EMBEDDED_ACTIVITIES", Z.shiftl 1 39))
      with (PermissionUtils.has p (Z.shiftl 1 39)).
    rewrite Hheld. reflexivity.
  - intros Hheld. rewrite count_listed.
    replace (List.filter (named "Manage Events") entries)
      with [("MODIFY_GUILD_PROFILE", Z.shiftl 1 33);
            ("MANAGE_EVENTS", Z.shiftl 1 33)]
      by (vm_compute; reflexivity).
    cbn [List.filter].
    change (listed p ("MODIFY_GUILD_PROFILE", Z.shiftl 1 33))
      with (PermissionUtils.has p (Z.shiftl 1 33)).
    change (listed p ("MANAGE_EVENTS", Z.shiftl 1 33))
      with (PermissionUtils.has p (Z.shiftl 1 33)).
    rewrite Hheld. reflexivity.
Qed.

Lemma getPermissionNames_names_witness :
  count_occ string_dec
    (getPermissionNames (Z.lor (Z.shiftl 1 39) Permissions.SEND_MESSAGES))
    "Use Activities" = 2%nat.
Proof.
  refine (proj1 (proj2 (proj2 (proj2
            (getPermissionNames_names
               (Z.lor (Z.shiftl 1 39) Permissions.SEND_MESSAGES))))) _).
  reflexivity.
Defined.

End PermissionTableFacts.

(** ** More on identifiers *)

Module SnowflakeExtras.
Import Snowflake SnowflakeStatic.

Lemma waitNextMillis_None (last : Z) (clock : list Z) :
  waitNextMillis last clock = None <-> Forall (fun r => r <= last) clock.
Proof.
  induction clock as [|r clock IH]; cbn.
  - split; [constructor | reflexivity].
  - destruct (Z.leb_spec r last) as [Hle | Hgt].
    + rewrite IH. split.
      * intros H. constructor; assumption.
      * intros H. apply Forall_cons in H. tauto.
    + split; [discriminate |]. intros H. apply Forall_cons in H. lia.
Qed.

(** X5. How a call of [generate] ends is decided by the clock alone: it
    throws exactly when the first reading is behind the last
    millisecond; it keeps waiting exactly when the reading is the last
    millisecond, the sequence number is used up and no later reading shows
    a later millisecond; in every other case it returns an identifier. *)
Theorem generate_outcome (g : t) (ts : Z) (rest : list Z) :
  wf g ->
  ((exists msg, (generate g (ts :: rest)).1.1 = Throws msg)
   <-> ts < lastTimestamp g)
  /\ ((generate g (ts :: rest)).1.1 = Pending
      <-> ts = lastTimestamp g /\ sequence g = MAX_SEQUENCE
          /\ Forall (fun r => r <= lastTimestamp g) rest)
  /\ ((exists id, (generate g (ts :: rest)).1.1 = Returns id)
      <-> lastTimestamp g < ts
          \/ (ts = lastTimestamp g
              /\ (sequence g < MAX_SEQUENCE
                  \/ ~ Forall (fun r => r <= lastTimestamp g) rest))).
Proof.
  intros Hwf. pose proof (SnowflakeFacts.wf_ranges g Hwf) as (_ & _ & Hs).
  change MAX_SEQUENCE with 4095.
  destruct (Z.lt_trichotomy ts (lastTimestamp g)) as [Hlt | [Heq | Hgt]].
  - rewrite SnowflakeFacts.generate_regress by assumption. cbn.
    split; [| split].
    + split; [intros _; exact Hlt | intros _; eexists; reflexivity].
    + split; [discriminate | lia].
    + split; [intros [id Hid]; discriminate | lia].
  - subst ts.
    destruct (Z.eq_dec (sequence g) 4095) as [Hmax | Hroom].
    + unfold generate. rewrite Z.ltb_irrefl, Z.eqb_refl.
      cbn [sequence set_sequence lastTimestamp].
      rewrite SnowflakeFacts.next_sequence by assumption.
      rewrite Hmax. cbn [Z.eqb].
      destruct (waitNextMillis (lastTimestamp g) rest)
        as [[ts' clock2] |] eqn:Hwait.
      * assert (Hnot : ~ Forall (fun r => r <= lastTimestamp g) rest).
        { intros Hall. apply waitNextMillis_None in Hall. congruence. }
        cbn. split; [| split].
        -- split; [intros [msg Hm]; discriminate | lia].
        -- split; [discriminate | tauto].
        -- split; [intros _; right; tauto | intros _; eexists; reflexivity].
      * pose proof (proj1 (waitNextMillis_None _ _) Hwait) as Hall.
        cbn. split; [| split].
        -- split; [intros [msg Hm]; discriminate | lia].
        -- split; [intros _; tauto | reflexivity].
        -- split; [intros [id Hid]; discriminate |].
           intros [Hlt | [_ [Hlt | Hnot]]]; [lia | lia | contradiction].
    + rewrite SnowflakeFacts.generate_same_ms
        by (try assumption; change MAX_SEQUENCE with 4095; lia).
      cbn. split; [| split].
      * split; [intros [msg Hm]; discriminate | lia].
      * split; [discriminate | tauto].
      * split; [intros _; right; split; [reflexivity | left; lia]
               | intros _; eexists; reflexivity].
  - rewrite SnowflakeFacts.generate_new_ms by assumption. cbn.
    split; [| split].
    + split; [intros [msg Hm]; discriminate | lia].
    + split; [discriminate | lia].
    + split; [intros _; left; exact Hgt | intros _; eexists; reflexivity].
Qed.

Lemma generate_outcome_witness :
  (generate default_instance [1700000000000]).1.1
  = Returns 379755639603335168.
Proof.
  pose proof (generate_outcome default_instance 1700000000000 []
                SnowflakeFacts.default_instance_wf) as (_ & _ & H).
  destruct (proj2 H) as [id Hid].
  - left. cbn. lia.
  - reflexivity.
Defined.

(** X6. Two instances that differ in their worker id or in their
    datacenter id never return the same identifier, whatever their clocks,
    epochs and sequence numbers. *)
Theorem ids_differ_across_instances (g1 g2 : t) (clock1 clock2 : list Z)
    (id1 id2 : Z) (g1' g2' : t) (rest1 rest2 : list Z) :
  wf g1 -> wf g2 ->
  workerId g1 <> workerId g2 \/ datacenterId g1 <> datacenterId g2 ->
  generate g1 clock1 = (Returns id1, g1', rest1) ->
  generate g2 clock2 = (Returns id2, g2', rest2) ->
  id1 <> id2.
Proof.
  intros Hwf1 Hwf2 Hdiff Hgen1 Hgen2 Heq.
  destruct (SnowflakeFacts.generate_returns_inv _ _ _ _ _ Hwf1 Hgen1)
    as (Hwf1' & _ & _ & _ & Hid1 & _).
  destruct (SnowflakeFacts.generate_returns_inv _ _ _ _ _ Hwf2 Hgen2)
    as (Hwf2' & _ & _ & _ & Hid2 & _).
  pose proof (SnowflakeFacts.wf_ranges _ Hwf1) as (Rw1 & Rd1 & _).
  pose proof (SnowflakeFacts.wf_ranges _ Hwf2) as (Rw2 & Rd2 & _).
  pose proof (SnowflakeFacts.wf_ranges _ Hwf1') as (_ & _ & Rs1).
  pose proof (SnowflakeFacts.wf_ranges _ Hwf2') as (_ & _ & Rs2).
  assert (Hdec : deconstruct id1 = deconstruct id2) by (rewrite Heq; reflexivity).
  rewrite Hid1, Hid2 in Hdec.
  rewrite !SnowflakeFacts.id_at_sum in Hdec by assumption.
  rewrite !SnowflakeFacts.deconstruct_sum in Hdec by assumption.
  injection Hdec as _ Hw Hd _. tauto.
Qed.

Lemma ids_differ_across_instances_witness :
  379755639603335168 <> 379755639603339264.
Proof.
  refine (ids_differ_across_instances default_instance
            (set_sequence
               {| workerId := 2; datacenterId := 1; epoch := CUSTOM_EPOCH;
                  sequence := 0; lastTimestamp := -1; lock := false |} 0)
            [1700000000000] [1700000000000] _ _ _ _ [] []
            SnowflakeFacts.default_instance_wf _ _ eq_refl eq_refl).
  - unfold wf. cbn. change MAX_WORKER_ID with 31.
    change MAX_DATACENTER_ID with 31. change MAX_SEQUENCE with 4095. lia.
  - left. cbn. lia.
Defined.

(** X7. [deconstruct] always decodes against [CUSTOM_EPOCH]: for an
    identifier of an instance with epoch [e] it yields the right worker,
    datacenter and sequence number, but the time it reports is the
    millisecond of the identifier moved by [CUSTOM_EPOCH - e]. *)
Theorem deconstruct_ignores_instance_epoch (g : t) (clock : list Z) (id : Z)
    (g' : t) (clock' : list Z) :
  wf g ->
  generate g clock = (Returns id, g', clock') ->
  deconstruct id
  = {| d_timestamp :=
         Date_of_BigInt (lastTimestamp g' + (CUSTOM_EPOCH - epoch g));
       d_workerId := workerId g;
       d_datacenterId := datacenterId g;
       d_sequence := sequence g';
       d_epoch := CUSTOM_EPOCH |}
  /\ getTimestamp id
     = Date_of_BigInt (lastTimestamp g' + (CUSTOM_EPOCH - epoch g)).
Proof.
  intros Hwf Hgen.
  destruct (SnowflakeFacts.generate_returns_inv _ _ _ _ _ Hwf Hgen)
    as (Hwf' & _ & _ & _ & Hid & _).
  pose proof (SnowflakeFacts.wf_ranges _ Hwf) as (Rw & Rd & _).
  pose proof (SnowflakeFacts.wf_ranges _ Hwf') as (_ & _ & Rs).
  assert (Hdec : deconstruct id
                 = {| d_timestamp :=
                        Date_of_BigInt
                          (lastTimestamp g' + (CUSTOM_EPOCH - epoch g));
                      d_workerId := workerId g;
                      d_datacenterId := datacenterId g;
                      d_sequence := sequence g';
                      d_epoch := CUSTOM_EPOCH |}).
  { rewrite Hid. rewrite SnowflakeFacts.id_at_sum by assumption.
    rewrite SnowflakeFacts.deconstruct_sum by assumption.
    do 2 f_equal. lia. }
  split; [exact Hdec |].
  change (getTimestamp id) with (d_timestamp (deconstruct id)).
  rewrite Hdec. reflexivity.
Qed.

Lemma deconstruct_ignores_instance_epoch_witness :
  getTimestamp 1174109840998535168
  = Some (1700000000000 + (CUSTOM_EPOCH - DISCORD_EPOCH)).
Proof.
  refine (proj2 (deconstruct_ignores_instance_epoch
                   {| workerId := 1; datacenterId := 1;
                      epoch := DISCORD_EPOCH; sequence := 0;
                      lastTimestamp := -1; lock := false |}
                   [1700000000000] _ _ [] _ eq_refl)).
  unfold wf. cbn. change MAX_WORKER_ID with 31.
  change MAX_DATACENTER_ID with 31. change MAX_SEQUENCE with 4095. lia.
Defined.

(** X8. [isValid] accepts the identifiers of an instance only inside a
    window of the clock: with the clock between 1 and [2^41 - 1]
    milliseconds after the epoch of the instance every returned identifier
    is valid; with the clock before the epoch, or [2^41] milliseconds or
    more after it, [generate] still returns identifiers and [isValid]
    rejects each of them. *)
Theorem isValid_window (g : t) (clock : list Z) (id : Z) (g' : t)
    (clock' : list Z) :
  wf g ->
  generate g clock = (Returns id, g', clock') ->
  (0 < lastTimestamp g' - epoch g < 2 ^ 41 -> isValid id = true)
  /\ (lastTimestamp g' - epoch g < 0 -> isValid id = false)
  /\ (2 ^ 41 <= lastTimestamp g' - epoch g -> isValid id = false).
Proof.
  intros Hwf Hgen.
  destruct (SnowflakeFacts.generate_returns_inv _ _ _ _ _ Hwf Hgen)
    as (Hwf' & _ & _ & _ & Hid & _).
  pose proof (SnowflakeFacts.wf_ranges _ Hwf) as (Rw & Rd & _).
  pose proof (SnowflakeFacts.wf_ranges _ Hwf') as (_ & _ & Rs).
  rewrite Hid. rewrite SnowflakeFacts.id_at_sum by assumption.
  unfold isValid. change (Z.shiftl 1 63) with 9223372036854775808.
  change (2 ^ 41) with 2199023255552.
  set (d := lastTimestamp g' - epoch g).
  rewrite Z.gtb_ltb.
  split; [| split]; intros Hd.
  - apply andb_true_iff. split; apply Z.ltb_lt; lia.
  - apply andb_false_iff. left. apply Z.ltb_ge. lia.
  - apply andb_false_iff. right. apply Z.ltb_ge. lia.
Qed.

Lemma isValid_window_witness :
  isValid 379755639603335168 = true.
Proof.
  refine (proj1 (isValid_window default_instance [1700000000000] _ _ []
                   SnowflakeFacts.default_instance_wf eq_refl) _).
  vm_compute. split; reflexivity.
Defined.

(** X9. [compare] is the order of the integers ([-1], [0], [1] for less,
    equal, greater; swapping the arguments negates it), successive
    identifiers of one instance compare as [-1], and the order of
    identifiers is the order of their times: sorting by identifier sorts
    by [getTimestamp]. *)
Theorem compare_orders_by_time (a b : Z) :
  compare a b = - compare b a
  /\ (compare a b = -1 <-> a < b)
  /\ (compare a b = 0 <-> a = b)
  /\ (compare a b = 1 <-> b < a)
  /\ (forall ta tb,
        a <= b -> getTimestamp a = Some ta -> getTimestamp b = Some tb ->
        ta <= tb)
  /\ (forall g clock g1 clock1 g2 clock2,
        wf g ->
        generate g clock = (Returns a, g1, clock1) ->
        generate g1 clock1 = (Returns b, g2, clock2) ->
        compare a b = -1).
Proof.
  assert (Hcmp : (compare a b = -1 <-> a < b)
                 /\ (compare a b = 0 <-> a = b)
                 /\ (compare a b = 1 <-> b < a)
                 /\ compare a b = - compare b a).
  { unfold compare. rewrite !Z.gtb_ltb.
    destruct (Z.ltb_spec a b), (Z.ltb_spec b a); lia. }
  destruct Hcmp as (Hlt & Heq & Hgt & Hneg).
  split; [exact Hneg |]. split; [exact Hlt |]. split; [exact Heq |].
  split; [exact Hgt |]. split.
  - intros ta tb Hle. unfold getTimestamp, Date_of_BigInt.
    destruct (_ <=? _); [| discriminate]. intros [= <-].
    destruct (_ <=? _); [| discriminate]. intros [= <-].
    apply Z.add_le_mono_r. rewrite !Z.shiftr_div_pow2 by (vm_compute; discriminate).
    apply Z.div_le_mono; [reflexivity | exact Hle].
  - intros g clock g1 clock1 g2 clock2 Hwf H1 H2. apply Hlt.
    destruct (SnowflakeFacts.generate_key_increases _ _ _ _ _ Hwf H1)
      as (Hwf1 & Hid1 & _).
    destruct (SnowflakeFacts.generate_key_increases _ _ _ _ _ Hwf1 H2)
      as (_ & _ & Hinc).
    rewrite Hid1. exact Hinc.
Qed.

Lemma compare_orders_by_time_witness :
  compare 379755639603335168 379755639603335169 = -1.
Proof.
  refine (proj2 (proj2 (proj2 (proj2 (proj2
            (compare_orders_by_time 379755639603335168 379755639603335169)))))
            default_instance [1700000000000; 1700000000000] _ _ _ _
            SnowflakeFacts.default_instance_wf eq_refl eq_refl).
Defined.

End SnowflakeExtras.

(** ** The HTTP hooks *)

Module MiddlewareFacts.
Import Middleware.

(** *** [createUserRateLimit] *)

Lemma userRateLimit_fresh (windowMs maxRequests now : Z) (key : string)
    (requests : gmap string RateRecord) :
  (requests !! key = None
   \/ exists r, requests !! key = Some r /\ rec_resetTime r < now) ->
  userRateLimit windowMs maxRequests now key requests
  = (Passed tt, None, <[key := mkRateRecord 1 (now + windowMs)]> requests).
Proof.
  unfold userRateLimit. intros [-> | (r & -> & Hlate)]; [reflexivity |].
  rewrite Z.gtb_ltb. destruct (Z.ltb_spec (rec_resetTime r) now);
    [reflexivity | lia].
Qed.

Lemma userRateLimit_counting (windowMs maxRequests now : Z) (key : string)
    (requests : gmap string RateRecord) (c e : Z) :
  requests !! key = Some (mkRateRecord c e) -> now <= e ->
  userRateLimit windowMs maxRequests now key requests
  = if maxRequests <=? c then
      (Rejected (AuthorizationError (Some "Rate limit exceeded")
                                    (Some "RATE_LIMITED") (Some 429)),
       Some (ceil_div (e - now) 1000), requests)
    else (Passed tt, None, <[key := mkRateRecord (c + 1) e]> requests).
Proof.
  intros Hrec Hnow. unfold userRateLimit. rewrite Hrec. cbn.
  rewrite Z.gtb_ltb. destruct (Z.ltb_spec e now); [lia |].
  rewrite Z.geb_leb. reflexivity.
Qed.

Lemma userRateLimits_counting (windowMs maxRequests : Z) (key : string)
    (e : Z) (times : list Z) :
  forall (requests : gmap string RateRecord) (c : Z),
    requests !! key = Some (mkRateRecord c e) ->
    Forall (fun t => t <= e) times ->
    forall (k : nat) o,
      (userRateLimits windowMs maxRequests times key requests).1 !! k
      = Some o ->
      ((exists err, o = Rejected err) <-> maxRequests <= c + Z.of_nat k).
Proof.
  induction times as [|now times IH]; intros requests c Hrec Hall k o.
  - cbn. rewrite lookup_nil. discriminate.
  - apply Forall_cons in Hall. destruct Hall as [Hnow Hall].
    cbn [userRateLimits].
    rewrite (userRateLimit_counting _ _ _ _ _ c e Hrec Hnow).
    destruct (Z.leb_spec maxRequests c) as [Hfull | Hroom].
    + specialize (IH requests c Hrec Hall).
      destruct (userRateLimits windowMs maxRequests times key requests)
        as [os requests'']. cbn [fst] in *.
      destruct k as [|k]; cbn.
      * intros [= <-]. split; [lia | intros _; eexists; reflexivity].
      * intros Hk. rewrite (IH k o Hk). lia.
    + specialize (IH (<[key := mkRateRecord (c + 1) e]> requests) (c + 1)
                     (lookup_insert_eq _ _ _) Hall).
      destruct (userRateLimits windowMs maxRequests times key
                  (<[key := mkRateRecord (c + 1) e]> requests))
        as [os requests'']. cbn [fst] in *.
      destruct k as [|k]; cbn.
      * intros [= <-]. split; [intros [err Herr]; discriminate | lia].
      * intros Hk. rewrite (IH k o Hk). lia.
Qed.

(** X10. The limiter of [createUserRateLimit] is a fixed window that
    starts with the first request of a key: when the key has no record, or
    one whose reset time has passed, the requests made up to
    [windowMs] later are let through until [maxRequests] of them have
    passed and rejected from then on; the first request of a window always
    passes, even with [maxRequests <= 0]. *)
Theorem userRateLimit_window (windowMs maxRequests t0 : Z) (times : list Z)
    (key : string) (requests : gmap string RateRecord) :
  (requests !! key = None
   \/ exists r, requests !! key = Some r /\ rec_resetTime r < t0) ->
  Forall (fun t => t <= t0 + windowMs) times ->
  forall (k : nat) o,
    (userRateLimits windowMs maxRequests (t0 :: times) key requests).1 !! k
    = Some o ->
    ((exists err, o = Rejected err) <-> Z.max 1 maxRequests <= Z.of_nat k).
Proof.
  intros Hfresh Hall k o. cbn [userRateLimits].
  rewrite userRateLimit_fresh by exact Hfresh.
  pose proof (userRateLimits_counting windowMs maxRequests key
                (t0 + windowMs) times
                (<[key := mkRateRecord 1 (t0 + windowMs)]> requests) 1
                (lookup_insert_eq _ _ _) Hall) as Hrun.
  destruct (userRateLimits windowMs maxRequests times key
              (<[key := mkRateRecord 1 (t0 + windowMs)]> requests))
    as [os requests'']. cbn [fst] in *.
  destruct k as [|k]; cbn.
  - intros [= <-]. split; [intros [err Herr]; discriminate | lia].
  - intros Hk. rewrite (Hrun k o Hk). lia.
Qed.

Lemma userRateLimit_window_witness :
  exists o,
    (userRateLimits 60000 3 [1000; 2000; 3000; 4000; 61000] "7" ∅).1 !! 3%nat
    = Some o
    /\ exists err, o = Rejected err.
Proof.
  eexists. split; [vm_compute; reflexivity |].
  refine (proj2 (userRateLimit_window 60000 3 1000 [2000; 3000; 4000; 61000]
                   "7" ∅ (or_introl eq_refl) _ 3%nat _ eq_refl) _).
  - repeat (constructor; [cbn; lia |]). constructor.
  - cbn. lia.
Defined.

(** X11. A request that the limiter rejects changes nothing in the
    [requests] map, so rejected requests are not counted and do not extend
    the window; the error carries status 429 and the [Retry-After] header
    is the time left until the reset, rounded up to whole seconds.  A
    request that passes sets no header. *)
Theorem userRateLimit_rejection (windowMs maxRequests now : Z) (key : string)
    (requests : gmap string RateRecord) (o : checked unit)
    (header : option Z) (requests' : gmap string RateRecord) :
  userRateLimit windowMs maxRequests now key requests
  = (o, header, requests') ->
  (o = Passed tt -> header = None)
  /\ (forall err,
        o = Rejected err ->
        requests' = requests
        /\ err_statusCode err = Some 429
        /\ exists r secs,
             requests !! key = Some r /\ header = Some secs
             /\ maxRequests <= rec_count r
             /\ 0 <= secs
             /\ 1000 * (secs - 1) < rec_resetTime r - now <= 1000 * secs).
Proof.
  unfold userRateLimit.
  destruct (requests !! key) as [r |] eqn:Hrec.
  2:{ intros [= <- <- <-]. split; [reflexivity | discriminate]. }
  rewrite Z.gtb_ltb. destruct (Z.ltb_spec (rec_resetTime r) now) as [? | Hin].
  { intros [= <- <- <-]. split; [reflexivity | discriminate]. }
  rewrite Z.geb_leb.
  destruct (Z.leb_spec maxRequests (rec_count r)) as [Hfull | ?].
  2:{ intros [= <- <- <-]. split; [reflexivity | discriminate]. }
  intros [= <- <- <-]. split; [discriminate |].
  intros err [= <-]. split; [reflexivity |]. split; [reflexivity |].
  exists r, (ceil_div (rec_resetTime r - now) 1000).
  split; [reflexivity |]. split; [reflexivity |]. split; [exact Hfull |].
  unfold ceil_div. set (a := rec_resetTime r - now) in *.
  assert (0 <= a) by (subst a; lia).
  pose proof (Z.div_mod (- a) 1000 ltac:(lia)).
  pose proof (Z.mod_pos_bound (- a) 1000 ltac:(lia)).
  lia.
Qed.

Lemma userRateLimit_rejection_witness :
  {[ "7" := mkRateRecord 3 61000 ]} = ({[ "7" := mkRateRecord 3 61000 ]}
                                        : gmap string RateRecord)
  /\ exists r secs,
       ({[ "7" := mkRateRecord 3 61000 ]} : gmap string RateRecord) !! "7"
       = Some r /\ Some 58 = Some secs
       /\ 3 <= rec_count r /\ 0 <= secs
       /\ 1000 * (secs - 1) < rec_resetTime r - 3500 <= 1000 * secs.
Proof.
  pose proof (userRateLimit_rejection 60000 3 3500 "7"
                {[ "7" := mkRateRecord 3 61000 ]} _ _ _ eq_refl) as [_ H].
  destruct (H _ eq_refl) as (Hsame & _ & Hrest).
  split; [exact Hsame | exact Hrest].
Defined.

(** X12. The error handler of the server answers every
    [AuthorizationError] with status 403, whatever status the error itself
    carries, and puts the message where the code belongs: a request that
    the limiter rejects is answered with status 403 and the code
    "Rate limit exceeded", never with the 429 reply of the handler. *)
Theorem rate_limit_is_answered_403 (windowMs maxRequests now : Z)
    (key : string) (requests : gmap string RateRecord) (err : HttpError)
    (header : option Z) (requests' : gmap string RateRecord) (isDev : bool) :
  userRateLimit windowMs maxRequests now key requests
  = (Rejected err, header, requests') ->
  answer isDev (Rejected err : checked unit)
  = Some (mkReply 403 "Rate limit exceeded" "Rate limit exceeded")
  /\ (forall message code status,
        reply_status
          (errorHandler isDev (AuthorizationError message code status))
        = 403).
Proof.
  intros Hrun. split; [| reflexivity].
  unfold userRateLimit in Hrun.
  destruct (requests !! key) as [r |]; [| discriminate].
  destruct (now >? rec_resetTime r); [discriminate |].
  destruct (rec_count r >=? maxRequests); [| discriminate].
  injection Hrun as <- _ _. reflexivity.
Qed.

Lemma rate_limit_is_answered_403_witness :
  answer false
    (Rejected (AuthorizationError (Some "Rate limit exceeded")
                                  (Some "RATE_LIMITED") (Some 429))
     : checked unit)
  = Some (mkReply 403 "Rate limit exceeded" "Rate limit exceeded").
Proof.
  refine (proj1 (rate_limit_is_answered_403 60000 3 3500 "7"
                   {[ "7" := mkRateRecord 3 61000 ]} _ _ _ false eq_refl)).
Defined.

(** *** The permission hooks *)

Lemma requirePermission_passes {Value : Type}
    (BigInt : Value -> HttpError + Z) (permission : Z)
    (request : Request Value) (d : Database) :
  requirePermission BigInt permission request d = Passed tt
  <-> exists user raw serverId server,
        req_user request = Some user
        /\ req_serverId request = Some raw
        /\ BigInt raw = inr serverId
        /\ findServer d serverId = Some server
        /\ (server_ownerId server = ru_id user
            \/ exists member,
                 findMember d serverId (ru_id user) = Some member
                 /\ (PermissionUtils.has (memberPermissions member)
                                         Permissions.ADMINISTRATOR = true
                     \/ PermissionUtils.has (memberPermissions member)
                                            permission = true)).
Proof.
  unfold requirePermission, PermissionUtils.has.
  change Permissions.ADMINISTRATOR with (Z.shiftl 1 3).
  destruct (req_user request) as [user |].
  2:{ split; [discriminate | intros (? & ? & ? & ? & Hu & _); discriminate Hu]. }
  destruct (req_serverId request) as [raw |].
  2:{ split; [discriminate |].
      intros (? & ? & ? & ? & _ & Hs & _); discriminate Hs. }
  destruct (BigInt raw) as [thrown | serverId] eqn:Hid.
  { split; [discriminate |].
    intros (u & r & s & sv & _ & [= <-] & Hr & _). congruence. }
  destruct (findServer d serverId) as [server |] eqn:Hserver.
  2:{ split; [discriminate |].
      intros (u & r & s & sv & _ & [= <-] & Hr & Hsv & _). congruence. }
  destruct (Z.eqb_spec (server_ownerId server) (ru_id user)) as [Hown | Hnot].
  { split; [| reflexivity]. intros _. exists user, raw, serverId, server.
    split; [reflexivity |]. split; [reflexivity |]. split; [exact Hid |].
    split; [exact Hserver |]. left. exact Hown. }
  destruct (findMember d serverId (ru_id user)) as [member |] eqn:Hmember.
  2:{ split; [discriminate |].
      intros (u & r & s & sv & [= <-] & [= <-] & Hr & Hsv
              & [Hown | (m & Hm & _)]).
      - congruence.
      - congruence. }
  cbv zeta.
  destruct (Z.land (memberPermissions member) (Z.shiftl 1 3) =? Z.shiftl 1 3)
    eqn:Hadmin.
  { split; [| reflexivity]. intros _. exists user, raw, serverId, server.
    split; [reflexivity |]. split; [reflexivity |]. split; [exact Hid |].
    split; [exact Hserver |].
    right. exists member. split; [exact Hmember | left; exact Hadmin]. }
  destruct (Z.land (memberPermissions member) permission =? permission)
    eqn:Hperm; cbn [negb].
  - split; [| reflexivity]. intros _. exists user, raw, serverId, server.
    split; [reflexivity |]. split; [reflexivity |]. split; [exact Hid |].
    split; [exact Hserver |].
    right. exists member. split; [exact Hmember | right; exact Hperm].
  - split; [discriminate |].
    intros (u & r & s & sv & [= <-] & [= <-] & Hr & Hsv
            & [Hown | (m & Hm & [Ha | Hp])]).
    + congruence.
    + assert (s = serverId) as -> by congruence.
      assert (m = member) as -> by congruence. congruence.
    + assert (s = serverId) as -> by congruence.
      assert (m = member) as -> by congruence. congruence.
Qed.

(** X13. When [BigInt] reads the server id of the request as an integer
    and that server exists, [requirePermission] and the service's
    [checkChannelPermission] decide alike: the hook lets the request pass
    exactly when [checkChannelPermission] grants the permission to the
    user (for any channel).  When no server has that id the hook always
    rejects with "Server not found". *)
Theorem requirePermission_agrees_with_service {Value : Type}
    (BigInt : Value -> HttpError + Z) (permission : Z)
    (request : Request Value) (d : Database) (user : RequestUser)
    (raw : Value) (serverId channelId : Z) :
  req_user request = Some user ->
  req_serverId request = Some raw ->
  BigInt raw = inr serverId ->
  (forall server,
      findServer d serverId = Some server ->
      (requirePermission BigInt permission request d = Passed tt
       <-> MessageService.checkChannelPermission d (ru_id user) serverId
             channelId permission = true))
  /\ (findServer d serverId = None ->
      requirePermission BigInt permission request d
      = Rejected (AuthorizationError (Some "Server not found") None None)).
Proof.
  intros Huser Hsid Hid. split.
  - intros server Hserver.
    rewrite requirePermission_passes.
    rewrite MessageFacts.checkChannelPermission_spec.
    unfold MessageService.isOwner. rewrite Hserver.
    change MessageService.rolePermissions with memberPermissions.
    rewrite orb_true_iff. split.
    + intros (u & r & s & sv & Hu & Hs & Hr & Hsv & Hcase).
      rewrite Huser in Hu. rewrite Hsid in Hs.
      injection Hu as <-. injection Hs as <-.
      rewrite Hid in Hr. injection Hr as <-.
      rewrite Hserver in Hsv. injection Hsv as <-.
      destruct Hcase as [Hown | (m & Hm & Hgrant)].
      * left. apply Z.eqb_eq. exact Hown.
      * right. rewrite Hm. apply orb_true_iff. exact Hgrant.
    + intros Hcase. exists user, raw, serverId, server.
      split; [exact Huser |]. split; [exact Hsid |]. split; [exact Hid |].
      split; [exact Hserver |].
      destruct Hcase as [Hown | Hgrant].
      * left. apply Z.eqb_eq. exact Hown.
      * right.
        destruct (findMember d serverId (ru_id user)) as [m |];
          [| discriminate].
        exists m. split; [reflexivity |]. apply orb_true_iff. exact Hgrant.
  - intros Hnone. unfold requirePermission. rewrite Huser, Hsid, Hid, Hnone.
    reflexivity.
Qed.

Lemma requirePermission_agrees_with_service_witness :
  requirePermission BigInt_SentId Permissions.SEND_MESSAGES
    (mkRequest (Some (mkRequestUser 8 "eight" "session")) (Some sent_1))
    (Sample.database [Sample.overwrite8]) = Passed tt
  <-> MessageService.checkChannelPermission
        (Sample.database [Sample.overwrite8]) 8 1 10
        Permissions.SEND_MESSAGES = true.
Proof.
  refine (proj1 (requirePermission_agrees_with_service BigInt_SentId
                   Permissions.SEND_MESSAGES
                   (mkRequest (Some (mkRequestUser 8 "eight" "session"))
                              (Some sent_1))
                   (Sample.database [Sample.overwrite8])
                   (mkRequestUser 8 "eight" "session") sent_1 1 10
                   eq_refl eq_refl eq_refl)
                (mkServer 1 100) eq_refl).
Defined.

(** X14. The three hooks are nested: who passes [requireServerOwner]
    passes [requireServerAdmin], and who passes [requireServerAdmin]
    passes [requirePermission] for every permission.  Each of them rejects
    a request without a user with the [AuthenticationError] of status 401.
    For a request with a user, a rejection is an error of status 403 when
    the server id is missing or [BigInt] reads it as an integer; when
    [BigInt] throws on the id that the client sent, each of the three
    hooks ends in that very error, which is no [AuthorizationError]: an
    error without a status code and with another name than the three that
    the error handler knows is answered with status 500 and the code
    "INTERNAL_ERROR". *)
Theorem permission_hooks_nest {Value : Type}
    (BigInt : Value -> HttpError + Z) (request : Request Value)
    (d : Database) :
  (requireServerOwner BigInt request d = Passed tt ->
   requireServerAdmin BigInt request d = Passed tt)
  /\ (requireServerAdmin BigInt request d = Passed tt ->
      forall permission,
        requirePermission BigInt permission request d = Passed tt)
  /\ (forall permission err,
        requirePermission BigInt permission request d = Rejected err
        \/ requireServerAdmin BigInt request d = Rejected err
        \/ requireServerOwner BigInt request d = Rejected err ->
        match req_user request, req_serverId request with
        | None, _ =>
            err = AuthenticationError "Authentication required" None
            /\ err_statusCode err = Some 401
        | Some _, None => err_statusCode err = Some 403
        | Some _, Some raw =>
            match BigInt raw with
            | inr _ => err_statusCode err = Some 403
            | inl thrown => err = thrown
            end
        end)
  /\ (forall user raw thrown,
        req_user request = Some user ->
        req_serverId request = Some raw ->
        BigInt raw = inl thrown ->
        requireServerOwner BigInt request d = Rejected thrown
        /\ requireServerAdmin BigInt request d = Rejected thrown
        /\ (forall permission,
              requirePermission BigInt permission request d
              = Rejected thrown)
        /\ (err_statusCode thrown = None ->
            err_name thrown <> "AuthenticationError" ->
            err_name thrown <> "AuthorizationError" ->
            err_name thrown <> "ValidationError" ->
            forall isDev,
              reply_status (errorHandler isDev thrown) = 500
              /\ reply_code (errorHandler isDev thrown) = "INTERNAL_ERROR")).
Proof.
  split; [| split; [| split]].
  4:{ intros user raw thrown Hu Hs Hid.
      unfold requireServerOwner, requireServerAdmin, requirePermission.
      rewrite Hu, Hs, Hid.
      split; [reflexivity |]. split; [reflexivity |].
      split; [reflexivity |].
      intros Hstatus Hn1 Hn2 Hn3 isDev. unfold errorHandler.
      apply String.eqb_neq in Hn1, Hn2, Hn3.
      rewrite Hn1, Hn2, Hn3, Hstatus. split; reflexivity. }
  all: unfold requireServerOwner, requireServerAdmin, requirePermission.
  all: destruct (req_user request) as [user |];
    [| try discriminate;
       intros permission err [[= <-] | [[= <-] | [= <-]]];
       split; reflexivity].
  all: destruct (req_serverId request) as [raw |];
    [| try discriminate;
       intros permission err [[= <-] | [[= <-] | [= <-]]]; reflexivity].
  all: destruct (BigInt raw) as [thrown | serverId];
    [try discriminate;
     intros permission err [[= <-] | [[= <-] | [= <-]]]; reflexivity |].
  all: destruct (findServer d serverId) as [server |];
    [| try discriminate;
       intros permission err [[= <-] | [[= <-] | [= <-]]]; reflexivity].
  all: destruct (server_ownerId server =? ru_id user); cbn [negb];
    [try reflexivity; try (intros _ permission; reflexivity);
     intros permission err [[=] | [[=] | [=]]] |].
  all: destruct (findMember d serverId (ru_id user)) as [member |];
    [| try discriminate;
       intros permission err [[= <-] | [[= <-] | [= <-]]]; reflexivity].
  all: cbv zeta.
  all: destruct (Z.land (memberPermissions member) (Z.shiftl 1 3)
                 =? Z.shiftl 1 3); cbn [negb]; try discriminate.
  - intros _ permission. reflexivity.
  - intros permission err [[=] | [[=] | [= <-]]]. reflexivity.
  - intros permission err.
    destruct (Z.land (memberPermissions member) permission =? permission);
      cbn [negb]; intros [[= <-] | [[= <-] | [= <-]]]; reflexivity.
Qed.

Lemma permission_hooks_nest_witness :
  (requireServerAdmin BigInt_SentId
     (mkRequest (Some (mkRequestUser 100 "owner" "session")) (Some sent_1))
     (Sample.database []) = Passed tt
   /\ requirePermission BigInt_SentId Permissions.MANAGE_MESSAGES
        (mkRequest (Some (mkRequestUser 100 "owner" "session"))
                   (Some sent_1))
        (Sample.database []) = Passed tt)
  /\ (requireServerOwner BigInt_SentId
        (mkRequest (Some (mkRequestUser 100 "owner" "session"))
                   (Some sent_abc))
        (Sample.database [])
      = Rejected (NativeError "SyntaxError" "Cannot convert abc to a BigInt")
      /\ reply_status
           (errorHandler false
              (NativeError "SyntaxError" "Cannot convert abc to a BigInt"))
         = 500).
Proof.
  split.
  - pose proof (permission_hooks_nest BigInt_SentId
                  (mkRequest (Some (mkRequestUser 100 "owner" "session"))
                             (Some sent_1))
                  (Sample.database [])) as (H1 & H2 & _).
    split.
    + apply H1. reflexivity.
    + apply H2. apply H1. reflexivity.
  - pose proof (permission_hooks_nest BigInt_SentId
                  (mkRequest (Some (mkRequestUser 100 "owner" "session"))
                             (Some sent_abc))
                  (Sample.database [])) as (_ & _ & _ & H4).
    destruct (H4 (mkRequestUser 100 "owner" "session") sent_abc
                 (NativeError "SyntaxError" "Cannot convert abc to a BigInt")
                 eq_refl eq_refl eq_refl) as (Howner & _ & _ & Hreply).
    split; [exact Howner |].
    apply (Hreply eq_refl); discriminate.
Defined.

End MiddlewareFacts.

(** ** message.service.ts: editing, deleting and pinning *)

Module ModerationFacts.

Import Moderation.

Lemma findMessage_updateRow (s : Store) (messageId id : Z)
    (data : MessageRow -> MessageRow) :
  (forall r, row_id (data r) = row_id r) ->
  findMessage (updateRow s messageId data) id
  = if id =? messageId then option_map data (findMessage s id)
    else findMessage s id.
Proof.
  intros Hid. unfold findMessage, updateRow. cbn [rows set_rows].
  induction (rows s) as [| r l IH]; cbn [map find].
  - destruct (id =? messageId); reflexivity.
  - destruct (Z.eqb_spec (row_id r) messageId) as [Hr | Hr].
    + rewrite Hid.
      destruct (Z.eqb_spec (row_id r) id) as [Hi | Hi].
      * rewrite <- Hi, Hr, Z.eqb_refl. reflexivity.
      * exact IH.
    + destruct (Z.eqb_spec (row_id r) id) as [Hi | Hi]; [| exact IH].
      rewrite <- Hi. destruct (Z.eqb_spec (row_id r) messageId); 
        [contradiction | reflexivity].
Qed.

Lemma authorOrManager_spec (s : Store) (message : MessageRow) (userId : Z) :
  authorOrManager s message userId = Returns true
  <-> mayModerate s message userId.
Proof.
  unfold authorOrManager, mayModerate, channelOf.
  destruct (Z.eqb_spec (message_authorId (row message)) userId) as [Ha | Ha].
  { split; [left; exact Ha | reflexivity]. }
  destruct (findChannel (tables s) (message_channelId (row message)))
    as [channel |]; cbn.
  2:{ split; [discriminate |].
      intros [H | (c & sid & [=] & _)]. contradiction. }
  destruct (truthy_id (channel_serverId channel)) as [serverId |] eqn:Hsid.
  - split.
    + intros [= Hc]. right. exists channel, serverId. auto.
    + intros [H | (c & sid & [= <-] & Hs & Hc)]; [contradiction |].
      assert (sid = serverId) as -> by congruence.
      rewrite Hc. reflexivity.
  - split; [discriminate |].
    intros [H | (c & sid & [= <-] & Hs & _)]; [contradiction | congruence].
Qed.

Lemma authorOrManager_tables (s s' : Store) (message : MessageRow)
    (userId : Z) :
  tables s' = tables s ->
  authorOrManager s' message userId = authorOrManager s message userId.
Proof.
  intros Ht. unfold authorOrManager, channelOf. rewrite Ht. reflexivity.
Qed.

(** X15. [deleteMessage] returns exactly when the message exists, is not
    yet deleted, and the caller is its author or holds [MANAGE_MESSAGES]
    (as [checkChannelPermission] sees it) in the server of its channel; in
    a DM channel only the author may delete.  The call that returns has
    soft-deleted the row, and a call that does not return leaves the store
    as it was. *)
Theorem deleteMessage_returns_iff (now messageId userId : Z) (s : Store) :
  (fst (deleteMessage now messageId userId s) = Returns tt
   <-> exists message,
         findMessage s messageId = Some message
         /\ row_isDeleted message = false
         /\ mayModerate s message userId)
  /\ (fst (deleteMessage now messageId userId s) = Returns tt ->
      snd (deleteMessage now messageId userId s)
      = updateRow s messageId (softDelete now userId))
  /\ (fst (deleteMessage now messageId userId s) <> Returns tt ->
      snd (deleteMessage now messageId userId s) = s).
Proof.
  unfold deleteMessage.
  destruct (findMessage s messageId) as [message |].
  2:{ cbn. split; [| split; [discriminate | reflexivity]].
      split; [discriminate | intros (m & [=] & _)]. }
  destruct (row_isDeleted message) eqn:Hdel.
  { cbn. split; [| split; [discriminate | reflexivity]].
    split; [discriminate |]. intros (m & [= <-] & Hm & _). congruence. }
  pose proof (authorOrManager_spec s message userId) as Hspec.
  destruct (authorOrManager s message userId) as [[|] | e |]; cbn.
  - split; [| split; [reflexivity | congruence]].
    split; [| reflexivity]. intros _. exists message.
    split; [reflexivity |]. split; [exact Hdel |].
    apply Hspec. reflexivity.
  - split; [| split; [discriminate | reflexivity]].
    split; [discriminate |]. intros (m & [= <-] & _ & Hmay).
    apply Hspec in Hmay. discriminate.
  - split; [| split; [discriminate | reflexivity]].
    split; [discriminate |]. intros (m & [= <-] & _ & Hmay).
    apply Hspec in Hmay. discriminate.
  - split; [| split; [discriminate | reflexivity]].
    split; [discriminate |]. intros (m & [= <-] & _ & Hmay).
    apply Hspec in Hmay. discriminate.
Qed.

Lemma deleteMessage_returns (now messageId userId : Z) (s s' : Store) :
  deleteMessage now messageId userId s = (Returns tt, s') ->
  s' = updateRow s messageId (softDelete now userId)
  /\ exists message,
       findMessage s messageId = Some message
       /\ row_isDeleted message = false.
Proof.
  unfold deleteMessage.
  destruct (findMessage s messageId) as [message |]; [| discriminate].
  destruct (row_isDeleted message) eqn:Hdel; [discriminate |].
  destruct (authorOrManager s message userId) as [[|] | e |];
    cbn [negb]; try discriminate.
  intros [= <-]. split; [reflexivity |]. exists message. auto.
Qed.

(** X16. A deleted message is gone for every later call: after a
    [deleteMessage] that returned, [getMessage], [updateMessage],
    [deleteMessage], [pinMessage] and [unpinMessage] on that id all throw
    "Message not found", whoever calls, and leave the store alone.  The
    row is still in the table, with the content "[deleted]", without
    attachments, and with the caller as [deletedBy]; its pin flag is not
    cleared.  Rows with another id are what they were. *)
Theorem deleted_message_is_gone (now messageId userId : Z) (s s' : Store) :
  deleteMessage now messageId userId s = (Returns tt, s') ->
  getMessage messageId s' = Throws MESSAGE_NOT_FOUND
  /\ (forall now' user content,
        updateMessage now' messageId user content s'
        = (Throws MESSAGE_NOT_FOUND, s'))
  /\ (forall now' user,
        deleteMessage now' messageId user s' = (Throws MESSAGE_NOT_FOUND, s'))
  /\ (forall pinned user,
        setPinned pinned messageId user s' = (Throws MESSAGE_NOT_FOUND, s'))
  /\ (exists message,
        findMessage s messageId = Some message
        /\ findMessage s' messageId = Some (softDelete now userId message)
        /\ message_content (row (softDelete now userId message))
           = Some "[deleted]"
        /\ message_attachments (row (softDelete now userId message)) = []
        /\ row_deletedBy (softDelete now userId message) = Some userId
        /\ row_isPinned (softDelete now userId message) = row_isPinned message)
  /\ (forall id, id <> messageId -> findMessage s' id = findMessage s id).
Proof.
  intros Hdel. apply deleteMessage_returns in Hdel as (-> & message & Hm & _).
  assert (Hfind : findMessage (updateRow s messageId (softDelete now userId))
                              messageId
                  = Some (softDelete now userId message)).
  { rewrite findMessage_updateRow by reflexivity.
    rewrite Z.eqb_refl, Hm. reflexivity. }
  split; [| split; [| split; [| split; [| split]]]].
  - unfold getMessage. rewrite Hfind. reflexivity.
  - intros now' user content. unfold updateMessage. rewrite Hfind.
    reflexivity.
  - intros now' user. unfold deleteMessage. rewrite Hfind. reflexivity.
  - intros pinned user. unfold setPinned. rewrite Hfind. reflexivity.
  - exists message. repeat split; assumption.
  - intros id Hid. rewrite findMessage_updateRow by reflexivity.
    destruct (Z.eqb_spec id messageId); [contradiction | reflexivity].
Qed.

Lemma deleted_message_is_gone_witness :
  getMessage 1 (snd (deleteMessage 5000 1 100 ModerationSample.store))
  = Throws MESSAGE_NOT_FOUND.
Proof.
  refine (proj1 (deleted_message_is_gone 5000 1 100 ModerationSample.store
                   (snd (deleteMessage 5000 1 100 ModerationSample.store))
                   _)).
  vm_compute. reflexivity.
Defined.

Lemma inBulk_spec (channelId : Z) (messageIds : list Z) (r : MessageRow) :
  inBulk channelId messageIds r = true
  <-> In (row_id r) messageIds /\ message_channelId (row r) = channelId.
Proof.
  unfold inBulk. rewrite andb_true_iff, Z.eqb_eq, existsb_exists.
  split.
  - intros [(x & Hin & Hx) Hc]. apply Z.eqb_eq in Hx. subst x. auto.
  - intros [Hin Hc]. split; [| exact Hc].
    exists (row_id r). split; [exact Hin | apply Z.eqb_refl].
Qed.

(** X17. [bulkDeleteMessages] refuses more than 100 ids before it reads
    anything.  A call that returns was made on a server channel by a
    caller with [MANAGE_MESSAGES]; it soft-deletes, with the caller as
    [deletedBy], every row of that channel whose id is in the list,
    whoever wrote it and whether or not it was deleted before, and leaves
    every other row as it was; and it writes one audit entry whose
    [count] is the number of ids given, not the number of rows changed. *)
Theorem bulkDeleteMessages_effect (now channelId : Z) (messageIds : list Z)
    (userId : Z) (s : Store) :
  ((100 < length messageIds)%nat ->
   bulkDeleteMessages now channelId messageIds userId s
   = (Throws "Cannot delete more than 100 messages at once", s))
  /\ (forall s',
        bulkDeleteMessages now channelId messageIds userId s
        = (Returns tt, s') ->
        (length messageIds <= 100)%nat
        /\ (exists channel serverId,
              findChannel (tables s) channelId = Some channel
              /\ truthy_id (channel_serverId channel) = Some serverId
              /\ MessageService.checkChannelPermission (tables s) userId
                   serverId channelId Permissions.MANAGE_MESSAGES = true
              /\ auditLogs s'
                 = auditLogs s
                   ++ [mkAuditLog serverId MESSAGE_BULK_DELETE userId None
                         (Some (length messageIds, pretty channelId))])
        /\ tables s' = tables s
        /\ Forall2
             (fun r r' =>
                (In (row_id r) messageIds
                 /\ message_channelId (row r) = channelId ->
                 r' = softDelete now userId r)
                /\ (~ (In (row_id r) messageIds
                       /\ message_channelId (row r) = channelId) ->
                    r' = r))
             (rows s) (rows s')).
Proof.
  unfold bulkDeleteMessages. split.
  - intros Hlen. apply Nat.ltb_lt in Hlen. rewrite Hlen. reflexivity.
  - intros s'.
    destruct (100 <? length messageIds)%nat eqn:Hlen; [discriminate |].
    apply Nat.ltb_ge in Hlen.
    destruct (findChannel (tables s) channelId) as [channel |];
      [| discriminate].
    destruct (truthy_id (channel_serverId channel)) as [serverId |] eqn:Hsid;
      [| discriminate].
    destruct (MessageService.checkChannelPermission (tables s) userId
                serverId channelId Permissions.MANAGE_MESSAGES) eqn:Hcan;
      cbn [negb]; [| discriminate].
    intros [= <-]. cbn [auditLogs add_auditLog tables rows set_rows].
    split; [exact Hlen |]. split.
    { exists channel, serverId. auto. }
    split; [reflexivity |].
    induction (rows s) as [| r l IH]; cbn [map]; constructor; [| exact IH].
    pose proof (inBulk_spec channelId messageIds r) as Hspec.
    destruct (inBulk channelId messageIds r).
    + split; [reflexivity |]. intros Hn. exfalso. apply Hn, Hspec.
      reflexivity.
    + split; [| reflexivity]. intros Hin. apply Hspec in Hin. discriminate.
Qed.

Lemma bulkDeleteMessages_effect_witness :
  bulkDeleteMessages 5000 10 (repeat 1 101) 100 ModerationSample.store
  = (Throws "Cannot delete more than 100 messages at once",
     ModerationSample.store).
Proof.
  apply (proj1 (bulkDeleteMessages_effect 5000 10 (repeat 1 101) 100
                  ModerationSample.store)).
  cbn. lia.
Defined.

(** *** The edit history *)

Lemma slice_last_length {A : Type} (n : nat) (l : list A) :
  length (slice_last n l) = Nat.min n (length l).
Proof. unfold slice_last. rewrite length_skipn. lia. Qed.

Lemma slice_last_short {A : Type} (n : nat) (l : list A) :
  (length l <= n)%nat -> slice_last n l = l.
Proof.
  intros H. unfold slice_last.
  replace (length l - n)%nat with 0%nat by lia. reflexivity.
Qed.

Lemma slice_last_app {A : Type} (n : nat) (a b : list A) :
  slice_last n (slice_last n a ++ b) = slice_last n (a ++ b).
Proof.
  destruct (Nat.le_gt_cases (length a) n) as [Hle | Hgt].
  { rewrite (slice_last_short n a Hle). reflexivity. }
  unfold slice_last at 1 3.
  rewrite !length_app, slice_last_length.
  unfold slice_last.
  replace (Nat.min n (length a) + length b - n)%nat with (length b) by lia.
  replace (length a + length b - n)%nat
    with (length b + (length a - n))%nat by lia.
  rewrite <- skipn_skipn. f_equal.
  rewrite skipn_app.
  replace (length a - n - length a)%nat with 0%nat by lia. reflexivity.
Qed.

Lemma last_cons_default {A : Type} (x : A) (l : list A) (d : A) :
  List.last (x :: l) d = List.last l x.
Proof.
  revert x d. induction l as [| y l IH]; intros x d; [reflexivity |].
  change (List.last (x :: y :: l) d) with (List.last (y :: l) d).
  rewrite (IH y d), (IH y x). reflexivity.
Qed.

Lemma replaced_length (content : option string) (edits : list (Z * string)) :
  length (replaced content edits) = length edits.
Proof.
  revert content. induction edits as [| [now c] rest IH]; intros content;
    cbn [replaced length]; [reflexivity |].
  rewrite IH. reflexivity.
Qed.

Lemma mayModerate_edit (now : Z) (content : string) (s s' : Store)
    (message : MessageRow) (userId : Z) :
  tables s' = tables s ->
  mayModerate s message userId ->
  mayModerate s' (edit now content message) userId.
Proof.
  intros Ht. unfold mayModerate. rewrite Ht. cbn. tauto.
Qed.

Lemma updateMessage_permitted (now messageId userId : Z) (content : string)
    (s : Store) (message : MessageRow) :
  findMessage s messageId = Some message ->
  row_isDeleted message = false ->
  mayModerate s message userId ->
  updateMessage now messageId userId content s
  = (Returns (edit now content message),
     updateRow s messageId (edit now content)).
Proof.
  intros Hm Hdel Hmay. unfold updateMessage. rewrite Hm, Hdel.
  apply authorOrManager_spec in Hmay. rewrite Hmay. reflexivity.
Qed.

(** X18. Edits by the author, or by a holder of [MANAGE_MESSAGES] in the
    server of the channel, all return; [editCount] counts every one of
    them, while [editHistory] keeps the last ten replaced contents only,
    in the order of the edits, so its length is the smaller of ten and
    the number of replaced contents; the content is that of the last
    edit. *)
Theorem edit_history_keeps_last_ten (edits : list (Z * string))
    (messageId userId : Z) (s : Store) (message : MessageRow) :
  findMessage s messageId = Some message ->
  row_isDeleted message = false ->
  mayModerate s message userId ->
  (length (row_editHistory message) <= 10)%nat ->
  exists message',
    findMessage (snd (updateMessages edits messageId userId s)) messageId
    = Some message'
    /\ Forall (fun o => exists r, o = Returns r)
              (fst (updateMessages edits messageId userId s))
    /\ row_editCount message'
       = row_editCount message + Z.of_nat (length edits)
    /\ row_editHistory message'
       = slice_last 10 (row_editHistory message
                        ++ replaced (message_content (row message)) edits)
    /\ length (row_editHistory message')
       = Nat.min 10 (length (row_editHistory message) + length edits)
    /\ message_content (row message')
       = List.last (map (fun e => Some (snd e)) edits)
                   (message_content (row message)).
Proof.
  revert s message.
  induction edits as [| [now c] rest IH]; intros s message Hm Hdel Hmay Hlen.
  - exists message. cbn [updateMessages fst snd replaced length map List.last].
    rewrite app_nil_r, slice_last_short by exact Hlen.
    split; [exact Hm |]. split; [constructor |].
    split; [lia |]. split; [reflexivity |]. split; [lia | reflexivity].
  - cbn [updateMessages].
    rewrite (updateMessage_permitted now messageId userId c s message
               Hm Hdel Hmay).
    assert (Hm1 : findMessage (updateRow s messageId (edit now c)) messageId
                  = Some (edit now c message)).
    { rewrite findMessage_updateRow by reflexivity.
      rewrite Z.eqb_refl, Hm. reflexivity. }
    assert (Hlen1 : (length (row_editHistory (edit now c message)) <= 10)%nat).
    { cbn [row_editHistory edit]. rewrite slice_last_length. lia. }
    destruct (IH (updateRow s messageId (edit now c)) (edit now c message)
                Hm1 Hdel
                (mayModerate_edit now c s _ message userId eq_refl Hmay)
                Hlen1)
      as (message' & Hf & Hall & Hcount & Hhist & _ & Hcontent).
    destruct (updateMessages rest messageId userId
                (updateRow s messageId (edit now c))) as [os s''].
    cbn [fst snd] in *.
    exists message'. split; [exact Hf |].
    split; [constructor; [eexists; reflexivity | exact Hall] |].
    assert (Hhist' : row_editHistory message'
                     = slice_last 10
                         (row_editHistory message
                          ++ replaced (message_content (row message))
                                      ((now, c) :: rest))).
    { rewrite Hhist. cbn [row_editHistory edit replaced row set_content
        message_content].
      rewrite slice_last_app, <- app_assoc. reflexivity. }
    split.
    { rewrite Hcount. cbn [row_editCount edit length]. lia. }
    split; [exact Hhist' |].
    split.
    { rewrite Hhist', slice_last_length, length_app, replaced_length.
      reflexivity. }
    rewrite Hcontent. cbn [map snd row edit set_content message_content].
    symmetry. apply last_cons_default.
Qed.

Lemma edit_history_keeps_last_ten_witness :
  exists message',
    findMessage
      (snd (updateMessages (map (fun k => (5000 + k, "edit")) (seqZ 0 12))
              1 7 ModerationSample.store)) 1
    = Some message'
    /\ length (row_editHistory message') = 10%nat
    /\ row_editCount message' = 12.
Proof.
  destruct (edit_history_keeps_last_ten
              (map (fun k => (5000 + k, "edit")) (seqZ 0 12)) 1 7
              ModerationSample.store (ModerationSample.message 1 7 "hello")
              eq_refl eq_refl (or_introl eq_refl) (Nat.le_0_l 10))
    as (message' & Hf & _ & Hcount & _ & Hlen & _).
  exists message'. split; [exact Hf |]. split; [exact Hlen | exact Hcount].
Defined.

(** *** Pins *)

Lemma setPinned_returns (pinned : bool) (messageId userId : Z)
    (s s' : Store) :
  setPinned pinned messageId userId s = (Returns tt, s') ->
  exists message channel serverId,
    findMessage s messageId = Some message
    /\ row_isDeleted message = false
    /\ findChannel (tables s) (message_channelId (row message)) = Some channel
    /\ truthy_id (channel_serverId channel) = Some serverId
    /\ MessageService.checkChannelPermission (tables s) userId serverId
         (message_channelId (row message)) Permissions.MANAGE_MESSAGES = true
    /\ s' = add_auditLog (updateRow s messageId (set_isPinned pinned))
              (mkAuditLog serverId
                 (if pinned then MESSAGE_PIN else MESSAGE_UNPIN)
                 userId (Some messageId) None).
Proof.
  unfold setPinned, channelOf.
  destruct (findMessage s messageId) as [message |]; [| discriminate].
  destruct (row_isDeleted message) eqn:Hdel; [discriminate |].
  destruct (findChannel (tables s) (message_channelId (row message)))
    as [channel |] eqn:Hch; [| discriminate].
  destruct (truthy_id (channel_serverId channel)) as [serverId |] eqn:Hsid;
    [| discriminate].
  destruct (MessageService.checkChannelPermission (tables s) userId serverId
              (message_channelId (row message)) Permissions.MANAGE_MESSAGES)
    eqn:Hcan; cbn [negb]; [| discriminate].
  intros [= <-]. exists message, channel, serverId. auto 10.
Qed.

Lemma setPinned_permitted (pinned : bool) (messageId userId : Z) (s : Store)
    (message : MessageRow) (channel : Channel) (serverId : Z) :
  findMessage s messageId = Some message ->
  row_isDeleted message = false ->
  findChannel (tables s) (message_channelId (row message)) = Some channel ->
  truthy_id (channel_serverId channel) = Some serverId ->
  MessageService.checkChannelPermission (tables s) userId serverId
    (message_channelId (row message)) Permissions.MANAGE_MESSAGES = true ->
  setPinned pinned messageId userId s
  = (Returns tt,
     add_auditLog (updateRow s messageId (set_isPinned pinned))
       (mkAuditLog serverId (if pinned then MESSAGE_PIN else MESSAGE_UNPIN)
          userId (Some messageId) None)).
Proof.
  intros Hm Hdel Hch Hsid Hcan. unfold setPinned, channelOf.
  rewrite Hm, Hdel, Hch, Hsid, Hcan. reflexivity.
Qed.

(** X19. Who has pinned a message can unpin it: after a [pinMessage] that
    returned, [unpinMessage] by the same caller returns, the row is what
    it was before the pin but for a pin flag that is off, and the audit
    log has grown by a MESSAGE_PIN (74) and a MESSAGE_UNPIN (75) entry for
    that message.  Pinning is not idempotent on the audit log: a second
    [pinMessage] returns as well and logs a second MESSAGE_PIN entry. *)
Theorem pin_then_unpin (messageId userId : Z) (s s1 : Store) :
  pinMessage messageId userId s = (Returns tt, s1) ->
  exists message serverId s2 s1',
    findMessage s messageId = Some message
    /\ findMessage s1 messageId = Some (set_isPinned true message)
    /\ unpinMessage messageId userId s1 = (Returns tt, s2)
    /\ findMessage s2 messageId = Some (set_isPinned false message)
    /\ auditLogs s2
       = auditLogs s
         ++ [mkAuditLog serverId MESSAGE_PIN userId (Some messageId) None;
             mkAuditLog serverId MESSAGE_UNPIN userId (Some messageId) None]
    /\ pinMessage messageId userId s1 = (Returns tt, s1')
    /\ rows s1' = rows s1
    /\ auditLogs s1'
       = auditLogs s
         ++ [mkAuditLog serverId MESSAGE_PIN userId (Some messageId) None;
             mkAuditLog serverId MESSAGE_PIN userId (Some messageId) None].
Proof.
  unfold pinMessage, unpinMessage. intros Hpin.
  apply setPinned_returns in Hpin
    as (message & channel & serverId & Hm & Hdel & Hch & Hsid & Hcan & ->).
  set (s1 := add_auditLog (updateRow s messageId (set_isPinned true))
               (mkAuditLog serverId MESSAGE_PIN userId (Some messageId) None)).
  assert (Hm1 : findMessage s1 messageId = Some (set_isPinned true message)).
  { change (findMessage s1 messageId)
      with (findMessage (updateRow s messageId (set_isPinned true))
                        messageId).
    rewrite findMessage_updateRow by reflexivity.
    rewrite Z.eqb_refl, Hm. reflexivity. }
  exists message, serverId.
  eexists. eexists.
  split; [exact Hm |]. split; [exact Hm1 |].
  split.
  { apply (setPinned_permitted false messageId userId s1
             (set_isPinned true message) channel serverId Hm1 Hdel Hch Hsid
             Hcan). }
  split.
  { change (findMessage
              (add_auditLog (updateRow s1 messageId (set_isPinned false)) _)
              messageId)
      with (findMessage (updateRow s1 messageId (set_isPinned false))
                        messageId).
    rewrite findMessage_updateRow by reflexivity.
    rewrite Z.eqb_refl, Hm1. reflexivity. }
  split.
  { cbn [auditLogs add_auditLog updateRow set_rows s1].
    rewrite <- app_assoc. reflexivity. }
  split.
  { apply (setPinned_permitted true messageId userId s1
             (set_isPinned true message) channel serverId Hm1 Hdel Hch Hsid
             Hcan). }
  split.
  - cbn [rows add_auditLog updateRow set_rows s1].
    rewrite map_map. apply map_ext. intros r.
    destruct (row_id r =? messageId) eqn:Hr.
    + change (row_id (set_isPinned true r)) with (row_id r).
      rewrite Hr. reflexivity.
    + rewrite Hr. reflexivity.
  - cbn [auditLogs add_auditLog updateRow set_rows s1].
    rewrite <- app_assoc. reflexivity.
Qed.

Lemma pin_then_unpin_witness :
  exists message serverId s2,
    Moderation.findMessage ModerationSample.store 2 = Some message
    /\ unpinMessage 2 100 (snd (pinMessage 2 100 ModerationSample.store))
       = (Returns tt, s2)
    /\ findMessage s2 2 = Some (set_isPinned false message)
    /\ auditLogs s2
       = [mkAuditLog serverId MESSAGE_PIN 100 (Some 2) None;
          mkAuditLog serverId MESSAGE_UNPIN 100 (Some 2) None].
Proof.
  destruct (pin_then_unpin 2 100 ModerationSample.store
              (snd (pinMessage 2 100 ModerationSample.store)) eq_refl)
    as (message & serverId & s2 & s1' & Hm & _ & Hun & Hm2 & Hlog & _).
  exists message, serverId, s2. auto.
Defined.

End ModerationFacts.

(** ** message.service.ts: mentions *)

Module MentionFacts.

Import Mentions.

Lemma digits_spec (s : string) :
  all_digits (digits s).1 /\ s = (digits s).1 +:+ (digits s).2.
Proof.
  unfold all_digits. induction s as [| c t [IHd IHs]]; cbn [digits].
  - split; [constructor | reflexivity].
  - destruct (is_digit c) eqn:Hc.
    + destruct (digits t) as [d rest]. cbn [fst snd] in *.
      split.
      * cbn [list_ascii_of_string]. constructor; assumption.
      * rewrite MessageFacts.append_cons_l, <- IHs. reflexivity.
    + cbn [fst snd]. split; [constructor | reflexivity].
Qed.

Lemma digitsClose_digits (s d : string) (n : nat) :
  digitsClose s = Some (d, n) -> d <> EmptyString /\ all_digits d.
Proof.
  unfold digitsClose. pose proof (digits_spec s) as [Hd _].
  destruct (digits s) as [d' rest]. cbn [fst] in Hd.
  destruct d' as [| c d']; [discriminate |].
  destruct rest as [| c' rest]; [discriminate |].
  destruct (Ascii.eqb_spec c' ">") as [-> | Hne].
  - intros [= <- _]. split; [discriminate | exact Hd].
  - intros H. exfalso. revert H.
    destruct c' as [[] [] [] [] [] [] [] []]; try discriminate.
    contradiction Hne. reflexivity.
Qed.

Lemma longer_digits (k : nat) (s d : string) (n : nat) :
  longer k (digitsClose s) = Some (d, n) ->
  d <> EmptyString /\ all_digits d.
Proof.
  destruct (digitsClose s) as [[d' n'] |] eqn:Hs; [| discriminate].
  intros [= <- _]. exact (digitsClose_digits s d' n' Hs).
Qed.

Lemma userMention_digits (s d : string) (n : nat) :
  userMention s = Some (d, n) -> d <> EmptyString /\ all_digits d.
Proof.
  unfold userMention.
  repeat match goal with
         | |- context [match ?x with _ => _ end] =>
             is_var x; destruct x; try discriminate
         end;
    apply longer_digits.
Qed.

Lemma roleMention_digits (s d : string) (n : nat) :
  roleMention s = Some (d, n) -> d <> EmptyString /\ all_digits d.
Proof.
  unfold roleMention.
  repeat match goal with
         | |- context [match ?x with _ => _ end] =>
             is_var x; destruct x; try discriminate
         end;
    apply longer_digits.
Qed.

Lemma channelMention_digits (s d : string) (n : nat) :
  channelMention s = Some (d, n) -> d <> EmptyString /\ all_digits d.
Proof.
  unfold channelMention.
  repeat match goal with
         | |- context [match ?x with _ => _ end] =>
             is_var x; destruct x; try discriminate
         end;
    apply longer_digits.
Qed.

Lemma matchAll_Forall (P : string -> Prop)
    (re : string -> option (string * nat)) :
  (forall s d n, re s = Some (d, n) -> P d) ->
  forall s skip, Forall P (matchAll re skip s).
Proof.
  intros Hre s. induction s as [| c t IH]; intros skip; cbn [matchAll].
  - constructor.
  - destruct skip as [| k]; [| apply IH].
    destruct (re (String c t)) as [[d n] |] eqn:Hm; [| apply IH].
    constructor; [exact (Hre _ _ _ Hm) | apply IH].
Qed.

(** X20. Whatever the content, every id that [extractMentions] returns,
    as a user, a role or a channel, is a non-empty string of decimal
    digits, so the [BigInt(...)] conversions of
    [createMentionNotifications] are applied to decimal numerals only. *)
Theorem extractMentions_digits (content : string) :
  Forall (fun d => d <> EmptyString /\ all_digits d)
         (users (extractMentions content)
          ++ roles (extractMentions content)
          ++ channels (extractMentions content)).
Proof.
  unfold extractMentions. cbn [users roles channels].
  rewrite !Forall_app. split; [| split]; apply matchAll_Forall.
  - exact userMention_digits.
  - exact roleMention_digits.
  - exact channelMention_digits.
Qed.

(** *** Mention tokens *)

Lemma userMention_needs_lt : needs_lt userMention.
Proof.
  intros c t Hc. destruct c as [[] [] [] [] [] [] [] []]; try reflexivity.
  contradiction Hc. reflexivity.
Qed.

Lemma roleMention_needs_lt : needs_lt roleMention.
Proof.
  intros c t Hc. destruct c as [[] [] [] [] [] [] [] []]; try reflexivity.
  contradiction Hc. reflexivity.
Qed.

Lemma channelMention_needs_lt : needs_lt channelMention.
Proof.
  intros c t Hc. destruct c as [[] [] [] [] [] [] [] []]; try reflexivity.
  contradiction Hc. reflexivity.
Qed.

Lemma matchAll_skip (re : string -> option (string * nat)) (a b : string)
    (k : nat) :
  matchAll re (String.length a + k) (a +:+ b) = matchAll re k b.
Proof.
  induction a as [| c a IH].
  - rewrite MessageFacts.append_nil_l. reflexivity.
  - rewrite MessageFacts.append_cons_l. cbn [String.length Nat.add matchAll].
    exact IH.
Qed.

Lemma matchAll_lt_free (re : string -> option (string * nat))
    (a b : string) :
  needs_lt re -> lt_free a -> matchAll re 0 (a +:+ b) = matchAll re 0 b.
Proof.
  intros Hre. unfold lt_free. induction a as [| c a IH];
    cbn [list_ascii_of_string]; intros Ha.
  - rewrite MessageFacts.append_nil_l. reflexivity.
  - inversion Ha as [| ? ? Hc Ha']; subst.
    rewrite MessageFacts.append_cons_l. cbn [matchAll].
    rewrite (Hre c _ Hc). exact (IH Ha').
Qed.

Lemma is_digit_not_lt (c : ascii) : is_digit c = true -> c <> "<"%char.
Proof. intros H ->. discriminate H. Qed.

Lemma all_digits_lt_free (d : string) : all_digits d -> lt_free d.
Proof.
  unfold all_digits, lt_free. intros H.
  eapply Forall_impl; [exact H |]. exact is_digit_not_lt.
Qed.

Lemma digits_token (d rest : string) :
  all_digits d -> digits (d +:+ String ">" rest) = (d, String ">" rest).
Proof.
  unfold all_digits. induction d as [| c d IH]; cbn [list_ascii_of_string];
    intros Hd.
  - rewrite MessageFacts.append_nil_l. reflexivity.
  - inversion Hd as [| ? ? Hc Hd']; subst.
    rewrite MessageFacts.append_cons_l. cbn [digits]. rewrite Hc, (IH Hd').
    reflexivity.
Qed.

Lemma digitsClose_token (d rest : string) :
  d <> EmptyString -> all_digits d ->
  digitsClose (d +:+ String ">" rest) = Some (d, S (String.length d)).
Proof.
  intros Hne Hd. unfold digitsClose. rewrite (digits_token d rest Hd).
  destruct d; [contradiction | reflexivity].
Qed.

Lemma digitsClose_no_digit (c : ascii) (t : string) :
  is_digit c = false -> digitsClose (String c t) = None.
Proof. intros Hc. unfold digitsClose. cbn [digits]. rewrite Hc. reflexivity. Qed.

(** A token [<] [pre] [d] [>] at the head of the text: a scanner that
    matches there yields [d] and goes on behind the token; one that does
    not finds nothing inside it. *)
Lemma matchAll_token (re : string -> option (string * nat))
    (pre d rest : string) (hit : bool) :
  needs_lt re -> lt_free pre -> all_digits d ->
  re (String "<" (pre +:+ d +:+ String ">" rest))
  = (if hit
     then Some (d, S (String.length pre
                      + (String.length d + (1 + 0))))%nat
     else None) ->
  matchAll re 0 (String "<" (pre +:+ d +:+ String ">" rest))
  = (if hit then [d] else []) ++ matchAll re 0 rest.
Proof.
  intros Hre Hpre Hd Hm. cbn [matchAll]. rewrite Hm. destruct hit.
  - cbn [app]. f_equal.
    replace (S (String.length pre + (String.length d + (1 + 0))) - 1)%nat
      with (String.length pre + (String.length d + (1 + 0)))%nat by lia.
    rewrite (matchAll_skip re pre (d +:+ String ">" rest)).
    rewrite (matchAll_skip re d (String ">" rest)).
    reflexivity.
  - cbn [app].
    rewrite (matchAll_lt_free re pre _ Hre Hpre).
    rewrite (matchAll_lt_free re d _ Hre (all_digits_lt_free d Hd)).
    cbn [matchAll]. rewrite (Hre ">"%char rest); [reflexivity | discriminate].
Qed.

Lemma userMention_at (c : ascii) (t : string) :
  userMention (String "<" (String "@" (String c t)))
  = if Ascii.eqb c "!" then longer 3 (digitsClose t)
    else longer 2 (digitsClose (String c t)).
Proof. destruct c as [[] [] [] [] [] [] [] []]; reflexivity. Qed.

Lemma roleMention_at (c : ascii) (t : string) :
  roleMention (String "<" (String "@" (String c t)))
  = if Ascii.eqb c "&" then longer 3 (digitsClose t) else None.
Proof. destruct c as [[] [] [] [] [] [] [] []]; reflexivity. Qed.

Lemma string_head (d : string) :
  d <> EmptyString -> exists c t, d = String c t.
Proof. destruct d as [| c t]; [contradiction | eauto]. Qed.

Lemma all_digits_head (c : ascii) (t : string) :
  all_digits (String c t) -> is_digit c = true.
Proof. intros H. inversion H. assumption. Qed.

Local Ltac strings :=
  rewrite ?MessageFacts.append_cons_l, ?MessageFacts.append_nil_l.

Local Ltac token pre hit :=
  match goal with
  | Hd : all_digits ?d, Hclose : digitsClose (?d +:+ String ">" ?rest) = _
    |- matchAll ?re 0 _ = _ =>
      apply (matchAll_token re pre d rest hit);
      [first [exact userMention_needs_lt | exact roleMention_needs_lt
             | exact channelMention_needs_lt]
      | unfold lt_free; cbn [list_ascii_of_string];
        repeat (constructor; [discriminate |]); constructor
      | exact Hd
      | strings ]
  end.

(** X21. How [extractMentions] reads a mention token at the head of the
    content, for a non-empty decimal [d]: [<@d>] and [<@!d>] add [d] to
    the users, [<@&d>] adds it to the roles and [<#d>] to the channels,
    each to that list alone, and the rest of the content is read as if it
    stood alone.  Text without a [<] adds nothing. *)
Theorem mention_tokens (d rest : string) :
  d <> EmptyString -> all_digits d ->
  extractMentions ("<@" +:+ d +:+ ">" +:+ rest)
  = {| users := d :: users (extractMentions rest);
       roles := roles (extractMentions rest);
       channels := channels (extractMentions rest) |}
  /\ extractMentions ("<@!" +:+ d +:+ ">" +:+ rest)
     = {| users := d :: users (extractMentions rest);
          roles := roles (extractMentions rest);
          channels := channels (extractMentions rest) |}
  /\ extractMentions ("<@&" +:+ d +:+ ">" +:+ rest)
     = {| users := users (extractMentions rest);
          roles := d :: roles (extractMentions rest);
          channels := channels (extractMentions rest) |}
  /\ extractMentions ("<#" +:+ d +:+ ">" +:+ rest)
     = {| users := users (extractMentions rest);
          roles := roles (extractMentions rest);
          channels := d :: channels (extractMentions rest) |}
  /\ (forall text,
        lt_free text ->
        extractMentions (text +:+ rest) = extractMentions rest).
Proof.
  intros Hne Hd.
  destruct (string_head d Hne) as (c & t & Hdc).
  assert (Hc : is_digit c = true).
  { apply (all_digits_head c t). rewrite <- Hdc. exact Hd. }
  assert (Hclose : digitsClose (d +:+ String ">" rest)
                   = Some (d, S (String.length d))).
  { exact (digitsClose_token d rest Hne Hd). }
  unfold extractMentions. cbn [users roles channels]. strings.
  split; [| split; [| split; [| split]]].
  - f_equal.
    + change (d :: ?l) with ([d] ++ l). token "@" true.
      rewrite Hdc. strings. rewrite userMention_at.
      destruct (Ascii.eqb_spec c "!") as [-> | _]; [discriminate Hc |].
      rewrite <- MessageFacts.append_cons_l, <- Hdc, Hclose.
      cbn. do 3 f_equal. lia.
    + change (matchAll roleMention 0 rest)
        with ([] ++ matchAll roleMention 0 rest).
      token "@" false.
      rewrite Hdc. strings. rewrite roleMention_at.
      destruct (Ascii.eqb_spec c "&") as [-> | _]; [discriminate Hc |].
      reflexivity.
    + change (matchAll channelMention 0 rest)
        with ([] ++ matchAll channelMention 0 rest).
      token "@" false. reflexivity.
  - f_equal.
    + change (d :: ?l) with ([d] ++ l). token "@!" true.
      rewrite userMention_at. cbn [Ascii.eqb Bool.eqb]. rewrite Hclose.
      cbn. do 3 f_equal. lia.
    + change (matchAll roleMention 0 rest)
        with ([] ++ matchAll roleMention 0 rest).
      token "@!" false. reflexivity.
    + change (matchAll channelMention 0 rest)
        with ([] ++ matchAll channelMention 0 rest).
      token "@!" false. reflexivity.
  - f_equal.
    + change (matchAll userMention 0 rest)
        with ([] ++ matchAll userMention 0 rest).
      token "@&" false.
      rewrite userMention_at. cbn [Ascii.eqb Bool.eqb].
      rewrite digitsClose_no_digit; reflexivity.
    + change (d :: ?l) with ([d] ++ l). token "@&" true.
      rewrite roleMention_at. cbn [Ascii.eqb Bool.eqb]. rewrite Hclose.
      cbn. do 3 f_equal. lia.
    + change (matchAll channelMention 0 rest)
        with ([] ++ matchAll channelMention 0 rest).
      token "@&" false. reflexivity.
  - f_equal.
    + change (matchAll userMention 0 rest)
        with ([] ++ matchAll userMention 0 rest).
      token "#" false. reflexivity.
    + change (matchAll roleMention 0 rest)
        with ([] ++ matchAll roleMention 0 rest).
      token "#" false. reflexivity.
    + change (d :: ?l) with ([d] ++ l). token "#" true.
      unfold channelMention. rewrite Hclose. cbn. do 3 f_equal. lia.
  - intros text Htext. f_equal; apply matchAll_lt_free; try exact Htext.
    + exact userMention_needs_lt.
    + exact roleMention_needs_lt.
    + exact channelMention_needs_lt.
Qed.

Lemma mention_tokens_witness :
  extractMentions ("<@&" +:+ "42" +:+ ">" +:+ " and <#7>")
  = {| users := users (extractMentions " and <#7>");
       roles := "42" :: roles (extractMentions " and <#7>");
       channels := channels (extractMentions " and <#7>") |}.
Proof.
  refine (proj1 (proj2 (proj2 (mention_tokens "42" " and <#7>" _ _)))).
  - discriminate.
  - repeat constructor.
Defined.

(** *** Notifications *)

Lemma notifyUsers_spec (message : Included) (mentioned : list string)
    (ns : list Notification) :
  notifyUsers message mentioned ns
  = ns ++ map (fun userId =>
                 notification message (BigInt userId) "mention" "New Mention"
                   (inc_author_username message +:+ " mentioned you"))
              (List.filter
                 (fun userId =>
                    negb (String.eqb userId
                            (pretty (message_authorId (inc_message message)))))
                 mentioned).
Proof.
  unfold notifyUsers. revert ns.
  induction mentioned as [| u rest IH]; intros ns; cbn [fold_left List.filter].
  - cbn. rewrite app_nil_r. reflexivity.
  - rewrite IH. destruct (String.eqb u _); cbn [negb map]; [reflexivity |].
    rewrite <- app_assoc. reflexivity.
Qed.

(** X22. The first loop of [createMentionNotifications] tells a
    self-mention by the text of the id: a mention is skipped exactly when
    its digits are the decimal form of the author's id, every other
    mention gives one notification to [BigInt] of its digits, repeated
    mentions give repeated notifications, and nothing else is written.  So
    a mention that denotes the author in another spelling (a leading
    zero) notifies the author of the author's own message. *)
Theorem self_mention_is_told_by_text (message : Included)
    (mentioned : list string) (ns : list Notification) :
  (forall u,
     In u mentioned ->
     u <> pretty (message_authorId (inc_message message)) ->
     In (notification message (BigInt u) "mention" "New Mention"
           (inc_author_username message +:+ " mentioned you"))
        (notifyUsers message mentioned ns))
  /\ (forall u,
        In u mentioned ->
        u <> pretty (message_authorId (inc_message message)) ->
        BigInt u = message_authorId (inc_message message) ->
        exists n,
          In n (notifyUsers message mentioned ns)
          /\ n_userId n = n_sourceUserId n)
  /\ (exists new,
        notifyUsers message mentioned ns = ns ++ new
        /\ length new
           = length (List.filter
                       (fun u =>
                          negb (String.eqb u
                                  (pretty (message_authorId
                                             (inc_message message)))))
                       mentioned)
        /\ Forall (fun n =>
                     n_type n = "mention"
                     /\ exists u,
                          In u mentioned
                          /\ u <> pretty (message_authorId
                                            (inc_message message))
                          /\ n_userId n = BigInt u)
                  new).
Proof.
  rewrite notifyUsers_spec.
  assert (Hin : forall u,
             In u mentioned ->
             u <> pretty (message_authorId (inc_message message)) ->
             In (notification message (BigInt u) "mention" "New Mention"
                   (inc_author_username message +:+ " mentioned you"))
                (ns ++ map (fun userId =>
                   notification message (BigInt userId) "mention"
                     "New Mention"
                     (inc_author_username message +:+ " mentioned you"))
                   (List.filter
                      (fun userId =>
                         negb (String.eqb userId
                                 (pretty (message_authorId
                                            (inc_message message)))))
                      mentioned))).
  { intros u Hu Hne. apply in_or_app. right.
    apply (in_map (fun userId => notification message (BigInt userId) _ _ _)).
    apply filter_In. split; [exact Hu |].
    apply negb_true_iff. apply String.eqb_neq. exact Hne. }
  split; [exact Hin |]. split.
  - intros u Hu Hne Hself. eexists. split; [exact (Hin u Hu Hne) |].
    cbn. exact Hself.
  - eexists. split; [reflexivity |]. split; [apply length_map |].
    rewrite Forall_map. apply List.Forall_forall. intros u Hu.
    apply filter_In in Hu as [Hu Hne].
    apply negb_true_iff, String.eqb_neq in Hne.
    split; [reflexivity |]. exists u. auto.
Qed.

Lemma self_mention_is_told_by_text_witness :
  exists n,
    In n (notifyUsers MentionSample.message ["7"; "07"] [])
    /\ n_userId n = n_sourceUserId n.
Proof.
  refine (proj1 (proj2 (self_mention_is_told_by_text MentionSample.message
                          ["7"; "07"] []))
            "07" _ _ _).
  - right. left. reflexivity.
  - vm_compute. discriminate.
  - reflexivity.
Defined.

Lemma notifyMembers_no_channel (message : Included)
    (members : list RoleMember) (ns : list Notification) :
  inc_channel_name message = None ->
  notifyMembers message members ns
  = (if existsb (fun rm => negb (rm_serverMember_userId rm
                                 =? message_authorId (inc_message message)))
                members
     then Throws TYPE_ERROR else Returns tt, ns).
Proof.
  intros Hnone. induction members as [| member rest IH];
    cbn [notifyMembers existsb]; [reflexivity |].
  destruct (rm_serverMember_userId member =? _); cbn [negb orb].
  - exact IH.
  - rewrite Hnone. reflexivity.
Qed.

Lemma notifyRoles_no_channel (message : Included)
    (roleMembers : list RoleMember) (mentioned : list string)
    (ns : list Notification) :
  inc_channel_name message = None ->
  notifyRoles message roleMembers mentioned ns
  = (if pings (message_authorId (inc_message message)) roleMembers mentioned
     then Throws TYPE_ERROR else Returns tt, ns).
Proof.
  intros Hnone. unfold pings.
  induction mentioned as [| roleId rest IH]; cbn [notifyRoles existsb];
    [reflexivity |].
  rewrite (notifyMembers_no_channel message _ ns Hnone).
  destruct (existsb _ (membersOf roleMembers (BigInt roleId)));
    cbn [orb]; [reflexivity | exact IH].
Qed.

Lemma pings_spec (authorId : Z) (roleMembers : list RoleMember)
    (mentioned : list string) :
  pings authorId roleMembers mentioned = true
  <-> pings_someone authorId roleMembers mentioned.
Proof.
  unfold pings, pings_someone, membersOf. rewrite existsb_exists. split.
  - intros (roleId & Hin & Hex). apply existsb_exists in Hex
      as (member & Hm & Hne).
    apply filter_In in Hm as [Hm Hrole].
    exists roleId, member. split; [exact Hin |]. split; [exact Hm |].
    split; [apply Z.eqb_eq; exact Hrole |].
    apply negb_true_iff, Z.eqb_neq in Hne. exact Hne.
  - intros (roleId & member & Hin & Hm & Hrole & Hne).
    exists roleId. split; [exact Hin |]. apply existsb_exists.
    exists member. split.
    + apply filter_In. split; [exact Hm | apply Z.eqb_eq; exact Hrole].
    + apply negb_true_iff, Z.eqb_neq. exact Hne.
Qed.

Lemma createMessage_returns (now : Z)
    (data : MessageService.CreateMessageData) (w : World) (m : Message)
    (w' : World) :
  MessageService.createMessage now data w = (Returns m, w') ->
  message_authorId m = MessageService.data_authorId data
  /\ message_content m
     = Some (default "" (MessageService.data_content data))
  /\ In m (messages (db w')).
Proof.
  intros Hrun.
  destruct (MessageService.authorized (db w) data) eqn:Hauth.
  2:{ destruct (MessageFacts.createMessage_unauthorized now data w Hauth)
        as (msg & Hthrow & _).
      rewrite Hthrow in Hrun. discriminate. }
  rewrite MessageFacts.createMessage_authorized in Hrun by assumption.
  unfold mbind, M_bind in Hrun. rewrite MessageFacts.rateLimit_run in Hrun.
  destruct (redis_incr (redis w) now (MessageService.rateKey data)) as [n r].
  cbv zeta in Hrun.
  destruct (n >? 30); [discriminate |].
  revert Hrun.
  unfold MessageService.persist, snowflake_generate, messages_create.
  unfold mbind, M_bind, mret, M_ret, modify.
  destruct (Snowflake.generate _ _) as [[og g] c].
  destruct og as [id | msg |]; [| discriminate | discriminate].
  intros [= <- <-]. cbn. split; [reflexivity |]. split; [reflexivity |].
  apply in_or_app. right. left. reflexivity.
Qed.

(** What the last two statements of [createMessage] do with a row. *)
Lemma notifyCreated_no_channel (authorName : string) (m : Message)
    (roleMembers : list RoleMember) (ns : list Notification) :
  notifyCreated authorName m roleMembers ns
  = (if pings (message_authorId m) roleMembers
          (roles (extractMentions (default "" (message_content m))))
     then Throws TYPE_ERROR else Returns m,
     notifyUsers (mkIncluded m authorName None)
       (users (extractMentions (default "" (message_content m)))) ns).
Proof.
  unfold notifyCreated, createMentionNotifications.
  rewrite notifyRoles_no_channel by reflexivity.
  cbn [inc_message]. destruct (pings _ _ _); reflexivity.
Qed.

(** [JSON.stringify] throws exactly on the values in which a bigint
    occurs. *)
Lemma serializeJSON_has_bigint (v : Json) :
  serializeJSON v = None <-> has_bigint v = true.
Proof.
  revert v. fix IH 1. intros [| s | n | items | fields]; cbn.
  - split; discriminate.
  - split; discriminate.
  - split; reflexivity.
  - induction items as [| item rest IHrest].
    + split; discriminate.
    + destruct (IH item) as [Hto Hfrom].
      destruct (serializeJSON item) as [t |].
      * destruct (has_bigint item); [specialize (Hfrom eq_refl); discriminate |].
        cbn [orb]. revert IHrest.
        match goal with
        | |- context [match ?e with Some _ => _ | None => _ end] =>
            destruct e
        end; intros [H1 H2]; split; intros H;
          try discriminate; try reflexivity; auto.
        specialize (H2 H). discriminate.
      * rewrite (Hto eq_refl). split; reflexivity.
  - induction fields as [| [key item] rest IHrest].
    + split; discriminate.
    + destruct (IH item) as [Hto Hfrom].
      destruct (serializeJSON item) as [t |].
      * destruct (has_bigint item); [specialize (Hfrom eq_refl); discriminate |].
        cbn [orb]. revert IHrest.
        match goal with
        | |- context [match ?e with Some _ => _ | None => _ end] =>
            destruct e
        end; intros [H1 H2]; split; intros H;
          try discriminate; try reflexivity; auto.
        specialize (H2 H). discriminate.
      * rewrite (Hto eq_refl). split; reflexivity.
Qed.

Lemma cacheMessage_row (now channelId : Z) (m : Message)
    (authorName : string) (cache : gmap string CachedList) :
  cacheMessage now channelId (rowJson m authorName) cache
  = (Throws BIGINT_NOT_SERIALIZABLE, cache).
Proof.
  unfold cacheMessage, JSON_stringify.
  destruct (serializeJSON (rowJson m authorName)) as [text |] eqn:Htext;
    [| reflexivity].
  assert (Hnone : serializeJSON (rowJson m authorName) = None)
    by (apply serializeJSON_has_bigint; reflexivity).
  congruence.
Qed.

(** X23. [createMessage] never returns a message.  Once
    [prisma.messages.create] has stored the row, [cacheMessage] hands it
    to [JSON.stringify], which throws on the bigint ids of the row (it
    throws on a value exactly when a bigint occurs in it).  So every call
    that gets past the write ends in the [TypeError]
    "Do not know how to serialize a BigInt" with the message stored,
    nothing cached and [createMentionNotifications] not reached; and
    whatever the call does, it leaves the cache and the notifications as
    they were. *)
Theorem createMessage_ends_at_the_cache_write (now : Z) (authorName : string)
    (data : MessageService.CreateMessageData)
    (roleMembers : list RoleMember) (w : World)
    (cache : gmap string CachedList) (ns : list Notification) :
  (forall m w',
      MessageService.createMessage now data w = (Returns m, w') ->
      createMessage_notifying now authorName data roleMembers w cache ns
      = (Throws BIGINT_NOT_SERIALIZABLE, w', cache, ns)
      /\ In m (messages (db w'))
      /\ has_bigint (rowJson m authorName) = true)
  /\ (forall m,
        (createMessage_notifying now authorName data roleMembers w cache
                                 ns).1.1.1
        <> Returns m)
  /\ (createMessage_notifying now authorName data roleMembers w cache
                              ns).1.2 = cache
  /\ (createMessage_notifying now authorName data roleMembers w cache
                              ns).2 = ns
  /\ (forall v, JSON_stringify v = Throws BIGINT_NOT_SERIALIZABLE
                <-> has_bigint v = true).
Proof.
  split; [| split; [| split; [| split]]].
  - intros m w' Hrun.
    destruct (createMessage_returns now data w m w' Hrun) as (_ & _ & Hin).
    unfold createMessage_notifying. rewrite Hrun, cacheMessage_row.
    split; [reflexivity |]. split; [exact Hin | reflexivity].
  - intros m. unfold createMessage_notifying.
    destruct (MessageService.createMessage now data w) as [[m' | e |] w'];
      [rewrite cacheMessage_row |..]; discriminate.
  - unfold createMessage_notifying.
    destruct (MessageService.createMessage now data w) as [[m' | e |] w'];
      [rewrite cacheMessage_row |..]; reflexivity.
  - unfold createMessage_notifying.
    destruct (MessageService.createMessage now data w) as [[m' | e |] w'];
      [rewrite cacheMessage_row |..]; reflexivity.
  - intros v. rewrite <- serializeJSON_has_bigint. unfold JSON_stringify.
    destruct (serializeJSON v); split; (discriminate || reflexivity).
Qed.

Lemma createMessage_ends_at_the_cache_write_witness :
  (createMessage_notifying 1700000000000 "eight" MentionSample.data
     MentionSample.roleMembers Sample.world ∅ []).1.1.1
  = Throws BIGINT_NOT_SERIALIZABLE
  /\ In (mkMessage 1 379755639603335168 10 8 (Some "<@7> <@&5> hi")
           (Some "n1") None [])
        (messages
           (db (MessageService.createMessage 1700000000000
                  MentionSample.data Sample.world).2)).
Proof.
  destruct (proj1 (createMessage_ends_at_the_cache_write 1700000000000
                     "eight" MentionSample.data MentionSample.roleMembers
                     Sample.world ∅ [])
              (mkMessage 1 379755639603335168 10 8 (Some "<@7> <@&5> hi")
                 (Some "n1") None [])
              (MessageService.createMessage 1700000000000
                 MentionSample.data Sample.world).2)
    as (Hrun & Hin & _).
  - vm_compute. reflexivity.
  - split; [rewrite Hrun; reflexivity | exact Hin].
Defined.

End MentionFacts.

(** ** middleware/auth.ts: the authentication hook *)

Module HttpAuthFacts.

Import Middleware HttpAuth.

(** X24. A [Bearer] header shadows the cookie: when the [authorization]
    header starts with "Bearer ", the [access_token] cookie plays no part
    in [authenticateRequest]; the header "Bearer " with nothing behind it
    is answered "No authentication token provided" whatever the cookie
    holds.  A header of another scheme leaves the decision to the
    cookie. *)
Theorem bearer_header_shadows_cookie (verifyToken : string -> Verified)
    (now : Z) (a : Accounts) :
  (forall header cookie cookie',
     String.prefix "Bearer " header = true ->
     authenticateRequest verifyToken now
       (mkCredentials (Some header) cookie) a
     = authenticateRequest verifyToken now
         (mkCredentials (Some header) cookie') a)
  /\ (forall cookie,
        authenticateRequest verifyToken now
          (mkCredentials (Some "Bearer ") cookie) a
        = (Rejected (AuthenticationError "No authentication token provided"
                                         (Some "NO_TOKEN")), a))
  /\ (forall header cookie,
        String.prefix "Bearer " header = false ->
        authenticateRequest verifyToken now
          (mkCredentials (Some header) cookie) a
        = authenticateRequest verifyToken now (mkCredentials None cookie) a).
Proof.
  split; [| split].
  - intros header cookie cookie' Hpre.
    unfold authenticateRequest, extractToken. cbn [authorization].
    rewrite Hpre. reflexivity.
  - intros cookie. reflexivity.
  - intros header cookie Hpre.
    unfold authenticateRequest, extractToken.
    cbn [authorization cookie_access_token]. rewrite Hpre. reflexivity.
Qed.

(** X25. Every request that [authenticateRequest] turns down is turned
    down with an [AuthenticationError] of status 401 whose code is one of
    seven, and nothing has been written.  The error handler of server.ts
    answers it with status 401 and puts the error's message in both the
    [code] and the [message] field of the reply, so the code itself never
    reaches the client. *)
Theorem authentication_failure_is_answered_401
    (verifyToken : string -> Verified) (now : Z) (request : Credentials)
    (a : Accounts) (e : HttpError) (a' : Accounts) (isDev : bool) :
  authenticateRequest verifyToken now request a = (Rejected e, a') ->
  a' = a
  /\ err_name e = "AuthenticationError"
  /\ err_statusCode e = Some 401
  /\ In (err_code e)
        ["NO_TOKEN"; "TOKEN_EXPIRED"; "INVALID_TOKEN"; "AUTH_FAILED";
         "INVALID_TOKEN_TYPE"; "SESSION_INVALID"; "USER_NOT_FOUND"]
  /\ errorHandler isDev e = mkReply 401 (err_message e) (err_message e)
  /\ reply_code (errorHandler isDev e) <> err_code e.
Proof.
  unfold authenticateRequest.
  repeat match goal with
         | |- context [match ?x with _ => _ end] =>
             lazymatch x with
             | context [match _ with _ => _ end] => fail
             | _ => destruct x
             end
         end;
    intros [= <- <-]; cbn;
    (split; [reflexivity |]); (split; [reflexivity |]);
    (split; [reflexivity |]); (split; [tauto |]);
    (split; [reflexivity | discriminate]).
Qed.

Lemma authentication_failure_is_answered_401_witness :
  errorHandler false
    (AuthenticationError "No authentication token provided" (Some "NO_TOKEN"))
  = mkReply 401 "No authentication token provided"
      "No authentication token provided".
Proof.
  refine (proj1 (proj2 (proj2 (proj2 (proj2
            (authentication_failure_is_answered_401
               (fun _ => Thrown "JsonWebTokenError") 0
               (mkCredentials None None) (mkAccounts [] [])
               (AuthenticationError "No authentication token provided"
                  (Some "NO_TOKEN"))
               (mkAccounts [] []) false eq_refl)))))).
Defined.

(** X26. Who gets through [authenticateRequest] holds a verified access
    token whose session is in the table, is not revoked and has not
    expired at the time of the request, and whose user exists and is not
    deleted; the request then carries that user's id and that session's
    id.  The call writes [lastActiveAt] of that session and nothing else:
    the sessions keep their ids, revocations and expiry times, and the
    users are untouched.  [optionalAuth] attaches the same user and
    session. *)
Theorem authenticated_request_has_live_session
    (verifyToken : string -> Verified) (now : Z) (request : Credentials)
    (a : Accounts) (user : RequestUser) (session : RequestSession)
    (a' : Accounts) :
  authenticateRequest verifyToken now request a
  = (Passed (user, session), a') ->
  (exists token payload row account,
     extractToken request = Some token
     /\ verifyToken token = Payload payload
     /\ payload_type payload = "access"
     /\ In row (userSessions a)
     /\ session_id row = payload_sessionId payload
     /\ session_revokedAt row = None
     /\ now <= session_expiresAt row
     /\ In account (users a)
     /\ account_id account = payload_userId payload
     /\ account_isDeleted account = false
     /\ ru_id user = account_id account
     /\ ru_sessionId user = session_id row
     /\ rs_id session = session_id row)
  /\ users a' = users a
  /\ Forall2 (fun s s' =>
                s' = s \/ (session_id s = rs_id session /\ s' = touch now s))
             (userSessions a) (userSessions a')
  /\ optionalAuth verifyToken now request a = (Some (user, session), a').
Proof.
  unfold optionalAuth. intros Hrun. rewrite Hrun.
  split; [| split; [| split; [| reflexivity]]]; revert Hrun;
    unfold authenticateRequest;
    destruct (extractToken request) as [token |]; try discriminate;
    destruct (decide (token = "")); try discriminate;
    destruct (verifyToken token) as [payload | name] eqn:Hverify;
    try (destruct (String.eqb name "TokenExpiredError");
         [discriminate |];
         destruct (String.eqb name "JsonWebTokenError"); discriminate);
    destruct (String.eqb_spec (payload_type payload) "access")
      as [Htype | Htype]; cbn [negb]; try discriminate;
    destruct (find _ (userSessions a)) as [row |] eqn:Hrow;
      try discriminate;
    destruct (session_revokedAt row) as [revoked |] eqn:Hrevoked;
      cbn [orb]; try discriminate;
    destruct (Z.ltb_spec (session_expiresAt row) now) as [Hlate | Hlive];
      try discriminate;
    destruct (find _ (users a)) as [account |] eqn:Haccount;
      try discriminate;
    destruct (account_isDeleted account) eqn:Hdeleted; try discriminate;
    intros [= <- <- <-].
  - apply find_some in Hrow as [Hrow Hid].
    apply find_some in Haccount as [Haccount Huid].
    apply String.eqb_eq in Hid. apply Z.eqb_eq in Huid.
    exists token, payload, row, account. cbn. auto 15.
  - reflexivity.
  - cbn [userSessions rs_id]. clear Hrow.
    induction (userSessions a) as [| s l IH]; cbn [map]; constructor;
      [| exact IH].
    destruct (String.eqb_spec (session_id s) (session_id row)); auto.
Qed.

Lemma authenticated_request_has_live_session_witness :
  optionalAuth (fun _ => Payload (mkTokenPayload "access" 7 "s1")) 1000
    (mkCredentials (Some "Bearer abc") None)
    (mkAccounts [mkUserSession "s1" None 5000 None true 0]
                [mkAccountRow 7 "seven" false])
  = (Some (mkRequestUser 7 "seven" "s1", mkRequestSession "s1" None true),
     mkAccounts [mkUserSession "s1" None 5000 None true 1000]
                [mkAccountRow 7 "seven" false]).
Proof.
  refine (proj2 (proj2 (proj2
            (authenticated_request_has_live_session
               (fun _ => Payload (mkTokenPayload "access" 7 "s1")) 1000
               (mkCredentials (Some "Bearer abc") None)
               (mkAccounts [mkUserSession "s1" None 5000 None true 0]
                           [mkAccountRow 7 "seven" false])
               (mkRequestUser 7 "seven" "s1")
               (mkRequestSession "s1" None true)
               (mkAccounts [mkUserSession "s1" None 5000 None true 1000]
                           [mkAccountRow 7 "seven" false])
               eq_refl)))).
Defined.

End HttpAuthFacts.

(** ** middleware/auth.ts: voice state *)

Module VoiceFacts.

Import Voice.

Lemma pretty_N_go_nonempty (x : N) :
  forall s, s <> EmptyString -> pretty_N_go x s <> EmptyString.
Proof.
  induction (N.lt_wf_0 x) as [x _ IH]; intros s Hs.
  assert (Hx : (x = 0 \/ 0 < x)%N) by lia. destruct Hx as [-> | Hpos].
  - rewrite pretty_N_go_0. exact Hs.
  - rewrite pretty_N_go_step by exact Hpos. apply IH.
    + apply N.div_lt; [exact Hpos | reflexivity].
    + discriminate.
Qed.

Lemma pretty_Z_nonempty (z : Z) : pretty z <> EmptyString.
Proof.
  assert (HN : forall n : N, pretty n <> EmptyString).
  { intros n. unfold pretty, pretty_N. case_decide as Hn; [discriminate |].
    assert (Hpos : (0 < n)%N) by lia.
    rewrite pretty_N_go_step by exact Hpos.
    apply pretty_N_go_nonempty. discriminate. }
  destruct z as [| p | p]; unfold pretty, pretty_Z.
  - discriminate.
  - apply HN.
  - discriminate.
Qed.

Lemma voiceKey_inj (a b : Z) :
  voiceKey (pretty a) = voiceKey (pretty b) -> a = b.
Proof.
  unfold voiceKey. intros H.
  rewrite !MessageFacts.append_cons_l, !MessageFacts.append_nil_l in H.
  injection H as H. exact (inj pretty _ _ H).
Qed.

Lemma hget_hset (v : VoiceWorld) (key field : string) (value : VoiceState)
    (k f : string) :
  hget (hset v key field value) k f
  = if decide (k = key /\ f = field) then Some value else hget v k f.
Proof.
  unfold hget, hset. cbn [hashes].
  destruct (decide (k = key)) as [-> | Hk].
  - rewrite lookup_insert_eq. cbn [default from_option id].
    destruct (decide (f = field)) as [-> | Hf].
    + rewrite lookup_insert_eq. rewrite decide_True by auto. reflexivity.
    + rewrite lookup_insert_ne by congruence.
      rewrite decide_False by tauto. reflexivity.
  - rewrite lookup_insert_ne by congruence.
    rewrite decide_False by tauto. reflexivity.
Qed.

Lemma hget_hdel (v : VoiceWorld) (key field k f : string) :
  hget (hdel v key field) k f
  = if decide (k = key /\ f = field) then None else hget v k f.
Proof.
  unfold hget, hdel. cbn [hashes].
  destruct (decide (k = key)) as [-> | Hk].
  - rewrite lookup_insert_eq. cbn [default from_option id].
    destruct (decide (f = field)) as [-> | Hf].
    + rewrite lookup_delete_eq. rewrite decide_True by auto. reflexivity.
    + rewrite lookup_delete_ne by congruence.
      rewrite decide_False by tauto. reflexivity.
  - rewrite lookup_insert_ne by congruence.
    rewrite decide_False by tauto. reflexivity.
Qed.

(** What a join does. *)
Lemma handleVoiceStateUpdate_join (voiceEnabled : bool) (now : Z)
    (socket : Socket) (user : User) (data : VoiceStateUpdate) (c : Z)
    (v : VoiceWorld) :
  socket_user socket = Some user ->
  truthy_id (d_channelId data) = Some c ->
  exists v' state,
    handleVoiceStateUpdate voiceEnabled now socket data v = (Returns tt, v')
    /\ vs_channelId state = c
    /\ vs_userId state = user_id user
    /\ (forall k f,
          hget v' k f
          = if decide (k = voiceKey (pretty c) /\ f = pretty (user_id user))
            then Some state else hget v k f)
    /\ strings v' = <[voiceUserKey (user_id user) := pretty c]> (strings v)
    /\ roomsOf v' (socket_id socket)
       = roomsOf v (socket_id socket) ∪ {[voiceKey (pretty c)]}
    /\ sent v'
       = sent v
         ++ (ToRoom (voiceKey (pretty c)), VOICE_STATE_UPDATE state)
            :: (if voiceEnabled
                then [(ToSocket (socket_id socket),
                       VOICE_SERVER_UPDATE
                         (generateVoiceToken now (user_id user) c)
                         (d_guildId data))]
                else []).
Proof.
  intros Huser Hc. unfold handleVoiceStateUpdate. rewrite Huser, Hc.
  cbv zeta. eexists.
  exists (mkVoiceState (user_id user) (d_guildId data) c (socket_id socket)
            (default false (d_selfMute data))
            (default false (d_selfDeaf data))
            (default false (d_selfVideo data))).
  split; [reflexivity |].
  split; [reflexivity |]. split; [reflexivity |].
  split; [| split; [| split]].
  - intros k f. destruct voiceEnabled; apply hget_hset.
  - destruct voiceEnabled; reflexivity.
  - unfold roomsOf. destruct voiceEnabled; cbn; rewrite lookup_insert_eq;
      reflexivity.
  - destruct voiceEnabled; cbn; [rewrite <- app_assoc |]; reflexivity.
Qed.

(** What a leave does when [voice_user:<id>] names a channel. *)
Lemma handleVoiceStateUpdate_leave (voiceEnabled : bool) (now : Z)
    (socket : Socket) (user : User) (data : VoiceStateUpdate)
    (current : string) (v : VoiceWorld) :
  socket_user socket = Some user ->
  truthy_id (d_channelId data) = None ->
  strings v !! voiceUserKey (user_id user) = Some current ->
  current <> EmptyString ->
  exists v',
    handleVoiceStateUpdate voiceEnabled now socket data v = (Returns tt, v')
    /\ (forall k f,
          hget v' k f
          = if decide (k = voiceKey current /\ f = pretty (user_id user))
            then None else hget v k f)
    /\ strings v' = delete (voiceUserKey (user_id user)) (strings v)
    /\ roomsOf v' (socket_id socket)
       = roomsOf v (socket_id socket) ∖ {[voiceKey current]}
    /\ sent v'
       = sent v ++ [(ToRoom (voiceKey current),
                     VOICE_STATE_LEFT (user_id user) (d_guildId data))].
Proof.
  intros Huser Hc Hcur Hne. unfold handleVoiceStateUpdate.
  rewrite Huser, Hc, Hcur. rewrite decide_False by exact Hne.
  cbv zeta. eexists. split; [reflexivity |].
  split; [| split; [| split]].
  - intros k f. apply hget_hdel.
  - reflexivity.
  - unfold roomsOf. cbn. rewrite lookup_insert_eq. reflexivity.
  - reflexivity.
Qed.

Lemma handleVoiceStateUpdate_leave_nothing (voiceEnabled : bool) (now : Z)
    (socket : Socket) (user : User) (data : VoiceStateUpdate)
    (v : VoiceWorld) :
  socket_user socket = Some user ->
  truthy_id (d_channelId data) = None ->
  strings v !! voiceUserKey (user_id user) = None ->
  handleVoiceStateUpdate voiceEnabled now socket data v = (Returns tt, v).
Proof.
  intros Huser Hc Hcur. unfold handleVoiceStateUpdate.
  rewrite Huser, Hc, Hcur. reflexivity.
Qed.

(** X27. Joining a voice channel and then leaving takes the user out
    again: afterwards the user has no entry in the channel's hash and no
    [voice_user] key, the socket has left the channel's room, every other
    entry of every hash is what it was before, and the room has been sent
    the joined state and then the update with [channelId: null].  A
    further leave does nothing at all. *)
Theorem voice_join_then_leave (voiceEnabled : bool) (now : Z)
    (socket : Socket) (user : User) (j l : VoiceStateUpdate) (c : Z)
    (v : VoiceWorld) :
  socket_user socket = Some user ->
  truthy_id (d_channelId j) = Some c ->
  truthy_id (d_channelId l) = None ->
  exists v' state,
    handleVoiceStateUpdates voiceEnabled now socket [j; l] v = v'
    /\ hget v' (voiceKey (pretty c)) (pretty (user_id user)) = None
    /\ strings v' !! voiceUserKey (user_id user) = None
    /\ (voiceKey (pretty c) ∉ roomsOf v' (socket_id socket))
    /\ (forall k f,
          ~ (k = voiceKey (pretty c) /\ f = pretty (user_id user)) ->
          hget v' k f = hget v k f)
    /\ sent v'
       = sent v
         ++ ((ToRoom (voiceKey (pretty c)), VOICE_STATE_UPDATE state)
             :: (if voiceEnabled
                 then [(ToSocket (socket_id socket),
                        VOICE_SERVER_UPDATE
                          (generateVoiceToken now (user_id user) c)
                          (d_guildId j))]
                 else []))
         ++ [(ToRoom (voiceKey (pretty c)),
              VOICE_STATE_LEFT (user_id user) (d_guildId l))]
    /\ handleVoiceStateUpdate voiceEnabled now socket l v' = (Returns tt, v').
Proof.
  intros Huser Hj Hl. cbn [handleVoiceStateUpdates].
  destruct (handleVoiceStateUpdate_join voiceEnabled now socket user j c v
              Huser Hj)
    as (v1 & state & -> & _ & _ & Hh1 & Hs1 & Hr1 & Hsent1).
  cbn [snd].
  assert (Hcur : strings v1 !! voiceUserKey (user_id user) = Some (pretty c)).
  { rewrite Hs1. apply lookup_insert_eq. }
  destruct (handleVoiceStateUpdate_leave voiceEnabled now socket user l
              (pretty c) v1 Huser Hl Hcur (pretty_Z_nonempty c))
    as (v2 & -> & Hh2 & Hs2 & Hr2 & Hsent2).
  cbn [snd]. exists v2, state. split; [reflexivity |].
  split. { rewrite Hh2, decide_True by auto. reflexivity. }
  assert (Hgone : strings v2 !! voiceUserKey (user_id user) = None).
  { rewrite Hs2. apply lookup_delete_eq. }
  split; [exact Hgone |].
  split.
  { rewrite Hr2. intros Hin. apply elem_of_difference in Hin as [_ Hn].
    apply Hn, elem_of_singleton. reflexivity. }
  split.
  { intros k f Hkf. rewrite Hh2, decide_False by exact Hkf.
    rewrite Hh1, decide_False by exact Hkf. reflexivity. }
  split.
  { rewrite Hsent2, Hsent1, <- app_assoc. reflexivity. }
  exact (handleVoiceStateUpdate_leave_nothing voiceEnabled now socket user l
           v2 Huser Hl Hgone).
Qed.

Lemma voice_join_then_leave_witness :
  hget (handleVoiceStateUpdates true 1000 (Sample.socket7 "s1")
          [joining 20; leaving] empty)
       (voiceKey "20") "7"
  = None.
Proof.
  destruct (voice_join_then_leave true 1000 (Sample.socket7 "s1")
              (mkUser 7 "seven") (joining 20) leaving 20 empty
              eq_refl eq_refl eq_refl)
    as (v' & state & <- & Hgone & _).
  exact Hgone.
Defined.

(** X28. Moving from one voice channel to another leaves the user behind
    in the first: after joining [c1], joining [c2] and leaving, the hash
    of [c1] still holds the state written by the first join and the
    socket is still in the room of [c1], while the hash of [c2], the
    [voice_user] key and the room of [c2] are cleared; no update was sent
    to the room of [c1] after the first join, and a further leave does
    nothing, so the entry in [c1] stays. *)
Theorem voice_move_leaves_stale_state (voiceEnabled : bool) (now : Z)
    (socket : Socket) (user : User) (j1 j2 l : VoiceStateUpdate)
    (c1 c2 : Z) (v : VoiceWorld) :
  socket_user socket = Some user ->
  truthy_id (d_channelId j1) = Some c1 ->
  truthy_id (d_channelId j2) = Some c2 ->
  truthy_id (d_channelId l) = None ->
  c1 <> c2 ->
  exists v' state1,
    handleVoiceStateUpdates voiceEnabled now socket [j1; j2; l] v = v'
    /\ hget v' (voiceKey (pretty c1)) (pretty (user_id user)) = Some state1
    /\ vs_channelId state1 = c1
    /\ (voiceKey (pretty c1) ∈ roomsOf v' (socket_id socket))
    /\ hget v' (voiceKey (pretty c2)) (pretty (user_id user)) = None
    /\ strings v' !! voiceUserKey (user_id user) = None
    /\ (voiceKey (pretty c2) ∉ roomsOf v' (socket_id socket))
    /\ (exists later,
          sent v'
          = sent v ++ ((ToRoom (voiceKey (pretty c1)),
                        VOICE_STATE_UPDATE state1) :: later)
          /\ Forall (fun te => te.1 <> ToRoom (voiceKey (pretty c1))) later)
    /\ handleVoiceStateUpdate voiceEnabled now socket l v' = (Returns tt, v').
Proof.
  intros Huser Hj1 Hj2 Hl Hne. cbn [handleVoiceStateUpdates].
  assert (Hkey : voiceKey (pretty c1) <> voiceKey (pretty c2)).
  { intros H. apply voiceKey_inj in H. contradiction. }
  destruct (handleVoiceStateUpdate_join voiceEnabled now socket user j1 c1 v
              Huser Hj1)
    as (v1 & state1 & -> & Hc1 & _ & Hh1 & Hs1 & Hr1 & Hsent1).
  cbn [snd].
  destruct (handleVoiceStateUpdate_join voiceEnabled now socket user j2 c2 v1
              Huser Hj2)
    as (v2 & state2 & -> & _ & _ & Hh2 & Hs2 & Hr2 & Hsent2).
  cbn [snd].
  assert (Hcur : strings v2 !! voiceUserKey (user_id user)
                 = Some (pretty c2)).
  { rewrite Hs2. apply lookup_insert_eq. }
  destruct (handleVoiceStateUpdate_leave voiceEnabled now socket user l
              (pretty c2) v2 Huser Hl Hcur (pretty_Z_nonempty c2))
    as (v3 & -> & Hh3 & Hs3 & Hr3 & Hsent3).
  cbn [snd]. exists v3, state1. split; [reflexivity |].
  split.
  { rewrite Hh3, decide_False by tauto. rewrite Hh2, decide_False by tauto.
    rewrite Hh1, decide_True by auto. reflexivity. }
  split; [exact Hc1 |].
  split.
  { rewrite Hr3, Hr2, Hr1. apply elem_of_difference. split.
    - apply elem_of_union. left. apply elem_of_union. right.
      apply elem_of_singleton. reflexivity.
    - intros H. apply elem_of_singleton in H. contradiction. }
  split. { rewrite Hh3, decide_True by auto. reflexivity. }
  assert (Hgone : strings v3 !! voiceUserKey (user_id user) = None).
  { rewrite Hs3. apply lookup_delete_eq. }
  split; [exact Hgone |].
  split.
  { rewrite Hr3. intros Hin. apply elem_of_difference in Hin as [_ Hn].
    apply Hn, elem_of_singleton. reflexivity. }
  split.
  { eexists. split.
    - rewrite Hsent3, Hsent2, Hsent1. rewrite <- !app_assoc.
      cbn [app]. rewrite <- ?app_assoc. reflexivity.
    - assert (Hroom : ToRoom (voiceKey (pretty c2))
                      <> ToRoom (voiceKey (pretty c1))).
      { intros H. apply Hkey. symmetry.
        exact (f_equal (fun t => match t with
                                 | ToRoom room => room
                                 | _ => EmptyString
                                 end) H). }
      destruct voiceEnabled; cbn [app];
        repeat (constructor; [cbn; first [exact Hroom | discriminate] |]);
        constructor. }
  exact (handleVoiceStateUpdate_leave_nothing voiceEnabled now socket user l
           v3 Huser Hl Hgone).
Qed.

Lemma voice_move_leaves_stale_state_witness :
  exists state1,
    hget (handleVoiceStateUpdates true 1000 (Sample.socket7 "s1")
            [joining 20; joining 21; leaving] empty)
         (voiceKey "20") "7"
    = Some state1.
Proof.
  destruct (voice_move_leaves_stale_state true 1000 (Sample.socket7 "s1")
              (mkUser 7 "seven") (joining 20) (joining 21) leaving 20 21
              empty eq_refl eq_refl eq_refl eq_refl)
    as (v' & state1 & <- & Hstale & _).
  - discriminate.
  - exists state1. exact Hstale.
Defined.

End VoiceFacts.

(** ** middleware/auth.ts: the events of a gateway process *)

Module GatewayEventFacts.

Import Gateway GatewayEvents.

Local Ltac unfold_M :=
  unfold mbind, M_bind, mret, M_ret, gets, throw, modify.

(** *** The socket sets of the users *)

Lemma handleMessageCreate_userSockets (socket : Socket)
    (data : MessageCreatePayload) (w : World) :
  userSockets (handleMessageCreate socket data w).2 = userSockets w.
Proof.
  unfold handleMessageCreate.
  destruct (socket_user socket) as [user |]; [| reflexivity].
  unfold_M.
  destruct (findChannel (db w) (p_channelId data)) as [channel |];
    [| reflexivity].
  destruct (truthy_id (channel_serverId channel)) as [serverId |].
  - destruct (findMember (db w) serverId (user_id user)) as [member |];
      [| reflexivity].
    unfold snowflake_generate, messages_create.
    destruct (Snowflake.generate (snowflake w) (clock w)) as [[og g] c].
    destruct og as [id | msg |]; reflexivity.
  - destruct (findRecipient (db w) (p_channelId data) (user_id user))
      as [recipient |]; [| reflexivity].
    unfold snowflake_generate, messages_create.
    destruct (Snowflake.generate (snowflake w) (clock w)) as [[og g] c].
    destruct og as [id | msg |]; reflexivity.
Qed.


Lemma no_empty_set_userSockets (w w' : World) :
  userSockets w' = userSockets w -> no_empty_set w -> no_empty_set w'.
Proof. unfold no_empty_set. intros ->. auto. Qed.

Lemma on_IDENTIFY_verified_no_empty_set (now : Z) (socket : Socket)
    (user : User) (w : World) :
  no_empty_set w -> no_empty_set (on_IDENTIFY_verified now socket user w).2.
Proof.
  unfold no_empty_set, on_IDENTIFY_verified. cbv zeta. cbn [snd].
  intros Hinv k sockets. cbn.
  destruct (decide (is_Some (userSockets w !! pretty (user_id user))));
    cbn; intros Hk.
  - destruct (decide (k = pretty (user_id user))) as [-> | Hne].
    + rewrite lookup_insert_eq in Hk. injection Hk as <-.
      intros Hempty. apply empty_union_L in Hempty as [_ Hempty].
      exact (non_empty_singleton_L (socket_id socket) Hempty).
    + rewrite lookup_insert_ne in Hk by congruence. eauto.
  - destruct (decide (k = pretty (user_id user))) as [-> | Hne].
    + rewrite lookup_insert_eq in Hk. injection Hk as <-.
      intros Hempty. apply empty_union_L in Hempty as [_ Hempty].
      exact (non_empty_singleton_L (socket_id socket) Hempty).
    + rewrite !lookup_insert_ne in Hk by congruence. eauto.
Qed.

Lemma on_disconnect_no_empty_set (now : Z) (socket : Socket) (w : World) :
  no_empty_set w -> no_empty_set (on_disconnect now socket w).
Proof.
  unfold no_empty_set, on_disconnect. cbv zeta. intros Hinv k sockets.
  destruct (socket_authenticated socket); [| cbn; eauto].
  destruct (socket_user socket) as [user |]; [| cbn; eauto].
  cbn [userSockets set_registry set_connectedClients].
  destruct (userSockets w !! pretty (user_id user)) as [S |] eqn:HS;
    [| cbn; eauto].
  destruct (size (S ∖ {[socket_id socket]}) =? 0)%nat eqn:Hsize; cbn.
  - intros Hk.
    destruct (decide (k = pretty (user_id user))) as [-> | Hne].
    + rewrite lookup_delete_eq in Hk. discriminate.
    + rewrite lookup_delete_ne, lookup_insert_ne in Hk by congruence. eauto.
  - intros Hk.
    destruct (decide (k = pretty (user_id user))) as [-> | Hne].
    + rewrite lookup_insert_eq in Hk. injection Hk as <-.
      intros Hempty. rewrite Hempty, size_empty in Hsize. discriminate.
    + rewrite lookup_insert_ne in Hk by congruence. eauto.
Qed.

Lemma step_no_empty_set (w : World) (e : Event) :
  no_empty_set w -> no_empty_set (step w e).
Proof.
  destruct e as [now socket user | now socket status | socket data
                | now socket]; cbn [step].
  - apply on_IDENTIFY_verified_no_empty_set.
  - apply no_empty_set_userSockets. unfold on_PRESENCE_UPDATE.
    destruct (socket_authenticated socket); [| reflexivity].
    destruct (socket_user socket); reflexivity.
  - apply no_empty_set_userSockets. unfold on_MESSAGE_CREATE.
    destruct (socket_authenticated socket); [| reflexivity]. cbn [negb].
    pose proof (handleMessageCreate_userSockets socket data w) as Hus.
    destruct (handleMessageCreate socket data w) as [[m | error |] w'];
      exact Hus.
  - apply on_disconnect_no_empty_set.
Qed.

(** X30. The [userSockets] map of a process never maps a user to an
    empty set: if it does not at the start (the map is empty when the
    process starts), it does not after any sequence of verified
    [IDENTIFY], [PRESENCE_UPDATE], [MESSAGE_CREATE] and [disconnect]
    events, on whatever sockets and in whatever order. *)
Theorem userSockets_has_no_empty_set (events : list Event) (w : World) :
  no_empty_set w -> no_empty_set (run events w).
Proof.
  unfold run. revert w. induction events as [| e rest IH]; intros w Hinv;
    cbn [fold_left]; [exact Hinv |].
  apply IH, step_no_empty_set, Hinv.
Qed.

Lemma userSockets_has_no_empty_set_witness :
  no_empty_set
    (run [Identified 1000 (mkSocket "s1" false None) (mkUser 7 "seven");
          Disconnect 2000 (Sample.socket7 "s1")]
         Sample.world).
Proof.
  apply (userSockets_has_no_empty_set
           [Identified 1000 (mkSocket "s1" false None) (mkUser 7 "seven");
            Disconnect 2000 (Sample.socket7 "s1")]
           Sample.world).
  intros k sockets Hk. vm_compute in Hk. discriminate Hk.
Defined.

End GatewayEventFacts.
